(** * fetchfy-operator: the reconciliation core, embedded and verified

    A shallow embedding of the Go sources

      - [api/v1alpha1/gateway_types.go]           (module [v1alpha1])
      - [pkg/mcp/registry.go], [pkg/mcp/server.go] (module [mcp])
      - [pkg/services/watcher.go]                 (module [services])
      - [internal/controller/gateway_controller.go] (module [controller])

    Go packages become modules, structs become records, Go maps become
    [gmap]s (a map that may be [nil] is an [option (gmap _ _)]), the
    [error] interface is one inductive type, and the code that talks to
    the API server, reads the clock or drives a listener is written in a
    small state monad over the [World] the operator runs in.

    Not modelled: logging (no observable state), the mutexes (every
    function runs to completion on the state it is given) and the HTTP
    accept loop that [Start] launches on its own goroutine. *)

From stdpp Require Import gmap strings list fin_maps pretty.

Open Scope string_scope.
#[local] Set Warnings "-clear-no-such-hyp".

(** ** Shared basics *)

(** A reading of [time.Now()], in whole seconds: the precision a
    [metav1.Time] keeps once it is written to the API server.  Two
    readings may coincide. *)
Definition Time := nat.

(** [types.NamespacedName] *)
Record NamespacedName := mkNN { nn_Namespace : string; nn_Name : string }.

Global Instance NamespacedName_eq_dec : EqDecision NamespacedName.
Proof. solve_decision. Defined.

Global Instance NamespacedName_countable : Countable NamespacedName.
Proof.
  refine (inj_countable' (λ k, (nn_Namespace k, nn_Name k))
                         (λ p, mkNN p.1 p.2) _).
  by intros [].
Defined.

(** The values of Go's [error] interface that this code creates or
    receives; [Error_string] is the method [Error()]. *)
Inductive error :=
  | ErrNoAnnotations (namespace name : string)
      (* fmt.Errorf("service %s/%s has no annotations", ns, name) *)
  | ErrAlreadyStarted
      (* fmt.Errorf("server already started") *)
  | ErrNotFound (key : NamespacedName)
      (* an API error for which errors.IsNotFound holds *)
  | ErrOther (msg : string).
      (* any other failure of a library call *)

Global Instance error_eq_dec : EqDecision error.
Proof. solve_decision. Defined.

Definition Error_string (e : error) : string :=
  match e with
  | ErrNoAnnotations ns n => "service " +:+ ns +:+ "/" +:+ n +:+ " has no annotations"
  | ErrAlreadyStarted => "server already started"
  | ErrNotFound k => nn_Namespace k +:+ "/" +:+ nn_Name k +:+ " not found"
  | ErrOther msg => msg
  end.

(** [errors.IsNotFound] *)
Definition IsNotFound (e : error) : bool :=
  match e with ErrNotFound _ => true | _ => false end.

(** The error classes the specification names. *)
Definition MissingMetadata (e : error) : Prop := ∃ ns n, e = ErrNoAnnotations ns n.
Definition AlreadyStarted (e : error) : Prop := e = ErrAlreadyStarted.

(** [m[k]] on a Go [map[string]string] that may be nil: the zero value
    when the key (or the map) is absent. *)
Definition index (m : option (gmap string string)) (k : string) : string :=
  match m with
  | Some m => default "" (m !! k)
  | None => ""
  end.

(** ** k8s.io/apimachinery/pkg/apis/meta/v1 *)
Module metav1.

Definition ConditionStatus := string.
Definition ConditionTrue : ConditionStatus := "True".
Definition ConditionFalse : ConditionStatus := "False".

Record Condition := mkCondition {
  cond_Type : string;
  cond_Status : ConditionStatus;
  cond_ObservedGeneration : Z;
  cond_LastTransitionTime : Time;
  cond_Reason : string;
  cond_Message : string;
}.

Global Instance Condition_eq_dec : EqDecision Condition.
Proof. solve_decision. Defined.

Record LabelSelectorRequirement := mkRequirement {
  req_Key : string;
  req_Operator : string;
  req_Values : list string;
}.

Record LabelSelector := mkLabelSelector {
  MatchLabels : gmap string string;
  MatchExpressions : list LabelSelectorRequirement;
}.

(** [labels.Selector], through its method [Matches] on a label set. *)
Definition Selector := gmap string string → bool.

(** [labels.NewRequirement] accepts a requirement when its operator is a
    selector operator with the number of values it asks for: at least one
    for [In] and [NotIn], none for [Exists] and [DoesNotExist]. *)
Definition requirementValid (r : LabelSelectorRequirement) : bool :=
  if decide (req_Operator r = "In") then negb (bool_decide (req_Values r = []))
  else if decide (req_Operator r = "NotIn") then negb (bool_decide (req_Values r = []))
  else if decide (req_Operator r = "Exists") then bool_decide (req_Values r = [])
  else if decide (req_Operator r = "DoesNotExist") then bool_decide (req_Values r = [])
  else false.

(** [labels.Requirement.Matches] *)
Definition requirementMatches (r : LabelSelectorRequirement)
    (ls : gmap string string) : bool :=
  if decide (req_Operator r = "In") then
    match ls !! req_Key r with
    | Some v => bool_decide (v ∈ req_Values r)
    | None => false
    end
  else if decide (req_Operator r = "NotIn") then
    match ls !! req_Key r with
    | Some v => negb (bool_decide (v ∈ req_Values r))
    | None => true
    end
  else if decide (req_Operator r = "Exists") then
    bool_decide (is_Some (ls !! req_Key r))
  else if decide (req_Operator r = "DoesNotExist") then
    negb (bool_decide (is_Some (ls !! req_Key r)))
  else false.

(** The selector semantics of apimachinery, without its checks of the
    syntax of keys and values: every [MatchLabels] pair must be carried
    and every requirement must hold.  The operator's code takes
    [LabelSelectorAsSelector] as a parameter; this is the instance that
    concrete worlds are run with. *)
Definition matchSelector (ps : LabelSelector) : error + Selector :=
  if forallb requirementValid (MatchExpressions ps)
  then inr (λ ls,
         bool_decide (map_Forall (λ k v, ls !! k = Some v) (MatchLabels ps))
         && forallb (λ r, requirementMatches r ls) (MatchExpressions ps))
  else inl (ErrOther "invalid label selector requirement").

End metav1.

(** ** k8s.io/api/core/v1 *)
Module corev1.

Definition ServiceType := string.
Definition ServiceTypeClusterIP : ServiceType := "ClusterIP".

Record ServicePort := mkServicePort {
  port_Name : string;
  port_Port : Z;
}.

Record ServiceSpec := mkServiceSpec {
  spec_Type : ServiceType;
  spec_Ports : list ServicePort;
}.

Record Service := mkService {
  svc_Name : string;
  svc_Namespace : string;
  svc_Labels : option (gmap string string);
  svc_Annotations : option (gmap string string);
  svc_Spec : ServiceSpec;
}.

Global Instance ServicePort_eq_dec : EqDecision ServicePort.
Proof. solve_decision. Defined.
Global Instance ServiceSpec_eq_dec : EqDecision ServiceSpec.
Proof. solve_decision. Defined.
Global Instance Service_eq_dec : EqDecision Service.
Proof. solve_decision. Defined.

Definition svc_key (svc : Service) : NamespacedName :=
  mkNN (svc_Namespace svc) (svc_Name svc).

End corev1.

(** ** api/v1alpha1/gateway_types.go *)
Module v1alpha1.

Record MCPServiceInfo := mkMCPServiceInfo {
  info_Name : string;
  info_Namespace : string;
  info_Type : string;
  info_Endpoint : string;
  info_Status : string;
  info_LastUpdated : Time;
}.

Global Instance MCPServiceInfo_eq_dec : EqDecision MCPServiceInfo.
Proof. solve_decision. Defined.

Record GatewaySpec := mkGatewaySpec {
  MCPPort : Z;
  ServiceSelector : metav1.LabelSelector;
  EnableTLS : bool;
  TLSSecretRef : string;
}.

Record GatewayStatus := mkGatewayStatus {
  Conditions : list metav1.Condition;
  MCPServices : list MCPServiceInfo;
  Address : string;
}.

(** [metav1.ObjectMeta] is embedded in the Go struct; its fields that the
    operator reads or writes are inlined here. *)
Record Gateway := mkGateway {
  gw_Name : string;
  gw_Namespace : string;
  gw_Generation : Z;
  gw_DeletionTimestamp : option Time;
  gw_Finalizers : list string;
  gw_Spec : GatewaySpec;
  gw_Status : GatewayStatus;
}.

Definition gw_key (g : Gateway) : NamespacedName :=
  mkNN (gw_Namespace g) (gw_Name g).

Definition set_Status (g : Gateway) (st : GatewayStatus) : Gateway :=
  mkGateway (gw_Name g) (gw_Namespace g) (gw_Generation g)
            (gw_DeletionTimestamp g) (gw_Finalizers g) (gw_Spec g) st.

Definition set_Finalizers (g : Gateway) (fs : list string) : Gateway :=
  mkGateway (gw_Name g) (gw_Namespace g) (gw_Generation g)
            (gw_DeletionTimestamp g) fs (gw_Spec g) (gw_Status g).

Definition set_Conditions (g : Gateway) (cs : list metav1.Condition) : Gateway :=
  set_Status g (mkGatewayStatus cs (MCPServices (gw_Status g)) (Address (gw_Status g))).

Definition set_MCPServices (g : Gateway) (l : list MCPServiceInfo) : Gateway :=
  set_Status g (mkGatewayStatus (Conditions (gw_Status g)) l (Address (gw_Status g))).

Definition set_Address (g : Gateway) (a : string) : Gateway :=
  set_Status g (mkGatewayStatus (Conditions (gw_Status g)) (MCPServices (gw_Status g)) a).

End v1alpha1.

(** ** sigs.k8s.io/controller-runtime/pkg/controller/controllerutil *)
Module controllerutil.
Import v1alpha1.

Definition ContainsFinalizer (g : Gateway) (finalizer : string) : bool :=
  bool_decide (finalizer ∈ gw_Finalizers g).

Definition AddFinalizer (g : Gateway) (finalizer : string) : Gateway :=
  if ContainsFinalizer g finalizer then g
  else set_Finalizers g (gw_Finalizers g ++ [finalizer]).

Definition RemoveFinalizer (g : Gateway) (finalizer : string) : Gateway :=
  set_Finalizers g (filter (λ f, f ≠ finalizer) (gw_Finalizers g)).

End controllerutil.

(** ** pkg/mcp: registry.go and server.go *)
Module mcp.
Import corev1 v1alpha1.

Inductive ServiceType := ServiceTypeTool | ServiceTypeAgent.

Definition ServiceType_string (t : ServiceType) : string :=
  match t with ServiceTypeTool => "tool" | ServiceTypeAgent => "agent" end.

Inductive ServiceStatus :=
  | ServiceStatusAvailable
  | ServiceStatusPending
  | ServiceStatusUnavailable.

Definition ServiceStatus_string (s : ServiceStatus) : string :=
  match s with
  | ServiceStatusAvailable => "Available"
  | ServiceStatusPending => "Pending"
  | ServiceStatusUnavailable => "Unavailable"
  end.

Global Instance ServiceType_eq_dec : EqDecision ServiceType.
Proof. solve_decision. Defined.
Global Instance ServiceStatus_eq_dec : EqDecision ServiceStatus.
Proof. solve_decision. Defined.

Record MCPService := mkMCPService {
  ms_Name : string;
  ms_Namespace : string;
  ms_Type : ServiceType;
  ms_Endpoint : string;
  ms_Status : ServiceStatus;
  ms_Service : Service;
  ms_UpdatedAt : Time;
}.

Global Instance MCPService_eq_dec : EqDecision MCPService.
Proof. solve_decision. Defined.

(** The registry is its [services] map. *)
Record Registry := mkRegistry {
  services : gmap NamespacedName MCPService;
}.

Definition NewRegistry : Registry := mkRegistry ∅.

(** [RegisterService]; [now] is what [time.Now()] returns in the call. *)
Definition RegisterService (now : Time) (r : Registry) (svc : Service)
    (serviceType : ServiceType) : Registry * (error + MCPService) :=
  let key := mkNN (svc_Namespace svc) (svc_Name svc) in
  match svc_Annotations svc with
  | None => (r, inl (ErrNoAnnotations (svc_Namespace svc) (svc_Name svc)))
  | Some annotations =>
      let endpoint :=
        match annotations !! "mcp.fetchfy.ai/endpoint" with
        | Some e => e
        | None => "/mcp/" +:+ svc_Namespace svc +:+ "/" +:+ svc_Name svc
        end in
      let status :=
        if bool_decide (spec_Type (svc_Spec svc) = ServiceTypeClusterIP)
           && bool_decide (0 < length (spec_Ports (svc_Spec svc)))
        then ServiceStatusAvailable
        else ServiceStatusPending in
      let mcpService :=
        mkMCPService (svc_Name svc) (svc_Namespace svc) serviceType
                     endpoint status svc now in
      (mkRegistry (<[key := mcpService]> (services r)), inr mcpService)
  end.

Definition DeregisterService (r : Registry) (name : NamespacedName)
    : Registry * bool :=
  match services r !! name with
  | Some _ => (mkRegistry (delete name (services r)), true)
  | None => (r, false)
  end.

Definition GetService (r : Registry) (name : NamespacedName)
    : option MCPService :=
  services r !! name.

(** [for _, svc := range r.services]: Go leaves the order of a map
    range open; the embedding ranges in the order of [map_to_list], and
    the theorems about the result are stated up to that order. *)
Definition range (r : Registry) : list MCPService :=
  (map_to_list (services r)).*2.

Definition ListServices (r : Registry) : list MCPService := range r.

Definition toInfo (svc : MCPService) : MCPServiceInfo :=
  mkMCPServiceInfo (ms_Name svc) (ms_Namespace svc)
                   (ServiceType_string (ms_Type svc)) (ms_Endpoint svc)
                   (ServiceStatus_string (ms_Status svc)) (ms_UpdatedAt svc).

Definition UpdateRegistryStatus (r : Registry) (gateway : Gateway) : Gateway :=
  set_MCPServices gateway (toInfo <$> range r).

(** *** server.go *)

Record HttpServer := mkHttpServer { Addr : string }.

Record Server := mkServer {
  httpServer : option HttpServer;
  port : Z;
  gatewayRef : NamespacedName;
  enableTLS : bool;
  tlsSecretName : string;
  started : bool;
}.

Global Instance HttpServer_eq_dec : EqDecision HttpServer.
Proof. solve_decision. Defined.
Global Instance Server_eq_dec : EqDecision Server.
Proof. solve_decision. Defined.

Definition NewServer : Server := mkServer None 0 (mkNN "" "") false "" false.

Definition Configure (s : Server) (gateway : Gateway) : Server :=
  mkServer (httpServer s) (MCPPort (gw_Spec gateway))
           (mkNN (gw_Namespace gateway) (gw_Name gateway))
           (EnableTLS (gw_Spec gateway)) (TLSSecretRef (gw_Spec gateway))
           (started s).

(** [Start]: the accept loop runs on its own goroutine and only logs its
    failure, so a first [Start] returns nil whatever the port does. *)
Definition Start (s : Server) : Server * option error :=
  if started s then (s, Some ErrAlreadyStarted)
  else
    let addr := ":" +:+ pretty (port s) in
    (mkServer (Some (mkHttpServer addr)) (port s) (gatewayRef s)
              (enableTLS s) (tlsSecretName s) true, None).

(** [Stop]; [shutdown] is what [httpServer.Shutdown(ctx)] returns. *)
Definition Stop (shutdown : option error) (s : Server) : Server * option error :=
  if negb (started s) || bool_decide (httpServer s = None) then (s, None)
  else
    (mkServer (httpServer s) (port s) (gatewayRef s) (enableTLS s)
              (tlsSecretName s) false, shutdown).

Definition IsRunning (s : Server) : bool := started s.

(** *** The handlers of server.go, over net/http

    A request is its method and URL path; a response writer is the header
    map, the status line once it is written, and the body written so far.
    The header keys the handlers use are in canonical form already. *)
Record Request := mkRequest { req_Method : string; req_Path : string }.

Record ResponseWriter := mkResponseWriter {
  rw_Header : gmap string string;
  rw_Status : option Z;
  rw_Body : string;
}.

Definition NewRecorder : ResponseWriter := mkResponseWriter ∅ None "".

(** [w.Header().Set(k, v)] *)
Definition Header_Set (k v : string) (w : ResponseWriter) : ResponseWriter :=
  mkResponseWriter (<[k := v]> (rw_Header w)) (rw_Status w) (rw_Body w).

(** [w.WriteHeader(code)]: the first status line stands. *)
Definition WriteHeader (code : Z) (w : ResponseWriter) : ResponseWriter :=
  match rw_Status w with
  | Some _ => w
  | None => mkResponseWriter (rw_Header w) (Some code) (rw_Body w)
  end.

(** [w.Write(b)]: writes the status line 200 first if none was written. *)
Definition Write (b : string) (w : ResponseWriter) : ResponseWriter :=
  let w := WriteHeader 200 w in
  mkResponseWriter (rw_Header w) (rw_Status w) (rw_Body w +:+ b).

Definition newline : string := String (Ascii.ascii_of_nat 10) EmptyString.
Definition dquote : string := String (Ascii.ascii_of_nat 34) EmptyString.

(** [http.Error(w, msg, code)] *)
Definition http_Error (msg : string) (code : Z) (w : ResponseWriter) : ResponseWriter :=
  let w := mkResponseWriter (delete "Content-Length" (rw_Header w))
                            (rw_Status w) (rw_Body w) in
  let w := Header_Set "Content-Type" "text/plain; charset=utf-8" w in
  let w := Header_Set "X-Content-Type-Options" "nosniff" w in
  let w := WriteHeader code w in
  Write (msg +:+ newline) w.

Definition StatusOK : Z := 200.
Definition StatusNotFound : Z := 404.
Definition StatusMethodNotAllowed : Z := 405.
Definition MethodGet : string := "GET".

(** [http.NotFound(w, r)] *)
Definition http_NotFound (w : ResponseWriter) : ResponseWriter :=
  http_Error "404 page not found" StatusNotFound w.

(** The root handler that [Start] installs for health checks. *)
Definition handleRoot (w : ResponseWriter) (r : Request) : ResponseWriter :=
  if negb (bool_decide (req_Path r = "/")) then http_NotFound w
  else
    let w := WriteHeader StatusOK w in
    Write "Fetchfy MCP Gateway: OK" w.

(** [handleMCPRequest] *)
Definition handleMCPRequest (w : ResponseWriter) (r : Request) : ResponseWriter :=
  let w := Header_Set "Content-Type" "application/json" w in
  let w := WriteHeader StatusOK w in
  Write ("{" +:+ dquote +:+ "status" +:+ dquote +:+ ":" +:+ dquote +:+ "ok" +:+ dquote
         +:+ "," +:+ dquote +:+ "message" +:+ dquote +:+ ":" +:+ dquote
         +:+ "MCP request received" +:+ dquote +:+ "}") w.

(** [handleListServices]; the registry is the one the server was created
    with. *)
Definition handleListServices (registry : Registry) (w : ResponseWriter)
    (r : Request) : ResponseWriter :=
  if negb (bool_decide (req_Method r = MethodGet)) then
    http_Error "Method not allowed" StatusMethodNotAllowed w
  else
    let services := ListServices registry in
    let w := Header_Set "Content-Type" "application/json" w in
    let w := WriteHeader StatusOK w in
    Write ("{" +:+ dquote +:+ "services" +:+ dquote +:+ ":"
           +:+ pretty (length services) +:+ "}") w.

End mcp.

(** ** The world the operator runs in

    The API server's objects, the process state that the reconciler and
    the watcher share through pointers ([MCPRegistry], the watcher's
    [gateways] map, [MCPServers]), and what the environment decides: the
    readings of the clock and the failures of calls that leave the
    process.  [trace] records the effects in the order they happen. *)
Module runtime.
Import corev1 v1alpha1.

Inductive Event :=
  | EvServerStart (k : NamespacedName)
  | EvServerStop (k : NamespacedName) (server : mcp.Server) (res : option error)
      (* server.Stop(ctx) returned res and left the handle as server *)
  | EvServerDiscard (k : NamespacedName)    (* delete(r.MCPServers, k) *)
  | EvAddGateway (k : NamespacedName)
  | EvRemoveGateway (k : NamespacedName)
  | EvUpdate (g : Gateway) (res : option error)         (* r.Update *)
  | EvStatusUpdate (g : Gateway) (res : option error).  (* r.Status().Update *)

Record World := mkWorld {
  api_gateways : gmap NamespacedName Gateway;
  api_services : gmap NamespacedName Service;
  MCPRegistry : mcp.Registry;
  sw_gateways : gmap NamespacedName Gateway;
  MCPServers : gmap NamespacedName mcp.Server;
  clock : nat → Time;            (* the n-th reading of time.Now() *)
  reads : nat;                   (* readings taken so far *)
  faults : list (option error);  (* outcomes of the next outgoing calls *)
  trace : list Event;
}.

Definition M (A : Type) : Type := World → A * World.

Global Instance M_ret : MRet M := λ A a w, (a, w).
Global Instance M_bind : MBind M :=
  λ A B f m w, let '(a, w') := m w in f a w'.

Definition set_api_gateways (f : gmap NamespacedName Gateway → gmap NamespacedName Gateway)
    (w : World) : World :=
  mkWorld (f (api_gateways w)) (api_services w) (MCPRegistry w) (sw_gateways w)
          (MCPServers w) (clock w) (reads w) (faults w) (trace w).

Definition set_MCPRegistry (r : mcp.Registry) (w : World) : World :=
  mkWorld (api_gateways w) (api_services w) r (sw_gateways w)
          (MCPServers w) (clock w) (reads w) (faults w) (trace w).

Definition set_sw_gateways (f : gmap NamespacedName Gateway → gmap NamespacedName Gateway)
    (w : World) : World :=
  mkWorld (api_gateways w) (api_services w) (MCPRegistry w) (f (sw_gateways w))
          (MCPServers w) (clock w) (reads w) (faults w) (trace w).

Definition set_MCPServers (f : gmap NamespacedName mcp.Server → gmap NamespacedName mcp.Server)
    (w : World) : World :=
  mkWorld (api_gateways w) (api_services w) (MCPRegistry w) (sw_gateways w)
          (f (MCPServers w)) (clock w) (reads w) (faults w) (trace w).

Definition set_reads (n : nat) (w : World) : World :=
  mkWorld (api_gateways w) (api_services w) (MCPRegistry w) (sw_gateways w)
          (MCPServers w) (clock w) n (faults w) (trace w).

Definition set_faults (fs : list (option error)) (w : World) : World :=
  mkWorld (api_gateways w) (api_services w) (MCPRegistry w) (sw_gateways w)
          (MCPServers w) (clock w) (reads w) fs (trace w).

Definition emit (e : Event) : M unit := λ w,
  (tt, mkWorld (api_gateways w) (api_services w) (MCPRegistry w) (sw_gateways w)
               (MCPServers w) (clock w) (reads w) (faults w) (trace w ++ [e])).

(** The instant the next [time.Now()] returns. *)
Definition now (w : World) : Time := clock w (reads w).

(** The outcome the environment gives the next outgoing call: [None]
    when it goes through. *)
Definition outcome : M (option error) := λ w,
  match faults w with
  | [] => (None, w)
  | f :: fs => (f, set_faults fs w)
  end.

(** [for _, x := range xs { body }] *)
Fixpoint forM_ {A} (xs : list A) (body : A → M unit) : M unit :=
  match xs with
  | [] => mret tt
  | x :: xs => body x ;; forM_ xs body
  end.

(** *** sigs.k8s.io/controller-runtime/pkg/client, against the store *)

Definition Get_Service (key : NamespacedName) : M (error + Service) :=
  f ← outcome;
  match f with
  | Some err => mret (inl err)
  | None => λ w,
      match api_services w !! key with
      | Some svc => (inr svc, w)
      | None => (inl (ErrNotFound key), w)
      end
  end.

Definition Get_Gateway (key : NamespacedName) : M (error + Gateway) :=
  f ← outcome;
  match f with
  | Some err => mret (inl err)
  | None => λ w,
      match api_gateways w !! key with
      | Some g => (inr g, w)
      | None => (inl (ErrNotFound key), w)
      end
  end.

(** [List] over all namespaces with a label selector. *)
Definition List_Services (selector : metav1.Selector) : M (error + list Service) :=
  f ← outcome;
  match f with
  | Some err => mret (inl err)
  | None => λ w,
      (inr (filter (λ svc, selector (default ∅ (svc_Labels svc)))
                   (map_to_list (api_services w)).*2), w)
  end.

(** What the store holds after an accepted [Update]: metadata and spec
    are written, the status is not (it is a subresource); an object
    marked for deletion whose last finalizer is gone is released. *)
Definition stored_after_Update (g old : Gateway)
    (store : gmap NamespacedName Gateway) : gmap NamespacedName Gateway :=
  if bool_decide (is_Some (gw_DeletionTimestamp g))
     && bool_decide (gw_Finalizers g = [])
  then delete (gw_key g) store
  else <[gw_key g := set_Status g (gw_Status old)]> store.

Definition Update (g : Gateway) : M (option error) :=
  f ← outcome;
  match f with
  | Some err => emit (EvUpdate g (Some err)) ;; mret (Some err)
  | None => λ w,
      match api_gateways w !! gw_key g with
      | None => (emit (EvUpdate g (Some (ErrNotFound (gw_key g)))) ;;
                 mret (Some (ErrNotFound (gw_key g)))) w
      | Some old =>
          (emit (EvUpdate g None) ;; mret None)
            (set_api_gateways (stored_after_Update g old) w)
      end
  end.

(** [Status().Update]: only the status of the stored object is written. *)
Definition Status_Update (g : Gateway) : M (option error) :=
  f ← outcome;
  match f with
  | Some err => emit (EvStatusUpdate g (Some err)) ;; mret (Some err)
  | None => λ w,
      match api_gateways w !! gw_key g with
      | None => (emit (EvStatusUpdate g (Some (ErrNotFound (gw_key g)))) ;;
                 mret (Some (ErrNotFound (gw_key g)))) w
      | Some old =>
          (emit (EvStatusUpdate g None) ;; mret None)
            (set_api_gateways (<[gw_key g := set_Status old (gw_Status g)]>) w)
      end
  end.

(** *** The shared registry, as the process calls it *)

(** [time.Now()] is read only by a registration that passes the
    annotations check. *)
Definition RegisterService (svc : Service) (serviceType : mcp.ServiceType)
    : M (error + mcp.MCPService) := λ w,
  let '(r, res) := mcp.RegisterService (now w) (MCPRegistry w) svc serviceType in
  match res with
  | inl err => (inl err, set_MCPRegistry r w)
  | inr s => (inr s, set_reads (S (reads w)) (set_MCPRegistry r w))
  end.

Definition DeregisterService (name : NamespacedName) : M bool := λ w,
  let '(r, b) := mcp.DeregisterService (MCPRegistry w) name in
  (b, set_MCPRegistry r w).

Definition UpdateRegistryStatus (gateway : Gateway) : M Gateway := λ w,
  (mcp.UpdateRegistryStatus (MCPRegistry w) gateway, w).

(** [ctrl.Result]; durations are in nanoseconds as in Go. *)
Record Result := mkResult { Requeue : bool; RequeueAfter : Z }.

Definition Second : Z := 1000000000.
Definition Minute : Z := 60 * Second.

End runtime.

(** ** pkg/services/watcher.go *)
Module services.
Import corev1 v1alpha1 runtime.

Definition MCPEnabledLabel := "mcp-enabled".
Definition MCPTypeAnnotation := "mcp.fetchfy.ai/type".

Definition IsMCPEnabledService (svc : Service) : bool :=
  match svc_Labels svc with
  | None => false
  | Some labels =>
      match labels !! MCPEnabledLabel with
      | Some val => bool_decide (val = "true")
      | None => false
      end
  end.

Definition isMCPEnabledService (svc : Service) : bool := IsMCPEnabledService svc.

(** The event filter of [NewServiceWatcher]. *)
Definition CreateFunc (obj : Service) : bool := isMCPEnabledService obj.
Definition UpdateFunc (objOld objNew : Service) : bool :=
  isMCPEnabledService objNew || isMCPEnabledService objOld.
Definition DeleteFunc (obj : Service) : bool := isMCPEnabledService obj.

(** The role the watcher reads from the type annotation. *)
Definition serviceTypeOf (service : Service) : mcp.ServiceType :=
  match svc_Annotations service with
  | Some annotations =>
      match annotations !! MCPTypeAnnotation with
      | Some typeStr =>
          if decide (typeStr = mcp.ServiceType_string mcp.ServiceTypeAgent)
          then mcp.ServiceTypeAgent else mcp.ServiceTypeTool
      | None => mcp.ServiceTypeTool
      end
  | None => mcp.ServiceTypeTool
  end.

(** [updateAllGatewayStatuses] *)
Definition updateGatewayStatus (key : NamespacedName) : M unit :=
  r ← Get_Gateway key;
  match r with
  | inl _ => mret tt                           (* logged; continue *)
  | inr currentGateway =>
      currentGateway ← UpdateRegistryStatus currentGateway;
      _ ← Status_Update currentGateway;        (* a failure is logged *)
      mret tt
  end.

Definition updateAllGatewayStatuses : M unit := λ w,
  forM_ (map_to_list (sw_gateways w)).*1 updateGatewayStatus w.

(** [(sw *ServiceWatcher) Reconcile] *)
Definition Reconcile (req : NamespacedName) : M (Result * option error) :=
  r ← Get_Service req;
  match r with
  | inl err =>
      if IsNotFound err then
        _ ← DeregisterService req;
        mret (mkResult false 0, None)
      else mret (mkResult false 0, Some err)
  | inr service =>
      if negb (isMCPEnabledService service) then
        _ ← DeregisterService req;
        mret (mkResult false 0, None)
      else
        let serviceType := serviceTypeOf service in
        r ← RegisterService service serviceType;
        match r with
        | inl err => mret (mkResult false 0, Some err)
        | inr _ =>
            updateAllGatewayStatuses ;;
            mret (mkResult false 0, None)
        end
  end.

(** [AddGateway]: the map keeps the pointer it is given; only its keys
    are ever read back. *)
Definition AddGateway (gateway : Gateway) : M unit :=
  (λ w, (tt, set_sw_gateways (<[gw_key gateway := gateway]>) w)) ;;
  emit (EvAddGateway (gw_key gateway)).

Definition RemoveGateway (name : NamespacedName) : M unit :=
  (λ w, (tt, set_sw_gateways (delete name) w)) ;;
  emit (EvRemoveGateway name).

Section Selector.
(** [metav1.LabelSelectorAsSelector], a function of apimachinery. *)
Variable LabelSelectorAsSelector : metav1.LabelSelector → error + metav1.Selector.

Definition GetMatchingServices (gateway : Gateway) : M (error + list Service) :=
  match LabelSelectorAsSelector (ServiceSelector (gw_Spec gateway)) with
  | inl err => mret (inl err)
  | inr selector => List_Services selector
  end.
End Selector.

End services.

(** ** internal/controller/gateway_controller.go *)
Module controller.
Import corev1 v1alpha1 runtime.

Definition gatewayFinalizer := "fetchfy.ai/finalizer".

Definition conditionTypeReady := "Ready".
Definition conditionTypeAvailable := "Available".

Definition reasonReady := "GatewayReady".
Definition reasonConfigured := "GatewayConfigured".
Definition reasonNotReady := "GatewayNotReady".
Definition reasonServerError := "ServerError".
Definition reasonConfigError := "ConfigurationError".

(** [DeletionTimestamp.IsZero()]: a nil pointer or Go's zero instant,
    which is the instant [0] here. *)
Definition IsZero (t : option Time) : bool :=
  match t with
  | None => true
  | Some t => bool_decide (t = 0)
  end.

(** The loop of [updateGatewayCondition] over [gateway.Status.Conditions]:
    [None] when it returns without writing, else the list it leaves
    ([new] is the entry the call would write). *)
Fixpoint updateConditions (new : metav1.Condition) (conditions : list metav1.Condition)
    : option (list metav1.Condition) :=
  match conditions with
  | [] => Some [new]
  | condition :: rest =>
      if decide (metav1.cond_Type condition = metav1.cond_Type new) then
        if bool_decide (metav1.cond_Status condition = metav1.cond_Status new)
           && bool_decide (metav1.cond_Reason condition = metav1.cond_Reason new)
           && bool_decide (metav1.cond_Message condition = metav1.cond_Message new)
        then None
        else Some (new :: rest)
      else (condition ::.) <$> updateConditions new rest
  end.

(** The entry a call writes at instant [t]. *)
Definition newCondition (t : Time) (gateway : Gateway)
    (conditionType : string) (status : metav1.ConditionStatus)
    (reason message : string) : metav1.Condition :=
  metav1.mkCondition conditionType status (gw_Generation gateway) t reason message.

(** [updateGatewayCondition] with the clock reading it would use. *)
Definition updateGatewayConditionAt (t : Time) (gateway : Gateway)
    (conditionType : string) (status : metav1.ConditionStatus)
    (reason message : string) : option Gateway :=
  set_Conditions gateway <$>
    updateConditions (newCondition t gateway conditionType status reason message)
                     (Conditions (gw_Status gateway)).

(** [updateGatewayCondition]: the clock is read only when an entry is
    written. *)
Definition updateGatewayCondition (gateway : Gateway)
    (conditionType : string) (status : metav1.ConditionStatus)
    (reason message : string) : M Gateway := λ w,
  match updateGatewayConditionAt (now w) gateway conditionType status reason message with
  | None => (gateway, w)
  | Some gateway' => (gateway', set_reads (S (reads w)) w)
  end.

(** [cleanupGateway]; [Shutdown] is an outgoing call, made only by a
    [Stop] that finds the listener started. *)
Definition cleanupGateway (gatewayName : NamespacedName) : M unit :=
  (λ w,
     match MCPServers w !! gatewayName with
     | Some server =>
         (shutdown ← (if mcp.started server
                         && negb (bool_decide (mcp.httpServer server = None))
                      then outcome else mret None);
          let '(server, err) := mcp.Stop shutdown server in   (* the error is logged *)
          (λ w, (tt, set_MCPServers (<[gatewayName := server]>) w)) ;;
          emit (EvServerStop gatewayName server err) ;;
          (λ w, (tt, set_MCPServers (delete gatewayName) w)) ;;
          emit (EvServerDiscard gatewayName)) w
     | None => (tt, w)
     end) ;;
  services.RemoveGateway gatewayName.

(** [handleDeletion] *)
Definition handleDeletion (gateway : Gateway) : M (Result * option error) :=
  cleanupGateway (mkNN (gw_Namespace gateway) (gw_Name gateway)) ;;
  if controllerutil.ContainsFinalizer gateway gatewayFinalizer then
    let gateway := controllerutil.RemoveFinalizer gateway gatewayFinalizer in
    e ← Update gateway;
    match e with
    | Some err => mret (mkResult false 0, Some err)
    | None => mret (mkResult false 0, None)
    end
  else mret (mkResult false 0, None).

(** [ensureMCPServer] *)
Definition ensureMCPServer (gateway : Gateway) : M (option error) := λ w,
  let gatewayName := mkNN (gw_Namespace gateway) (gw_Name gateway) in
  let server :=
    match MCPServers w !! gatewayName with
    | Some server => server
    | None => mcp.NewServer
    end in
  let server := mcp.Configure server gateway in
  if negb (mcp.IsRunning server) then
    match mcp.Start server with
    | (server, Some err) =>
        (Some err, set_MCPServers (<[gatewayName := server]>) w)
    | (server, None) =>
        (emit (EvServerStart gatewayName) ;; mret None)
          (set_MCPServers (<[gatewayName := server]>) w)
    end
  else (None, set_MCPServers (<[gatewayName := server]>) w).

(** The body of the registration loop of [Reconcile]. *)
Definition registerMatching (svc : Service) : M unit :=
  if bool_decide (is_Some (svc_Labels svc))
     && bool_decide (index (svc_Labels svc) services.MCPEnabledLabel = "true")
  then
    let serviceType :=
      if bool_decide (is_Some (svc_Annotations svc))
         && bool_decide (index (svc_Annotations svc) services.MCPTypeAnnotation
                         = mcp.ServiceType_string mcp.ServiceTypeAgent)
      then mcp.ServiceTypeAgent else mcp.ServiceTypeTool in
    _ ← RegisterService svc serviceType;       (* a failure is logged *)
    mret tt
  else mret tt.

Section Selector.
Variable LabelSelectorAsSelector : metav1.LabelSelector → error + metav1.Selector.

(** [(r *GatewayReconciler) Reconcile].  A nil [Conditions] slice and
    the empty one are the same list, so the initialisation of the
    conditions leaves nothing to do. *)
Definition Reconcile (req : NamespacedName) : M (Result * option error) :=
  r ← Get_Gateway req;
  match r with
  | inl err =>
      if IsNotFound err then
        cleanupGateway req ;;
        mret (mkResult false 0, None)
      else mret (mkResult false 0, Some err)
  | inr gateway =>
      if negb (IsZero (gw_DeletionTimestamp gateway)) then
        handleDeletion gateway
      else if negb (controllerutil.ContainsFinalizer gateway gatewayFinalizer) then
        let gateway := controllerutil.AddFinalizer gateway gatewayFinalizer in
        e ← Update gateway;
        match e with
        | Some err => mret (mkResult false 0, Some err)
        | None => mret (mkResult true 0, None)
        end
      else
        e ← ensureMCPServer gateway;
        match e with
        | Some err =>
            _ ← updateGatewayCondition gateway conditionTypeReady
                  metav1.ConditionFalse reasonServerError (Error_string err);
            mret (mkResult false (Second * 30), Some err)
        | None =>
            services.AddGateway gateway ;;
            r ← services.GetMatchingServices LabelSelectorAsSelector gateway;
            match r with
            | inl err =>
                _ ← updateGatewayCondition gateway conditionTypeReady
                      metav1.ConditionFalse reasonConfigError
                      ("Failed to list matching services: " +:+ Error_string err);
                mret (mkResult false (Second * 30), Some err)
            | inr matchingServices =>
                forM_ matchingServices registerMatching ;;
                gateway ← UpdateRegistryStatus gateway;
                let gateway :=
                  set_Address gateway (":" +:+ pretty (MCPPort (gw_Spec gateway))) in
                gateway ← updateGatewayCondition gateway conditionTypeReady
                  metav1.ConditionTrue reasonReady
                  ("Gateway is ready with "
                     +:+ pretty (length (MCPServices (gw_Status gateway)))
                     +:+ " services");
                gateway ← updateGatewayCondition gateway conditionTypeAvailable
                  metav1.ConditionTrue reasonConfigured "Gateway is available";
                e ← Status_Update gateway;
                match e with
                | Some err => mret (mkResult false Minute, Some err)
                | None => mret (mkResult false (Minute * 5), None)
                end
            end
        end
  end.
End Selector.

End controller.

(** ** Concrete objects, for running the code *)
Module sample.
Import corev1 v1alpha1 runtime.

Definition enabled : gmap string string := {[ "mcp-enabled" := "true" ]}.

Definition clusterIP : ServiceSpec :=
  mkServiceSpec "ClusterIP" [mkServicePort "http" 8080].

Definition annotations : gmap string string :=
  {[ "mcp.fetchfy.ai/description" := "sample" ]}.

(** A service in namespace [ns] labelled for the protocol layer and for
    the application [app], annotated with a description. *)
Definition service (name app : string) : Service :=
  mkService name "ns" (Some (<["app" := app]> enabled)) (Some annotations) clusterIP.

(** The same service without an annotations map: what a client returns
    for a service that carries no annotation. *)
Definition bare (name app : string) : Service :=
  mkService name "ns" (Some (<["app" := app]> enabled)) None clusterIP.

(** The same service with an annotations map that has no entry.  A
    caller of the registry can build it; a client never returns it (an
    empty map is not written, and is read back as nil), so it is not
    among the stored services of any world below. *)
Definition unannotated (name app : string) : Service :=
  mkService name "ns" (Some (<["app" := app]> enabled)) (Some ∅) clusterIP.

(** A gateway that selects the services of application [app] and has
    its finalizer. *)
Definition gateway (name app : string) : Gateway :=
  mkGateway name "ns" 1 None [controller.gatewayFinalizer]
    (mkGatewaySpec 8080 (metav1.mkLabelSelector {[ "app" := app ]} []) false "")
    (mkGatewayStatus [] [] "").

Definition world (gws : list Gateway) (svcs : list Service) : World :=
  mkWorld (list_to_map ((λ g, (gw_key g, g)) <$> gws))
          (list_to_map ((λ s, (svc_key s, s)) <$> svcs))
          mcp.NewRegistry ∅ ∅ (λ n, 100 + n) 0 [] [].

End sample.

(** ** What the properties are stated with *)
Module props.
Import corev1 v1alpha1 runtime.
Open Scope list_scope.

(** A service that carries no annotation at all: no annotations map, or
    one without entries. *)
Definition lacksAnnotations (svc : Service) : Prop :=
  ∀ annotations, svc_Annotations svc = Some annotations → annotations = ∅.

(** One call of the registry's mutating interface. *)
Inductive RegistryOp :=
  | OpRegister (now : Time) (svc : Service) (serviceType : mcp.ServiceType)
  | OpDeregister (name : NamespacedName).

Definition runOp (r : mcp.Registry) (op : RegistryOp) : mcp.Registry :=
  match op with
  | OpRegister now svc ty => (mcp.RegisterService now r svc ty).1
  | OpDeregister name => (mcp.DeregisterService r name).1
  end.

(** The registries a process can hold: [NewRegistry] and whatever its
    operations make of it. *)
Inductive reachable : mcp.Registry → Prop :=
  | reachable_new : reachable mcp.NewRegistry
  | reachable_op r op : reachable r → reachable (runOp r op).

(** Registering a batch of services, each at its own instant. *)
Definition registerAll (r : mcp.Registry)
    (batch : list (Time * Service * mcp.ServiceType)) : mcp.Registry :=
  foldl (λ r x, (mcp.RegisterService x.1.1 r x.1.2 x.2).1) r batch.

(** The status entry a registration of [svc] at instant [t] with role
    [ty] stands for, given the annotations the service carries. *)
Definition expectedInfo (t : Time) (svc : Service) (ty : mcp.ServiceType)
    : MCPServiceInfo :=
  mkMCPServiceInfo (svc_Name svc) (svc_Namespace svc) (mcp.ServiceType_string ty)
    (match svc_Annotations svc ≫= (.!! "mcp.fetchfy.ai/endpoint") with
     | Some e => e
     | None => "/mcp/" +:+ svc_Namespace svc +:+ "/" +:+ svc_Name svc
     end)
    (if bool_decide (spec_Type (svc_Spec svc) = "ClusterIP"
                     ∧ spec_Ports (svc_Spec svc) ≠ [])
     then "Available" else "Pending")
    t.

(** A status entry without its timestamp. *)
Definition untimed (i : MCPServiceInfo) : MCPServiceInfo :=
  mkMCPServiceInfo (info_Name i) (info_Namespace i) (info_Type i)
                   (info_Endpoint i) (info_Status i) 0.

(** An effect that persists a Gateway without the finalizer marker. *)
Definition removesFinalizer (e : Event) : Prop :=
  match e with
  | EvUpdate g _ => controllerutil.ContainsFinalizer g controller.gatewayFinalizer = false
  | _ => False
  end.

(** What [Shutdown] returns to a [Stop] of [server] in the world [w]:
    the next pending outcome, when [Stop] gets as far as calling it. *)
Definition shutdownOutcome (w : World) (server : mcp.Server) : option error :=
  if mcp.started server && negb (bool_decide (mcp.httpServer server = None))
  then (outcome w).1 else None.

(** The effects of [cleanupGateway] on a world, in order: the stop of
    the listener handle the world holds for the identity, with the state
    [Stop] leaves the handle in and what it returns, the discard of the
    handle, and the untracking. *)
Definition cleanupEvents (w : World) (k : NamespacedName) : list Event :=
  match MCPServers w !! k with
  | Some server =>
      let stopped := mcp.Stop (shutdownOutcome w server) server in
      [EvServerStop k stopped.1 stopped.2; EvServerDiscard k]
  | None => []
  end ++ [EvRemoveGateway k].

(** The status the store holds for a Gateway. *)
Definition published (w : World) (k : NamespacedName) : option GatewayStatus :=
  gw_Status <$> api_gateways w !! k.

(** Status, reason and message of an entry are those of the update. *)
Definition unchanged (c new : metav1.Condition) : Prop :=
  metav1.cond_Status c = metav1.cond_Status new
  ∧ metav1.cond_Reason c = metav1.cond_Reason new
  ∧ metav1.cond_Message c = metav1.cond_Message new.

(** [i] is the first position of [cs] that holds an entry of the type
    of [new], and [c] is that entry. *)
Definition first_of_type (new : metav1.Condition) (cs : list metav1.Condition)
    (i : nat) (c : metav1.Condition) : Prop :=
  cs !! i = Some c
  ∧ metav1.cond_Type c = metav1.cond_Type new
  ∧ ∀ j c', j < i → cs !! j = Some c' →
      metav1.cond_Type c' ≠ metav1.cond_Type new.

(** A computation none of whose effects persists a Gateway without the
    finalizer marker. *)
Definition quiet {A} (m : M A) : Prop :=
  ∀ w, ∃ evs, trace (m w).2 = trace w ++ evs
              ∧ Forall (λ e, ¬ removesFinalizer e) evs.

(** A computation that leaves no effect in the trace. *)
Definition silent {A} (m : M A) : Prop :=
  ∀ w, trace (m w).2 = trace w.

(** A step that touches nothing outside the process: the stored
    objects, the pending outcomes and the clock are what they were. *)
Definition internal (w w' : World) : Prop :=
  api_gateways w' = api_gateways w
  ∧ api_services w' = api_services w
  ∧ faults w' = faults w
  ∧ clock w' = clock w.

(** The services the registration loop of the reconciler registers:
    those with the enablement label and an annotations map. *)
Definition registers (svc : Service) : bool :=
  bool_decide (is_Some (svc_Labels svc))
  && bool_decide (index (svc_Labels svc) services.MCPEnabledLabel = "true")
  && bool_decide (is_Some (svc_Annotations svc)).

(** The role the loop gives a service. *)
Definition roleOf (svc : Service) : mcp.ServiceType :=
  if bool_decide (is_Some (svc_Annotations svc))
     && bool_decide (index (svc_Annotations svc) services.MCPTypeAnnotation
                     = mcp.ServiceType_string mcp.ServiceTypeAgent)
  then mcp.ServiceTypeAgent else mcp.ServiceTypeTool.

(** The service of [L] that the loop registers last under identity [k]. *)
Fixpoint lastRegistered (L : list Service) (k : NamespacedName) : option Service :=
  match L with
  | [] => None
  | svc :: L =>
      match lastRegistered L k with
      | Some svc' => Some svc'
      | None =>
          if registers svc && bool_decide (svc_key svc = k) then Some svc else None
      end
  end.

(** What the loop over [L] makes of a registry: under an identity that
    it registers, the entry of the last registration at some instant;
    under any other, the former entry. *)
Definition loopRel (L : list Service) (r r' : mcp.Registry) : Prop :=
  ∀ k,
    match lastRegistered L k with
    | Some svc =>
        ∃ t m, mcp.services r' !! k = Some m
               ∧ mcp.toInfo m = expectedInfo t svc (roleOf svc)
    | None => mcp.services r' !! k = mcp.services r !! k
    end.

(** Every registration sits under the identity it names. *)
Definition registry_wf (r : mcp.Registry) : Prop :=
  map_Forall (λ k m, mkNN (mcp.ms_Namespace m) (mcp.ms_Name m) = k) (mcp.services r).

(** The services a Gateway's selector matches, as [List] returns them. *)
Definition matching (selector : metav1.Selector) (w : World) : list Service :=
  filter (λ svc, selector (default ∅ (svc_Labels svc)))
         (map_to_list (api_services w)).*2.

(** The status entries of a registry without their timestamps, by
    identity. *)
Definition untimedInfos (r : mcp.Registry) : gmap NamespacedName MCPServiceInfo :=
  (λ m, untimed (mcp.toInfo m)) <$> mcp.services r.

(** The condition list after one call of [updateGatewayCondition] that
    reads the instant [t]. *)
Definition conditionsAfter (t : Time) (g : Gateway) (ty : string)
    (st : metav1.ConditionStatus) (reason msg : string)
    (cs : list metav1.Condition) : list metav1.Condition :=
  default cs (controller.updateConditions
                (metav1.mkCondition ty st (gw_Generation g) t reason msg) cs).

(** Every object of the store sits under its own name. *)
Definition store_wf (w : World) : Prop :=
  map_Forall (λ k g, gw_key g = k) (api_gateways w).

Definition services_wf (w : World) : Prop :=
  map_Forall (λ k svc, svc_key svc = k) (api_services w).

(** A listener that counts as started has an HTTP server to shut down;
    true of [NewServer] and kept by every method. *)
Definition server_ok (s : mcp.Server) : Prop :=
  mcp.started s = true → is_Some (mcp.httpServer s).

(** A fetch of a backend service after which the watcher deregisters:
    the service is gone, or it does not carry the enablement label. *)
Definition unlisted (res : error + Service) : bool :=
  match res with
  | inl err => IsNotFound err
  | inr service => negb (services.isMCPEnabledService service)
  end.

(** A computation every run of which is a step of the relation [R]. *)
Definition steps (R : World → World → Prop) {A} (m : M A) : Prop :=
  ∀ w, R w (m w).2.

(** A listener is configured for a Gateway. *)
Definition configuredFor (s : mcp.Server) (g : Gateway) : Prop :=
  mcp.port s = MCPPort (gw_Spec g)
  ∧ mcp.gatewayRef s = gw_key g
  ∧ mcp.enableTLS s = EnableTLS (gw_Spec g)
  ∧ mcp.tlsSecretName s = TLSSecretRef (gw_Spec g).

(** The types of a condition list. *)
Definition conditionTypes (cs : list metav1.Condition) : list string :=
  metav1.cond_Type <$> cs.

(** A step that may change the registry and read the clock, and nothing
    else. *)
Definition registryStep (w w' : World) : Prop :=
  api_gateways w' = api_gateways w
  ∧ api_services w' = api_services w
  ∧ sw_gateways w' = sw_gateways w
  ∧ MCPServers w' = MCPServers w
  ∧ clock w' = clock w
  ∧ faults w' = faults w
  ∧ trace w' = trace w.

(** The effects of [ensureMCPServer] on a world: a start, unless the
    Gateway's listener is running already. *)
Definition ensureEvents (w : World) (k : NamespacedName) : list Event :=
  match MCPServers w !! k with
  | Some s => if mcp.started s then [] else [EvServerStart k]
  | None => [EvServerStart k]
  end.

(** The entry of a type in a condition list: the first one of the type. *)
Definition conditionOfType (ty : string) (cs : list metav1.Condition)
    : option metav1.Condition :=
  snd <$> list_find (λ c, metav1.cond_Type c = ty) cs.

End props.

Import corev1 v1alpha1 runtime props.
Open Scope list_scope.

(** * Registry *)

Section registry.
Implicit Types (r : mcp.Registry) (svc : Service) (ty : mcp.ServiceType).

Lemma RegisterService_Some now r svc ty annotations :
  svc_Annotations svc = Some annotations →
  ∃ m, mcp.RegisterService now r svc ty
         = (mcp.mkRegistry (<[svc_key svc := m]> (mcp.services r)), inr m)
    ∧ mcp.ms_Name m = svc_Name svc
    ∧ mcp.ms_Namespace m = svc_Namespace svc
    ∧ mcp.ms_Type m = ty
    ∧ mcp.ms_UpdatedAt m = now
    ∧ mcp.ms_Service m = svc
    ∧ mcp.toInfo m = expectedInfo now svc ty.
Proof.
  intros Ha. unfold mcp.RegisterService. rewrite Ha.
  eexists. split; [reflexivity|]. repeat split; simpl.
  unfold mcp.toInfo, expectedInfo; simpl. rewrite Ha; simpl. f_equal.
  unfold ServiceTypeClusterIP.
  destruct (spec_Ports (svc_Spec svc)) as [|p ps] eqn:Hp; simpl.
  - rewrite andb_false_r. rewrite bool_decide_eq_false_2; [done|]. tauto.
  - rewrite andb_true_r.
    case_bool_decide as H1.
    + rewrite bool_decide_eq_true_2; done.
    + rewrite bool_decide_eq_false_2; [done|]. tauto.
Qed.

Lemma RegisterService_None now r svc ty :
  svc_Annotations svc = None →
  mcp.RegisterService now r svc ty
    = (r, inl (ErrNoAnnotations (svc_Namespace svc) (svc_Name svc))).
Proof. intros Ha. unfold mcp.RegisterService. by rewrite Ha. Qed.

End registry.

(** C3, as the claim states it, fails: a service whose annotations map is
    present but empty lacks any annotation, and [RegisterService] accepts
    it and inserts it. *)
Lemma RegisterService_empty_annotations_accepted :
  ¬ (∀ now r svc ty, lacksAnnotations svc →
       ∃ e, mcp.RegisterService now r svc ty = (r, inl e) ∧ MissingMetadata e).
Proof.
  intros H.
  destruct (H 7 mcp.NewRegistry (sample.unannotated "s1" "a") mcp.ServiceTypeTool)
    as (e & He & _).
  - intros m [= <-]. done.
  - vm_compute in He. discriminate.
Qed.

(** C3 (amended): for every service that has no annotations map (the map
    is nil), [RegisterService] fails with the MissingMetadata error and
    returns the registry it was given, and for no such service does it
    succeed; a service that carries an annotations map, even an empty one,
    is accepted. *)
Theorem RegisterService_nil_annotations now r svc ty :
  (svc_Annotations svc = None →
   (∃ e, mcp.RegisterService now r svc ty = (r, inl e) ∧ MissingMetadata e)
   ∧ (∀ r' m, mcp.RegisterService now r svc ty ≠ (r', inr m)))
  ∧ (is_Some (svc_Annotations svc) →
     ∃ r' m, mcp.RegisterService now r svc ty = (r', inr m)).
Proof.
  split.
  - intros Ha. rewrite (RegisterService_None _ _ _ _ Ha). split.
    + eexists. split; [done|]. by do 2 eexists.
    + intros r' m. congruence.
  - intros [a Ha].
    destruct (RegisterService_Some now r svc ty a Ha) as (m & -> & _).
    by do 2 eexists.
Qed.

Lemma RegisterService_nil_annotations_witness :
  (∃ e, mcp.RegisterService 7 mcp.NewRegistry (sample.bare "s1" "a") mcp.ServiceTypeTool
          = (mcp.NewRegistry, inl e) ∧ MissingMetadata e)
  ∧ (∀ r' m, mcp.RegisterService 7 mcp.NewRegistry (sample.bare "s1" "a") mcp.ServiceTypeTool
          ≠ (r', inr m)).
Proof.
  apply (proj1 (RegisterService_nil_annotations 7 mcp.NewRegistry
                  (sample.bare "s1" "a") mcp.ServiceTypeTool)).
  reflexivity.
Defined.

(** C5: for every service that carries an annotations map,
    [RegisterService] succeeds and stores a registration whose endpoint is
    [/mcp/{namespace}/{name}] when the key [mcp.fetchfy.ai/endpoint] is
    absent, and the value of that annotation, verbatim, when it is
    present. *)
Theorem RegisterService_endpoint now r svc ty annotations :
  svc_Annotations svc = Some annotations →
  ∃ r' m,
    mcp.RegisterService now r svc ty = (r', inr m)
    ∧ mcp.GetService r' (mkNN (svc_Namespace svc) (svc_Name svc)) = Some m
    ∧ (annotations !! "mcp.fetchfy.ai/endpoint" = None →
       mcp.ms_Endpoint m = "/mcp/" +:+ svc_Namespace svc +:+ "/" +:+ svc_Name svc)
    ∧ (∀ e, annotations !! "mcp.fetchfy.ai/endpoint" = Some e →
       mcp.ms_Endpoint m = e).
Proof.
  intros Ha. unfold mcp.RegisterService. rewrite Ha.
  do 2 eexists. split; [reflexivity|]. split.
  - unfold mcp.GetService; simpl. by rewrite lookup_insert_eq.
  - simpl. split.
    + by intros ->.
    + by intros e ->.
Qed.

Lemma RegisterService_endpoint_witness :
  ∃ r' m,
    mcp.RegisterService 7 mcp.NewRegistry (sample.service "s1" "a") mcp.ServiceTypeAgent
      = (r', inr m)
    ∧ mcp.GetService r' (mkNN "ns" "s1") = Some m
    ∧ (sample.annotations !! "mcp.fetchfy.ai/endpoint" = None →
       mcp.ms_Endpoint m = "/mcp/ns/s1")
    ∧ (∀ e, sample.annotations !! "mcp.fetchfy.ai/endpoint" = Some e →
       mcp.ms_Endpoint m = e).
Proof.
  apply (RegisterService_endpoint 7 mcp.NewRegistry (sample.service "s1" "a")
           mcp.ServiceTypeAgent sample.annotations).
  reflexivity.
Defined.

(** * Availability *)

Lemma RegisterService_status now r svc ty r' m :
  mcp.RegisterService now r svc ty = (r', inr m) →
  mcp.ms_Status m =
    if bool_decide (spec_Type (svc_Spec svc) = "ClusterIP"
                    ∧ spec_Ports (svc_Spec svc) ≠ [])
    then mcp.ServiceStatusAvailable else mcp.ServiceStatusPending.
Proof.
  unfold mcp.RegisterService.
  destruct (svc_Annotations svc) as [a|]; [|discriminate].
  intros [= _ <-]; simpl. unfold ServiceTypeClusterIP.
  destruct (spec_Ports (svc_Spec svc)) as [|p ps]; simpl.
  - rewrite andb_false_r. rewrite bool_decide_eq_false_2; [done|]. tauto.
  - rewrite andb_true_r. case_bool_decide.
    + rewrite bool_decide_eq_true_2; done.
    + rewrite bool_decide_eq_false_2; [done|]. tauto.
Qed.

(** No entry of a registry that the operations can build is
    [Unavailable]. *)
Lemma reachable_never_unavailable r :
  reachable r →
  map_Forall (λ _ m, mcp.ms_Status m ≠ mcp.ServiceStatusUnavailable) (mcp.services r).
Proof.
  induction 1 as [|r op Hr IH].
  - apply map_Forall_empty.
  - destruct op as [now svc ty|name]; simpl.
    + destruct (mcp.RegisterService now r svc ty) as [r' [e|m]] eqn:E.
      * unfold mcp.RegisterService in E.
        destruct (svc_Annotations svc); [discriminate|]. by injection E as <- _.
      * pose proof (RegisterService_status _ _ _ _ _ _ E) as Hst.
        unfold mcp.RegisterService in E.
        destruct (svc_Annotations svc); [|discriminate].
        injection E as <- Hm. simpl. apply map_Forall_insert_2; [|done].
        rewrite Hm, Hst. by case_bool_decide.
    + unfold mcp.DeregisterService.
      destruct (mcp.services r !! name); simpl; [|done].
      by apply map_Forall_delete.
Qed.

(** C10: a registration that [RegisterService] accepts is [Available]
    exactly when the service's type is ClusterIP and its port list is not
    empty, and [Pending] in every other case; and over every registry
    that [RegisterService] and [DeregisterService] can build from a new
    one, no lookup, listing or status projection shows [Unavailable]. *)
Theorem availability_derived_from_exposure :
  (∀ now r svc ty r' m,
     mcp.RegisterService now r svc ty = (r', inr m) →
     (mcp.ms_Status m = mcp.ServiceStatusAvailable
        ↔ spec_Type (svc_Spec svc) = "ClusterIP" ∧ spec_Ports (svc_Spec svc) ≠ [])
     ∧ (¬ (spec_Type (svc_Spec svc) = "ClusterIP" ∧ spec_Ports (svc_Spec svc) ≠ [])
        → mcp.ms_Status m = mcp.ServiceStatusPending))
  ∧ (∀ r, reachable r →
     (∀ name m, mcp.GetService r name = Some m →
        mcp.ms_Status m ≠ mcp.ServiceStatusUnavailable)
     ∧ (∀ m, m ∈ mcp.ListServices r →
        mcp.ms_Status m ≠ mcp.ServiceStatusUnavailable)
     ∧ (∀ g i, i ∈ MCPServices (gw_Status (mcp.UpdateRegistryStatus r g)) →
        info_Status i ≠ "Unavailable")
     ∧ (∀ now svc ty r' m, mcp.RegisterService now r svc ty = (r', inr m) →
        mcp.ms_Status m ≠ mcp.ServiceStatusUnavailable)).
Proof.
  split.
  - intros now r svc ty r' m E.
    rewrite (RegisterService_status _ _ _ _ _ _ E).
    case_bool_decide as Hc; (split; [split|]); try done; by intros.
  - intros r Hr. pose proof (reachable_never_unavailable r Hr) as Hinv.
    assert (Hlist : ∀ m, m ∈ mcp.ListServices r →
                         mcp.ms_Status m ≠ mcp.ServiceStatusUnavailable).
    { intros m Hm. unfold mcp.ListServices, mcp.range in Hm.
      apply list_elem_of_fmap in Hm as ([k m'] & -> & Hkm).
      apply elem_of_map_to_list in Hkm. exact (Hinv k m' Hkm). }
    split; [|split; [|split]].
    + intros name m Hget. exact (Hinv name m Hget).
    + exact Hlist.
    + intros g i Hi. simpl in Hi.
      apply list_elem_of_fmap in Hi as (m & -> & Hm).
      specialize (Hlist m Hm). simpl.
      destruct (mcp.ms_Status m); done.
    + intros now svc ty r' m E.
      rewrite (RegisterService_status _ _ _ _ _ _ E). by case_bool_decide.
Qed.

Lemma availability_derived_from_exposure_witness :
  (mcp.ms_Status
     (mcp.mkMCPService "s1" "ns" mcp.ServiceTypeTool "/mcp/ns/s1"
        mcp.ServiceStatusAvailable (sample.service "s1" "a") 7)
   = mcp.ServiceStatusAvailable
   ↔ spec_Type sample.clusterIP = "ClusterIP" ∧ spec_Ports sample.clusterIP ≠ [])
  ∧ (∀ name m,
       mcp.GetService (runOp mcp.NewRegistry
                         (OpRegister 7 (sample.service "s1" "a") mcp.ServiceTypeTool))
                      name = Some m →
       mcp.ms_Status m ≠ mcp.ServiceStatusUnavailable).
Proof.
  destruct availability_derived_from_exposure as [Hreg Hreach]. split.
  - refine (proj1 (Hreg 7 mcp.NewRegistry (sample.service "s1" "a")
                        mcp.ServiceTypeTool _ _ _)).
    reflexivity.
  - refine (proj1 (Hreach _ _)). apply reachable_op, reachable_new.
Defined.

(** * Projection onto the Gateway status *)

Section projection.
Implicit Types (r : mcp.Registry) (batch : list (Time * Service * mcp.ServiceType)).

Lemma registerAll_snoc r batch x :
  registerAll r (batch ++ [x])
    = (mcp.RegisterService x.1.1 (registerAll r batch) x.1.2 x.2).1.
Proof. unfold registerAll. by rewrite foldl_app. Qed.

(** The keys a batch of accepted registrations leaves in the store. *)
Lemma registerAll_dom r batch :
  Forall (λ x, is_Some (svc_Annotations x.1.2)) batch →
  dom (mcp.services (registerAll r batch))
    = dom (mcp.services r) ∪ list_to_set ((λ x, svc_key x.1.2) <$> batch).
Proof.
  induction batch as [|x batch IH] using rev_ind; intros Hall.
  - simpl. set_solver.
  - apply Forall_app in Hall as [Hall Hx%Forall_inv].
    rewrite registerAll_snoc, fmap_app, list_to_set_app_L. simpl.
    simpl in Hx. destruct Hx as [a Ha].
    destruct (RegisterService_Some x.1.1 (registerAll r batch) x.1.2 x.2 a Ha)
      as (m & -> & _).
    simpl. rewrite dom_insert_L, IH by done. set_solver.
Qed.

(** The last accepted registration of a service is the entry the
    registry holds for it. *)
Lemma registerAll_lookup r batch t svc ty :
  Forall (λ x, is_Some (svc_Annotations x.1.2)) batch →
  NoDup ((λ x, svc_key x.1.2) <$> batch) →
  (t, svc, ty) ∈ batch →
  ∃ m, mcp.services (registerAll r batch) !! svc_key svc = Some m
       ∧ mcp.toInfo m = expectedInfo t svc ty.
Proof.
  induction batch as [|x batch IH] using rev_ind; intros Hall Hnd Hin.
  - by apply elem_of_nil in Hin.
  - apply Forall_app in Hall as [Hall Hx%Forall_inv].
    rewrite fmap_app in Hnd. apply NoDup_app in Hnd as (Hnd & Hfresh & _).
    rewrite registerAll_snoc.
    simpl in Hx. destruct Hx as [a Ha].
    destruct (RegisterService_Some x.1.1 (registerAll r batch) x.1.2 x.2 a Ha)
      as (m & -> & _ & _ & _ & _ & _ & Hinfo).
    simpl. apply elem_of_app in Hin as [Hin|Hin].
    + assert (svc_key svc ≠ svc_key x.1.2) as Hne.
      { intros Heq. apply (Hfresh (svc_key svc)).
        - apply list_elem_of_fmap. by exists (t, svc, ty).
        - rewrite Heq. simpl. apply list_elem_of_singleton. done. }
      rewrite lookup_insert_ne by done. by apply IH.
    + apply list_elem_of_singleton in Hin as <-. simpl in *.
      rewrite lookup_insert_eq. by exists m.
Qed.

Lemma registerAll_infos batch :
  Forall (λ x, is_Some (svc_Annotations x.1.2)) batch →
  NoDup ((λ x, svc_key x.1.2) <$> batch) →
  mcp.toInfo <$> mcp.range (registerAll mcp.NewRegistry batch)
    ≡ₚ (λ x, expectedInfo x.1.1 x.1.2 x.2) <$> batch.
Proof.
  induction batch as [|x batch IH] using rev_ind; intros Hall Hnd.
  - done.
  - pose proof Hall as Hall'.
    apply Forall_app in Hall as [Hall Hx%Forall_inv].
    rewrite fmap_app in Hnd. apply NoDup_app in Hnd as (Hnd & Hfresh & _).
    rewrite registerAll_snoc, fmap_app. simpl in Hx. destruct Hx as [a Ha].
    destruct (RegisterService_Some x.1.1 (registerAll mcp.NewRegistry batch)
                x.1.2 x.2 a Ha) as (m & -> & _ & _ & _ & _ & _ & Hinfo).
    unfold mcp.range. simpl.
    rewrite map_to_list_insert.
    + simpl. rewrite Hinfo.
      rewrite <- Permutation_cons_append. constructor. by apply IH.
    + apply not_elem_of_dom. rewrite registerAll_dom by done.
      simpl. rewrite dom_empty_L, (left_id_L ∅ (∪)), elem_of_list_to_set.
      intros Hin. apply (Hfresh _ Hin). simpl. apply list_elem_of_singleton. done.
Qed.

End projection.

(** C8: registering a batch of N services with distinct identities, each
    accepted, into a new registry and projecting it onto a Gateway gives a
    status list of exactly N entries, the entries of the registry
    snapshot, which carry the name, namespace, role, endpoint,
    availability and timestamp of the N registrations; deregistering one
    of the services removes it, and the next projection has N−1 entries:
    the former ones without the entry of that service. *)
Theorem projection_round_trip (batch : list (Time * Service * mcp.ServiceType)) g :
  Forall (λ x, is_Some (svc_Annotations x.1.2)) batch →
  NoDup ((λ x, svc_key x.1.2) <$> batch) →
  let r := registerAll mcp.NewRegistry batch in
  let st := MCPServices (gw_Status (mcp.UpdateRegistryStatus r g)) in
  length st = length batch
  ∧ st = mcp.toInfo <$> mcp.ListServices r
  ∧ st ≡ₚ (λ x, expectedInfo x.1.1 x.1.2 x.2) <$> batch
  ∧ ∀ x, x ∈ batch →
      let r' := (mcp.DeregisterService r (svc_key x.1.2)).1 in
      let st' := MCPServices (gw_Status (mcp.UpdateRegistryStatus r' g)) in
      (mcp.DeregisterService r (svc_key x.1.2)).2 = true
      ∧ length st' = length batch - 1
      ∧ st ≡ₚ expectedInfo x.1.1 x.1.2 x.2 :: st'.
Proof.
  intros Hall Hnd r st.
  assert (Hst : st ≡ₚ (λ x, expectedInfo x.1.1 x.1.2 x.2) <$> batch).
  { subst st r. simpl. by apply registerAll_infos. }
  assert (Hlen : length st = length batch).
  { rewrite Hst. by rewrite length_fmap. }
  split; [done|]. split; [done|]. split; [done|].
  intros [[t svc] ty] Hx r' st'. simpl in r', st' |- *.
  destruct (registerAll_lookup mcp.NewRegistry batch t svc ty Hall Hnd Hx)
    as (m & Hm & Hinfo).
  fold r in Hm.
  assert (Hperm : st ≡ₚ expectedInfo t svc ty :: st').
  { subst st st' r'. simpl. unfold mcp.DeregisterService. rewrite Hm. simpl.
    unfold mcp.range. simpl. rewrite <- Hinfo.
    rewrite <- (map_to_list_delete _ _ _ Hm). done. }
  split; [|split; [|done]].
  - unfold mcp.DeregisterService. by rewrite Hm.
  - apply Permutation_length in Hperm. simpl in Hperm. lia.
Qed.

Lemma projection_round_trip_witness :
  let batch := [(7, sample.service "s1" "a", mcp.ServiceTypeTool);
                (8, sample.service "s2" "b", mcp.ServiceTypeAgent)] in
  let r := registerAll mcp.NewRegistry batch in
  let st := MCPServices (gw_Status (mcp.UpdateRegistryStatus r (sample.gateway "ga" "a"))) in
  length st = 2
  ∧ (∀ x, x ∈ batch →
       length (MCPServices (gw_Status (mcp.UpdateRegistryStatus
                 (mcp.DeregisterService r (svc_key x.1.2)).1 (sample.gateway "ga" "a"))))
       = 1).
Proof.
  intros batch r st.
  assert (Hall : Forall (λ x : Time * Service * mcp.ServiceType,
                           is_Some (svc_Annotations x.1.2)) batch).
  { repeat constructor; by eexists. }
  assert (Hnd : NoDup ((λ x : Time * Service * mcp.ServiceType, svc_key x.1.2) <$> batch)).
  { apply (bool_decide_unpack _). vm_compute. exact I. }
  destruct (projection_round_trip batch (sample.gateway "ga" "a") Hall Hnd)
    as (Hlen & _ & _ & Hdel).
  split; [exact Hlen|].
  intros x Hx. destruct (Hdel x Hx) as (_ & Hlen' & _). exact Hlen'.
Defined.

(** * Listener lifecycle *)

Lemma Configure_started s g : mcp.started (mcp.Configure s g) = mcp.started s.
Proof. done. Qed.

Lemma Configure_all_started s gs :
  mcp.started (foldl mcp.Configure s gs) = mcp.started s.
Proof.
  revert s. induction gs as [|g gs IH]; intros s; simpl; [done|].
  by rewrite IH, Configure_started.
Qed.

Lemma Start_running s s' : mcp.Start s = (s', None) → mcp.started s' = true.
Proof.
  unfold mcp.Start. destruct (mcp.started s); [discriminate|].
  by intros [= <-].
Qed.

(** C9: on every listener on which [Start] has succeeded, and however
    often it has been reconfigured since, a second [Start] without a
    [Stop] in between fails with the AlreadyStarted error and leaves the
    listener as it was; [IsRunning] is true after the first [Start],
    before the second and after it. *)
Theorem Start_twice s s' gs :
  mcp.Start s = (s', None) →
  let s'' := foldl mcp.Configure s' gs in
  mcp.IsRunning s' = true
  ∧ mcp.IsRunning s'' = true
  ∧ (∃ e, mcp.Start s'' = (s'', Some e) ∧ AlreadyStarted e)
  ∧ mcp.IsRunning (mcp.Start s'').1 = true.
Proof.
  intros Hstart s''.
  pose proof (Start_running _ _ Hstart) as Hrun.
  assert (Hrun'' : mcp.started s'' = true).
  { subst s''. by rewrite Configure_all_started. }
  unfold mcp.IsRunning, mcp.Start. rewrite Hrun''.
  split; [done|]. split; [done|]. split; [|done].
  by exists ErrAlreadyStarted.
Qed.

Lemma Start_twice_witness :
  let s' := (mcp.Start (mcp.Configure mcp.NewServer (sample.gateway "ga" "a"))).1 in
  mcp.IsRunning s' = true
  ∧ mcp.IsRunning s' = true
  ∧ (∃ e, mcp.Start s' = (s', Some e) ∧ AlreadyStarted e)
  ∧ mcp.IsRunning (mcp.Start s').1 = true.
Proof.
  exact (Start_twice (mcp.Configure mcp.NewServer (sample.gateway "ga" "a")) _ []
           eq_refl).
Defined.

(** * Condition updates *)

Section conditions.
Import metav1.
Implicit Types (c new : Condition) (cs : list Condition).

Lemma unchanged_test c new :
  bool_decide (cond_Status c = cond_Status new)
  && bool_decide (cond_Reason c = cond_Reason new)
  && bool_decide (cond_Message c = cond_Message new) = true
  ↔ unchanged c new.
Proof.
  unfold unchanged. rewrite !andb_true_iff, !bool_decide_eq_true. tauto.
Qed.

Lemma first_of_type_cons_eq new c0 cs i c :
  cond_Type c0 = cond_Type new →
  first_of_type new (c0 :: cs) i c → i = 0 ∧ c = c0.
Proof.
  intros Hty (Hi & _ & Hfirst). destruct i as [|i].
  - simpl in Hi. by injection Hi as <-.
  - exfalso. apply (Hfirst 0 c0); [lia|done|done].
Qed.

Lemma first_of_type_cons_ne new c0 cs i c :
  cond_Type c0 ≠ cond_Type new →
  first_of_type new (c0 :: cs) i c →
  ∃ i', i = S i' ∧ first_of_type new cs i' c.
Proof.
  intros Hty (Hi & Hc & Hfirst). destruct i as [|i].
  - simpl in Hi. injection Hi as <-. done.
  - exists i. split; [done|]. split; [done|]. split; [done|].
    intros j c' Hj Hl. apply (Hfirst (S j) c'); [lia|done].
Qed.

Lemma updateConditions_noop new cs i c :
  first_of_type new cs i c → unchanged c new →
  controller.updateConditions new cs = None.
Proof.
  revert i. induction cs as [|c0 cs IH]; intros i Hfirst Hsame.
  - by destruct Hfirst as [? _].
  - simpl. case_decide as Hty.
    + apply first_of_type_cons_eq in Hfirst as [-> ->]; [|done].
      apply unchanged_test in Hsame. by rewrite Hsame.
    + apply first_of_type_cons_ne in Hfirst as (i' & -> & Hfirst); [|done].
      by rewrite (IH i').
Qed.

Lemma updateConditions_replace new cs i c :
  first_of_type new cs i c → ¬ unchanged c new →
  controller.updateConditions new cs = Some (<[i := new]> cs).
Proof.
  revert i. induction cs as [|c0 cs IH]; intros i Hfirst Hdiff.
  - by destruct Hfirst as [? _].
  - simpl. case_decide as Hty.
    + apply first_of_type_cons_eq in Hfirst as [-> ->]; [|done].
      rewrite <- unchanged_test in Hdiff.
      apply not_true_is_false in Hdiff. by rewrite Hdiff.
    + apply first_of_type_cons_ne in Hfirst as (i' & -> & Hfirst); [|done].
      by rewrite (IH i').
Qed.

Lemma updateConditions_append new cs :
  (∀ c, c ∈ cs → cond_Type c ≠ cond_Type new) →
  controller.updateConditions new cs = Some (cs ++ [new]).
Proof.
  induction cs as [|c0 cs IH]; intros Hnone; [done|].
  simpl. rewrite decide_False by (apply Hnone; left).
  rewrite IH; [done|]. intros c Hc. apply Hnone. by right.
Qed.

End conditions.

(** C6: [updateGatewayCondition] on any condition list.  The entry of the
    type is the first one of that type.  When its status, reason and
    message are those of the update, the Gateway (and the clock) are left
    as they were; when one of them differs, the entry at that position is
    replaced and every other position is kept; when no entry has the type,
    the new entry is appended.  The entry written has the type, status,
    reason and message of the update, the instant the clock shows in this
    call and the generation of the Gateway; nothing but the condition list
    changes. *)
Theorem updateGatewayCondition_semantics w g ty st reason msg :
  let cs := Conditions (gw_Status g) in
  let new := metav1.mkCondition ty st (gw_Generation g) (now w) reason msg in
  let g' := (controller.updateGatewayCondition g ty st reason msg w).1 in
  let w' := (controller.updateGatewayCondition g ty st reason msg w).2 in
  (∀ i c, first_of_type new cs i c →
     (metav1.cond_Status c = st ∧ metav1.cond_Reason c = reason
        ∧ metav1.cond_Message c = msg →
      g' = g ∧ w' = w)
     ∧ (¬ (metav1.cond_Status c = st ∧ metav1.cond_Reason c = reason
           ∧ metav1.cond_Message c = msg) →
        Conditions (gw_Status g') = <[i := new]> cs
        ∧ Conditions (gw_Status g') !! i = Some new
        ∧ (∀ j, j ≠ i → Conditions (gw_Status g') !! j = cs !! j)
        ∧ length (Conditions (gw_Status g')) = length cs
        ∧ w' = set_reads (S (reads w)) w))
  ∧ ((∀ c, c ∈ cs → metav1.cond_Type c ≠ ty) →
     Conditions (gw_Status g') = cs ++ [new]
     ∧ w' = set_reads (S (reads w)) w)
  ∧ g' = set_Conditions g (Conditions (gw_Status g')).
Proof.
  intros cs new g' w'.
  unfold controller.updateGatewayCondition, controller.updateGatewayConditionAt,
    controller.newCondition in g', w'.
  fold cs new in g', w'.
  split; [|split].
  - intros i c Hfirst. split.
    + intros Hsame.
      subst g' w'. rewrite (updateConditions_noop new cs i c Hfirst Hsame). done.
    + intros Hdiff.
      subst g' w'. rewrite (updateConditions_replace new cs i c Hfirst Hdiff).
      simpl. destruct Hfirst as (Hi & _).
      apply lookup_lt_Some in Hi.
      split; [done|]. split; [by apply list_lookup_insert_eq|].
      split; [|split; [by rewrite length_insert|done]].
      intros j Hj. by apply list_lookup_insert_ne.
  - intros Hnone. subst g' w'.
    rewrite (updateConditions_append new cs Hnone). done.
  - subst g' w'. destruct (controller.updateConditions new cs); simpl; [done|].
    by destruct g as [? ? ? ? ? ? []].
Qed.

Lemma updateGatewayCondition_semantics_witness :
  let w := sample.world [] [] in
  let ready := metav1.mkCondition "Ready" "False" 1 5 "ServerError" "boom" in
  let avail := metav1.mkCondition "Available" "True" 1 6 "GatewayConfigured" "ok" in
  let g := set_Conditions (sample.gateway "ga" "a") [avail; ready] in
  let new := metav1.mkCondition "Ready" "True" 1 100 "GatewayReady" "fine" in
  Conditions (gw_Status
    (controller.updateGatewayCondition g "Ready" "True" "GatewayReady" "fine" w).1)
  = [avail; new].
Proof.
  intros w ready avail g new.
  destruct (updateGatewayCondition_semantics w g "Ready" "True" "GatewayReady" "fine")
    as (Hfirst & _ & _).
  destruct (Hfirst 1 ready) as (_ & Hrepl).
  - split; [reflexivity|]. split; [reflexivity|].
    intros j c' Hj Hl. destruct j as [|j]; [|lia].
    injection Hl as <-. discriminate.
  - destruct Hrepl as (Heq & _).
    + intros (Hs & _). discriminate Hs.
    + exact Heq.
Defined.

(** * Running the monad *)

Lemma bind_run {A B} (m : M A) (f : A → M B) w :
  (m ≫= f) w = f (m w).1 (m w).2.
Proof. unfold mbind, M_bind. by destruct (m w). Qed.

Lemma set_MCPRegistry_same w : set_MCPRegistry (MCPRegistry w) w = w.
Proof. by destruct w. Qed.

(** * Watcher *)

(** C1, as the claim states it, fails: the watcher's [Reconcile] of an
    enabled service without an annotations map hands the error of the
    registry back to the dispatcher. *)
Lemma watcher_Reconcile_returns_registration_error :
  let w := sample.world [sample.gateway "ga" "a"] [sample.bare "s1" "a"] in
  let req := mkNN "ns" "s1" in
  ∃ service w1 e,
    Get_Service req w = (inr service, w1)
    ∧ services.isMCPEnabledService service = true
    ∧ (mcp.RegisterService (now w1) (MCPRegistry w1) service
         (services.serviceTypeOf service)).2 = inl e
    ∧ MissingMetadata e
    ∧ (services.Reconcile req w).1.2 = Some e.
Proof.
  intros w req.
  exists (sample.bare "s1" "a"), w, (ErrNoAnnotations "ns" "s1").
  split; [by vm_compute|]. split; [by vm_compute|]. split; [by vm_compute|].
  split; [by do 2 eexists|]. by vm_compute.
Qed.

(** C1 (amended): for every backend-service event where the service is
    fetched, carries the enablement label, and [RegisterService] returns an
    error, the watcher's [Reconcile] returns that error to the dispatcher
    with an empty result; the registry, the stored Gateways and the trace
    of effects are what they were before the call (no status is pushed). *)
Theorem watcher_Reconcile_registration_error req w service w1 r' err :
  Get_Service req w = (inr service, w1) →
  services.isMCPEnabledService service = true →
  mcp.RegisterService (now w1) (MCPRegistry w1) service
    (services.serviceTypeOf service) = (r', inl err) →
  services.Reconcile req w = ((mkResult false 0, Some err), w1)
  ∧ MCPRegistry w1 = MCPRegistry w
  ∧ api_gateways w1 = api_gateways w
  ∧ trace w1 = trace w.
Proof.
  intros Hget Hen Hreg. split.
  - unfold services.Reconcile. rewrite bind_run, Hget. simpl.
    rewrite Hen. simpl. rewrite bind_run.
    unfold RegisterService at 1 2. rewrite Hreg. simpl.
    unfold mcp.RegisterService in Hreg.
    destruct (svc_Annotations service); [discriminate|].
    injection Hreg as <- _. by rewrite set_MCPRegistry_same.
  - unfold Get_Service in Hget. rewrite bind_run in Hget.
    unfold outcome in Hget.
    destruct (faults w) as [|[e|] fs]; simpl in Hget;
      try discriminate;
      destruct (api_services _ !! req); by injection Hget as _ <-.
Qed.

Lemma watcher_Reconcile_registration_error_witness :
  services.Reconcile (mkNN "ns" "s1")
    (sample.world [sample.gateway "ga" "a"] [sample.bare "s1" "a"])
  = ((mkResult false 0, Some (ErrNoAnnotations "ns" "s1")),
     sample.world [sample.gateway "ga" "a"] [sample.bare "s1" "a"]).
Proof.
  refine (proj1 (watcher_Reconcile_registration_error (mkNN "ns" "s1")
    (sample.world [sample.gateway "ga" "a"] [sample.bare "s1" "a"])
    (sample.bare "s1" "a") _ mcp.NewRegistry (ErrNoAnnotations "ns" "s1") _ _ _)).
  - vm_compute. reflexivity.
  - vm_compute. reflexivity.
  - reflexivity.
Defined.

(** * Effects of the reconciler, in order *)

Section effects.
Import controller.

Local Ltac harmless :=
  repeat (apply Forall_cons_2; [by intros []|]); apply Forall_nil_2.

Lemma silent_quiet {A} (m : M A) : silent m → quiet m.
Proof.
  intros Hm w. exists []. rewrite Hm, app_nil_r. by split.
Qed.

Lemma quiet_ret {A} (a : A) : quiet (mret a).
Proof. by apply silent_quiet. Qed.

Lemma quiet_bind {A B} (m : M A) (f : A → M B) :
  quiet m → (∀ a, quiet (f a)) → quiet (m ≫= f).
Proof.
  intros Hm Hf w. rewrite bind_run.
  destruct (Hm w) as (evs1 & E1 & H1).
  destruct (Hf (m w).1 (m w).2) as (evs2 & E2 & H2).
  exists (evs1 ++ evs2). rewrite E2, E1, app_assoc.
  split; [done|]. by apply Forall_app.
Qed.

Lemma silent_bind {A B} (m : M A) (f : A → M B) :
  silent m → (∀ a, silent (f a)) → silent (m ≫= f).
Proof. intros Hm Hf w. rewrite bind_run. by rewrite Hf, Hm. Qed.

Lemma silent_outcome : silent outcome.
Proof. intros w. unfold outcome. by destruct (faults w). Qed.

Lemma silent_Get_Gateway key : silent (Get_Gateway key).
Proof.
  apply silent_bind; [apply silent_outcome|].
  intros [e|]; [done|]. intros w. by destruct (api_gateways w !! key).
Qed.

Lemma silent_List_Services selector : silent (List_Services selector).
Proof. apply silent_bind; [apply silent_outcome|]. by intros [e|]. Qed.

Lemma silent_RegisterService svc ty : silent (RegisterService svc ty).
Proof.
  intros w. unfold RegisterService.
  destruct (mcp.RegisterService _ _ _ _) as [r [e|m]]; done.
Qed.

Lemma silent_registerMatching svc : silent (registerMatching svc).
Proof.
  unfold registerMatching. destruct (_ && _); [|done].
  apply silent_bind; [apply silent_RegisterService|done].
Qed.

Lemma silent_forM_ {A} (xs : list A) (body : A → M unit) :
  (∀ x, silent (body x)) → silent (forM_ xs body).
Proof.
  intros Hbody. induction xs as [|x xs IH]; [done|].
  simpl. by apply silent_bind.
Qed.

Lemma silent_updateGatewayCondition g ty st reason msg :
  silent (updateGatewayCondition g ty st reason msg).
Proof.
  intros w. unfold updateGatewayCondition.
  by destruct (updateGatewayConditionAt _ _ _ _ _ _).
Qed.

Lemma silent_GetMatchingServices sel g :
  silent (services.GetMatchingServices sel g).
Proof.
  unfold services.GetMatchingServices.
  destruct (sel _); [done|apply silent_List_Services].
Qed.

Lemma quiet_emit e : ¬ removesFinalizer e → quiet (emit e).
Proof. intros He w. exists [e]. split; [done|]. by repeat constructor. Qed.

Lemma quiet_AddGateway g : quiet (services.AddGateway g).
Proof.
  unfold services.AddGateway. apply quiet_bind.
  - by apply silent_quiet.
  - intros _. apply quiet_emit. by intros [].
Qed.

Lemma quiet_ensureMCPServer g : quiet (ensureMCPServer g).
Proof.
  intros w. unfold ensureMCPServer.
  destruct (negb _).
  - destruct (mcp.Start _) as [server [e|]].
    + exists []. by rewrite app_nil_r.
    + eexists [_]. split; [done|]. harmless.
  - exists []. by rewrite app_nil_r.
Qed.

Lemma quiet_Status_Update g : quiet (Status_Update g).
Proof.
  intros w. unfold Status_Update. rewrite bind_run.
  pose proof (silent_outcome w) as Ho.
  destruct (outcome w) as [[e|] w0]; simpl in *.
  - eexists [_]. rewrite <- Ho. split; [done|]. harmless.
  - destruct (api_gateways w0 !! gw_key g); simpl;
      eexists [_]; rewrite <- Ho; (split; [done|]); harmless.
Qed.

(** [Update] leaves one effect, and touches neither the listeners nor
    the watcher. *)
Lemma Update_effects g w :
  ∃ o, trace (Update g w).2 = trace w ++ [EvUpdate g o]
       ∧ MCPServers (Update g w).2 = MCPServers w
       ∧ sw_gateways (Update g w).2 = sw_gateways w.
Proof.
  unfold Update. rewrite bind_run. unfold outcome.
  destruct (faults w) as [|[e|] fs]; simpl.
  - destruct (api_gateways w !! gw_key g); simpl; by eexists.
  - by eexists.
  - destruct (api_gateways w !! gw_key g); simpl; by eexists.
Qed.

Lemma quiet_Update g :
  controllerutil.ContainsFinalizer g gatewayFinalizer = true → quiet (Update g).
Proof.
  intros Hg w. destruct (Update_effects g w) as (o & -> & _).
  eexists. split; [done|]. constructor; [|done]. simpl. by rewrite Hg.
Qed.

Lemma ContainsFinalizer_Add g f :
  controllerutil.ContainsFinalizer (controllerutil.AddFinalizer g f) f = true.
Proof.
  unfold controllerutil.AddFinalizer.
  destruct (controllerutil.ContainsFinalizer g f) eqn:E; [done|].
  unfold controllerutil.ContainsFinalizer. simpl.
  apply bool_decide_eq_true. apply elem_of_app. right. by left.
Qed.

Lemma ContainsFinalizer_Remove g f :
  controllerutil.ContainsFinalizer (controllerutil.RemoveFinalizer g f) f = false.
Proof.
  unfold controllerutil.ContainsFinalizer, controllerutil.RemoveFinalizer. simpl.
  apply bool_decide_eq_false. intros Hin.
  apply list_elem_of_filter in Hin as [Hne _]. done.
Qed.

(** [cleanupGateway]: the listener, when there is one, is stopped and
    discarded, then the Gateway is untracked. *)
Lemma cleanupGateway_effects k w :
  trace (cleanupGateway k w).2 = trace w ++ cleanupEvents w k
  ∧ MCPServers (cleanupGateway k w).2 = delete k (MCPServers w)
  ∧ sw_gateways (cleanupGateway k w).2 = delete k (sw_gateways w).
Proof.
  unfold cleanupGateway, cleanupEvents, shutdownOutcome, services.RemoveGateway.
  rewrite bind_run. simpl.
  destruct (MCPServers w !! k) as [server|] eqn:Hs; simpl.
  - rewrite bind_run.
    destruct (mcp.started server
              && negb (bool_decide (mcp.httpServer server = None))).
    + unfold outcome.
      destruct (faults w) as [|f fs]; simpl;
        destruct (mcp.Stop _ server) as [server' e]; simpl;
        by rewrite delete_insert_eq, <- !app_assoc.
    + simpl. destruct (mcp.Stop None server) as [server' e]; simpl.
      by rewrite delete_insert_eq, <- !app_assoc.
  - split; [done|]. split; [|done].
    symmetry. by apply delete_id.
Qed.

(** [handleDeletion]: cleanup first, then at most one [Update], which
    persists the Gateway without the finalizer. *)
Lemma handleDeletion_effects g w :
  let w' := (handleDeletion g w).2 in
  ∃ persisted,
    trace w' = trace w ++ cleanupEvents w (gw_key g) ++ persisted
    ∧ (if controllerutil.ContainsFinalizer g gatewayFinalizer
       then ∃ o, persisted
                 = [EvUpdate (controllerutil.RemoveFinalizer g gatewayFinalizer) o]
       else persisted = [])
    ∧ MCPServers w' !! gw_key g = None
    ∧ sw_gateways w' !! gw_key g = None.
Proof.
  unfold handleDeletion. rewrite bind_run.
  destruct (cleanupGateway_effects (gw_key g) w) as (Ht & Hm & Hg).
  fold (gw_key g).
  destruct (cleanupGateway (gw_key g) w) as [[] w0]. simpl in *.
  destruct (controllerutil.ContainsFinalizer g gatewayFinalizer).
  - rewrite bind_run.
    destruct (Update_effects (controllerutil.RemoveFinalizer g gatewayFinalizer) w0)
      as (o & Ht' & Hm' & Hg').
    destruct (Update _ w0) as [[e|] w1]; simpl in *.
    all: eexists; split; [by rewrite Ht', Ht, <- app_assoc|].
    all: split; [by eexists|].
    all: rewrite Hm', Hg', Hm, Hg; by rewrite !lookup_delete_eq.
  - exists []. rewrite app_nil_r.
    split; [done|]. split; [done|]. simpl. rewrite Hm, Hg.
    by rewrite !lookup_delete_eq.
Qed.

(** Every path of [Reconcile] that does not go through [handleDeletion]
    is quiet. *)
Lemma quiet_cleanupGateway k : quiet (cleanupGateway k).
Proof.
  intros w. destruct (cleanupGateway_effects k w) as (-> & _).
  eexists. split; [done|]. unfold cleanupEvents.
  apply Forall_app. split; [|harmless].
  destruct (MCPServers w !! k); harmless.
Qed.

Lemma quiet_live sel (gateway : Gateway) :
  quiet (
    if negb (controllerutil.ContainsFinalizer gateway gatewayFinalizer) then
      let gateway := controllerutil.AddFinalizer gateway gatewayFinalizer in
      e ← Update gateway;
      match e with
      | Some err => mret (mkResult false 0, Some err)
      | None => mret (mkResult true 0, None)
      end
    else
      e ← ensureMCPServer gateway;
      match e with
      | Some err =>
          _ ← updateGatewayCondition gateway conditionTypeReady
                metav1.ConditionFalse reasonServerError (Error_string err);
          mret (mkResult false (Second * 30), Some err)
      | None =>
          services.AddGateway gateway ;;
          r ← services.GetMatchingServices sel gateway;
          match r with
          | inl err =>
              _ ← updateGatewayCondition gateway conditionTypeReady
                    metav1.ConditionFalse reasonConfigError
                    ("Failed to list matching services: " +:+ Error_string err);
              mret (mkResult false (Second * 30), Some err)
          | inr matchingServices =>
              forM_ matchingServices registerMatching ;;
              gateway ← UpdateRegistryStatus gateway;
              let gateway :=
                set_Address gateway (":" +:+ pretty (MCPPort (gw_Spec gateway))) in
              gateway ← updateGatewayCondition gateway conditionTypeReady
                metav1.ConditionTrue reasonReady
                ("Gateway is ready with "
                   +:+ pretty (length (MCPServices (gw_Status gateway)))
                   +:+ " services");
              gateway ← updateGatewayCondition gateway conditionTypeAvailable
                metav1.ConditionTrue reasonConfigured "Gateway is available";
              e ← Status_Update gateway;
              match e with
              | Some err => mret (mkResult false Minute, Some err)
              | None => mret (mkResult false (Minute * 5), None)
              end
          end
      end).
Proof.
  destruct (negb _).
  - apply quiet_bind; [apply quiet_Update, ContainsFinalizer_Add|].
    intros [e|]; apply quiet_ret.
  - apply quiet_bind; [apply quiet_ensureMCPServer|]. intros [e|].
    + apply quiet_bind; [|intros; apply quiet_ret].
      apply silent_quiet, silent_updateGatewayCondition.
    + apply quiet_bind; [apply quiet_AddGateway|]. intros _.
      apply quiet_bind; [apply silent_quiet, silent_GetMatchingServices|].
      intros [e|matching].
      * apply quiet_bind; [|intros; apply quiet_ret].
        apply silent_quiet, silent_updateGatewayCondition.
      * apply quiet_bind.
        { apply silent_quiet, silent_forM_, silent_registerMatching. }
        intros _. apply quiet_bind; [by apply silent_quiet|]. intros g1.
        apply quiet_bind; [apply silent_quiet, silent_updateGatewayCondition|].
        intros g2.
        apply quiet_bind; [apply silent_quiet, silent_updateGatewayCondition|].
        intros g3.
        apply quiet_bind; [apply quiet_Status_Update|].
        intros [e|]; apply quiet_ret.
Qed.

End effects.

(** * Deletion *)

Lemma Get_Gateway_frame key w :
  MCPServers (Get_Gateway key w).2 = MCPServers w
  ∧ sw_gateways (Get_Gateway key w).2 = sw_gateways w
  ∧ api_gateways (Get_Gateway key w).2 = api_gateways w
  ∧ MCPRegistry (Get_Gateway key w).2 = MCPRegistry w.
Proof.
  unfold Get_Gateway. rewrite bind_run. unfold outcome.
  destruct (faults w) as [|[e|] fs]; simpl; try done;
    by destruct (api_gateways w !! key).
Qed.

(** A persisted removal among effects that end in at most one of them is
    the last effect, and all the others come before it. *)
Lemma removal_is_last (c pre post : list Event) e u :
  Forall (λ e, ¬ removesFinalizer e) c →
  removesFinalizer e →
  pre ++ e :: post = c ++ [u] →
  pre = c ∧ post = [].
Proof.
  intros Hc He. revert pre. induction Hc as [|x c Hx Hc IH]; intros pre Heq.
  - destruct pre as [|y pre]; simpl in Heq.
    + by injection Heq as _ <-.
    + injection Heq as _ Heq. by destruct pre.
  - destruct pre as [|y pre]; simpl in Heq.
    + injection Heq as <- _. done.
    + injection Heq as <- Heq. destruct (IH pre Heq) as [-> ->]. done.
Qed.

Lemma cleanupEvents_harmless w k :
  Forall (λ e, ¬ removesFinalizer e) (cleanupEvents w k).
Proof.
  unfold cleanupEvents. apply Forall_app. split.
  - destruct (MCPServers w !! k);
      repeat (apply Forall_cons_2; [by intros []|]); apply Forall_nil_2.
  - apply Forall_cons_2; [by intros []|]. apply Forall_nil_2.
Qed.

(** [Stop] leaves a well-formed handle not running, whatever [Shutdown]
    returns. *)
Lemma Stop_stops shutdown s :
  server_ok s → mcp.IsRunning (mcp.Stop shutdown s).1 = false.
Proof.
  intros Hs. unfold mcp.Stop, mcp.IsRunning.
  destruct (mcp.started s) eqn:Hst; simpl; [|by rewrite Hst].
  destruct (Hs Hst) as [h Hh].
  rewrite bool_decide_eq_false_2 by (rewrite Hh; discriminate). done.
Qed.

Lemma cleanupGateway_keeps_store k w :
  api_gateways (controller.cleanupGateway k w).2 = api_gateways w.
Proof.
  unfold controller.cleanupGateway, services.RemoveGateway.
  rewrite bind_run. simpl.
  destruct (MCPServers w !! k) as [server|]; simpl; [|done].
  rewrite bind_run.
  destruct (mcp.started server && negb (bool_decide (mcp.httpServer server = None))).
  - unfold outcome. destruct (faults w) as [|f fs]; simpl;
      by destruct (mcp.Stop _ server).
  - simpl. by destruct (mcp.Stop None server).
Qed.

(** What an [Update] leaves: one effect that carries its outcome; the
    store rewritten when the call went through, and as it was when it
    did not. *)
Lemma Update_outcome g w :
  ∃ o, trace (Update g w).2 = trace w ++ [EvUpdate g o]
       ∧ match o with
         | None => ∃ old, api_gateways w !! gw_key g = Some old
                          ∧ api_gateways (Update g w).2
                            = stored_after_Update g old (api_gateways w)
         | Some _ => api_gateways (Update g w).2 = api_gateways w
         end.
Proof.
  unfold Update. rewrite bind_run. unfold outcome.
  destruct (faults w) as [|[e|] fs]; simpl.
  - destruct (api_gateways w !! gw_key g) as [old|]; simpl.
    + exists None. split; [done|]. by exists old.
    + by eexists (Some _).
  - by eexists (Some _).
  - destruct (api_gateways w !! gw_key g) as [old|]; simpl.
    + exists None. split; [done|]. by exists old.
    + by eexists (Some _).
Qed.

(** The object the store holds after an accepted [Update] carries the
    finalizers of the object that was sent. *)
Lemma stored_after_Update_finalizers g old store stored f :
  stored_after_Update g old store !! gw_key g = Some stored →
  controllerutil.ContainsFinalizer stored f = controllerutil.ContainsFinalizer g f.
Proof.
  unfold stored_after_Update. destruct (_ && _).
  - by rewrite lookup_delete_eq.
  - rewrite lookup_insert_eq. by intros [= <-].
Qed.

(** [handleDeletion] is [cleanupGateway] and then, for a Gateway that
    carries the finalizer, the [Update] of the Gateway without it, made
    in the world that cleanup left. *)
Lemma handleDeletion_run g w :
  (controller.handleDeletion g w).2
  = if controllerutil.ContainsFinalizer g controller.gatewayFinalizer
    then (Update (controllerutil.RemoveFinalizer g controller.gatewayFinalizer)
                 (controller.cleanupGateway (gw_key g) w).2).2
    else (controller.cleanupGateway (gw_key g) w).2.
Proof.
  unfold controller.handleDeletion. fold (gw_key g). rewrite bind_run.
  destruct (controllerutil.ContainsFinalizer g controller.gatewayFinalizer); [|done].
  rewrite bind_run.
  by destruct (Update _ (controller.cleanupGateway (gw_key g) w).2) as [[e|] w3].
Qed.

(** C7: in every invocation of the reconciler that fetches a Gateway whose
    deletion timestamp is set, cleanup runs first, in the world as it was
    fetched: the listener handle, if there is one, is stopped (a
    well-formed handle is left not running, whatever [Shutdown] returns)
    and discarded, and the Gateway is untracked from the watcher, while
    the store still holds what it held.  Only then, in the world that
    cleanup left, is the Gateway persisted without the finalizer, by at
    most one [Update]: when that call goes through, the stored Gateway,
    if it is still there, does not carry the finalizer; when it fails, the
    store is what it was.  Afterwards no handle and no tracking entry is
    left.  And in every invocation whatsoever, an effect that persists a
    Gateway without the finalizer occurs only on that path, after all of
    cleanup, as the last effect. *)
Theorem finalizer_removed_only_after_cleanup sel req w :
  let w' := (controller.Reconcile sel req w).2 in
  ∃ evs,
    trace w' = trace w ++ evs
    ∧ (∀ g w1, Get_Gateway req w = (inr g, w1) →
         controller.IsZero (gw_DeletionTimestamp g) = false →
         let k := gw_key g in
         let g' := controllerutil.RemoveFinalizer g controller.gatewayFinalizer in
         let w2 := (controller.cleanupGateway k w1).2 in
         trace w2 = trace w ++ cleanupEvents w1 k
         ∧ (∀ server, MCPServers w !! k = Some server →
              ∃ stopped res,
                cleanupEvents w1 k
                = [EvServerStop k stopped res; EvServerDiscard k; EvRemoveGateway k]
                ∧ (stopped, res) = mcp.Stop (shutdownOutcome w1 server) server
                ∧ (server_ok server → mcp.IsRunning stopped = false))
         ∧ (MCPServers w !! k = None → cleanupEvents w1 k = [EvRemoveGateway k])
         ∧ MCPServers w2 !! k = None
         ∧ sw_gateways w2 !! k = None
         ∧ api_gateways w2 = api_gateways w
         ∧ controllerutil.ContainsFinalizer g' controller.gatewayFinalizer = false
         ∧ w' = (if controllerutil.ContainsFinalizer g controller.gatewayFinalizer
                 then (Update g' w2).2 else w2)
         ∧ ∃ persisted,
             evs = cleanupEvents w1 k ++ persisted
             ∧ (if controllerutil.ContainsFinalizer g controller.gatewayFinalizer
                then ∃ o, persisted = [EvUpdate g' o]
                          ∧ match o with
                            | None =>
                                ∀ stored, api_gateways w' !! k = Some stored →
                                  controllerutil.ContainsFinalizer stored
                                    controller.gatewayFinalizer = false
                            | Some _ => api_gateways w' = api_gateways w
                            end
                else persisted = [] ∧ api_gateways w' = api_gateways w)
             ∧ MCPServers w' !! k = None
             ∧ sw_gateways w' !! k = None)
    ∧ (∀ pre e post, evs = pre ++ e :: post → removesFinalizer e →
         ∃ g w1, Get_Gateway req w = (inr g, w1)
           ∧ controller.IsZero (gw_DeletionTimestamp g) = false
           ∧ pre = cleanupEvents w1 (gw_key g)
           ∧ post = []).
Proof.
  intros w'. subst w'. unfold controller.Reconcile. rewrite bind_run.
  pose proof (silent_Get_Gateway req w) as Ht.
  destruct (Get_Gateway_frame req w) as (Hm & Hsw & Hst & _).
  destruct (Get_Gateway req w) as [[err|g] w1] eqn:Hget;
    cbn [fst snd] in Ht, Hm, Hsw, Hst |- *.
  - (* the Gateway was not fetched *)
    assert (Hq : quiet (if IsNotFound err
                        then controller.cleanupGateway req ;;
                             mret (mkResult false 0, None)
                        else mret (mkResult false 0, Some err))).
    { destruct (IsNotFound err); [|apply quiet_ret].
      apply quiet_bind; [apply quiet_cleanupGateway|]. intros; apply quiet_ret. }
    destruct (Hq w1) as (evs & Hevs & Hharm).
    exists evs. split; [by rewrite <- Ht|]. split.
    + intros g w2 [=].
    + intros pre e post -> He. exfalso.
      apply Forall_app in Hharm as [_ Hharm].
      apply Forall_cons in Hharm as [Hharm _]. done.
  - destruct (controller.IsZero (gw_DeletionTimestamp g)) eqn:Hdel; cbn [negb].
    + (* a live Gateway *)
      destruct (quiet_live sel g w1) as (evs & Hevs & Hharm).
      exists evs. split; [rewrite <- Ht; exact Hevs|]. split.
      * intros g' w2 [= <- <-]. congruence.
      * intros pre e post -> He. exfalso.
        apply Forall_app in Hharm as [_ Hharm].
        apply Forall_cons in Hharm as [Hharm _]. done.
    + (* a Gateway marked for deletion *)
      destruct (handleDeletion_effects g w1) as (persisted & Hevs & Hp & Hs & Hg).
      exists (cleanupEvents w1 (gw_key g) ++ persisted).
      split; [rewrite <- Ht; exact Hevs|]. split.
      * intros g0 w0 [= <- <-] _.
        set (k := gw_key g) in *.
        set (g' := controllerutil.RemoveFinalizer g controller.gatewayFinalizer) in *.
        set (w2 := (controller.cleanupGateway k w1).2) in *.
        destruct (cleanupGateway_effects k w1) as (Ht2 & Hm2 & Hs2).
        fold w2 in Ht2, Hm2, Hs2.
        pose proof (cleanupGateway_keeps_store k w1) as Hst2. fold w2 in Hst2.
        pose proof (handleDeletion_run g w1) as Hrun. fold k g' w2 in Hrun.
        split; [by rewrite Ht2, Ht|].
        split.
        { intros server Hserver. rewrite <- Hm in Hserver.
          unfold cleanupEvents. rewrite Hserver.
          exists (mcp.Stop (shutdownOutcome w1 server) server).1,
                 (mcp.Stop (shutdownOutcome w1 server) server).2.
          split; [done|]. split; [by destruct (mcp.Stop _ server)|].
          apply Stop_stops. }
        split.
        { intros Hnone. rewrite <- Hm in Hnone.
          unfold cleanupEvents. by rewrite Hnone. }
        split; [by rewrite Hm2, lookup_delete_eq|].
        split; [by rewrite Hs2, lookup_delete_eq|].
        split; [by rewrite Hst2, Hst|].
        split; [apply ContainsFinalizer_Remove|].
        split; [exact Hrun|].
        exists persisted. split; [done|]. split; [|by split].
        rewrite Hrun.
        destruct (controllerutil.ContainsFinalizer g controller.gatewayFinalizer).
        -- destruct Hp as [o Hp].
           destruct (Update_outcome g' w2) as (o' & Ht3 & Ho').
           assert (o' = o) as ->.
           { rewrite Hrun, Ht3, Ht2 in Hevs. rewrite Hp in Hevs.
             rewrite <- app_assoc in Hevs.
             apply app_inv_head in Hevs. apply app_inv_head in Hevs.
             by injection Hevs. }
           exists o. split; [done|].
           destruct o as [e|].
           ++ by rewrite Ho', Hst2, Hst.
           ++ destruct Ho' as (old & Hold & Hstore). intros stored Hstored.
              rewrite Hstore in Hstored.
              rewrite (stored_after_Update_finalizers g' old _ stored _ Hstored).
              apply ContainsFinalizer_Remove.
        -- split; [done|]. by rewrite Hst2, Hst.
      * intros pre e post Heq He. exists g, w1.
        split; [done|]. split; [done|].
        destruct (controllerutil.ContainsFinalizer g controller.gatewayFinalizer).
        -- destruct Hp as [o ->].
           eapply removal_is_last; [apply cleanupEvents_harmless|done|done].
        -- subst persisted. rewrite app_nil_r in Heq. exfalso.
           pose proof (cleanupEvents_harmless w1 (gw_key g)) as Hharm.
           rewrite Heq in Hharm.
           apply Forall_app in Hharm as [_ Hharm].
           apply Forall_cons in Hharm as [Hharm _]. done.
Qed.

Lemma finalizer_removed_only_after_cleanup_witness :
  let g := mkGateway "ga" "ns" 1 (Some 50) [controller.gatewayFinalizer]
             (gw_Spec (sample.gateway "ga" "a")) (mkGatewayStatus [] [] "") in
  let k := mkNN "ns" "ga" in
  let running := (mcp.Start mcp.NewServer).1 in
  let w := set_MCPServers (<[k := running]>) (sample.world [g] []) in
  let w' := (controller.Reconcile metav1.matchSelector k w).2 in
  ∃ stopped,
    trace w' =
      [EvServerStop k stopped None; EvServerDiscard k; EvRemoveGateway k;
       EvUpdate (controllerutil.RemoveFinalizer g controller.gatewayFinalizer) None]
    ∧ mcp.IsRunning running = true
    ∧ mcp.IsRunning stopped = false
    ∧ MCPServers w' !! k = None
    ∧ api_gateways w' !! k = None.
Proof.
  intros g k running w w'.
  destruct (finalizer_removed_only_after_cleanup metav1.matchSelector k w)
    as (evs & Hevs & Hdel & _).
  destruct (Hdel g w) as (_ & Hstop & _ & _ & _ & _ & _ & _ & persisted & -> & Hp & Hs & _).
  - vm_compute. reflexivity.
  - reflexivity.
  - destruct (Hstop running) as (stopped & res & Hc & Hstopped & Hoff).
    + vm_compute. reflexivity.
    + exists stopped.
      assert (Hres : res = None) by (vm_compute in Hstopped; congruence).
      subst res.
      assert (Hfin : controllerutil.ContainsFinalizer g controller.gatewayFinalizer
                     = true) by reflexivity.
      rewrite Hfin in Hp. destruct Hp as (o & -> & _).
      subst w'.
      assert (Hlast : last (trace (controller.Reconcile metav1.matchSelector k w).2)
                      = Some (EvUpdate (controllerutil.RemoveFinalizer g
                                          controller.gatewayFinalizer) None))
        by (vm_compute; reflexivity).
      rewrite Hevs, app_assoc, last_snoc in Hlast.
      injection Hlast as ->.
      split; [rewrite Hevs, Hc; reflexivity|].
      split; [reflexivity|].
      split; [apply Hoff; intros _; by eexists|].
      split; [exact Hs|]. vm_compute. reflexivity.
Defined.

(** * The registration loop *)

Section loop.
Import controller.

Lemma internal_trans w1 w2 w3 : internal w1 w2 → internal w2 w3 → internal w1 w3.
Proof.
  intros (?&?&?&?) (?&?&?&?). repeat split; congruence.
Qed.

Lemma registry_wf_Register now r svc ty :
  registry_wf r → registry_wf (mcp.RegisterService now r svc ty).1.
Proof.
  intros Hwf. unfold mcp.RegisterService.
  destruct (svc_Annotations svc); [|done]. simpl.
  by apply map_Forall_insert_2.
Qed.

Lemma reachable_registry_wf r : reachable r → registry_wf r.
Proof.
  induction 1 as [|r op Hr IH]; [apply map_Forall_empty|].
  destruct op as [now svc ty|name]; simpl.
  - by apply registry_wf_Register.
  - unfold mcp.DeregisterService.
    destruct (mcp.services r !! name); simpl; [|done].
    by apply map_Forall_delete.
Qed.

(** One round of the loop. *)
Lemma registerMatching_step svc w :
  let w' := (registerMatching svc w).2 in
  internal w w'
  ∧ (registry_wf (MCPRegistry w) → registry_wf (MCPRegistry w'))
  ∧ if registers svc
    then ∃ m, MCPRegistry w'
              = mcp.mkRegistry (<[svc_key svc := m]> (mcp.services (MCPRegistry w)))
            ∧ mcp.toInfo m = expectedInfo (now w) svc (roleOf svc)
    else MCPRegistry w' = MCPRegistry w.
Proof.
  unfold registerMatching, registers. fold (roleOf svc).
  destruct (bool_decide (is_Some (svc_Labels svc))
            && bool_decide (index (svc_Labels svc) services.MCPEnabledLabel = "true"));
    [|done].
  rewrite bind_run. unfold RegisterService. simpl.
  pose proof (registry_wf_Register (now w) (MCPRegistry w) svc (roleOf svc)) as Hwf.
  destruct (svc_Annotations svc) as [a|] eqn:Ha.
  - destruct (RegisterService_Some (now w) (MCPRegistry w) svc (roleOf svc) a Ha)
      as (m & E & _ & _ & _ & _ & _ & Hinfo).
    rewrite E in Hwf |- *. simpl.
    split; [done|]. split; [done|]. by exists m.
  - rewrite (RegisterService_None _ _ _ _ Ha) in Hwf |- *. simpl.
    rewrite set_MCPRegistry_same. done.
Qed.

Lemma loop_spec L w :
  let w' := (forM_ L registerMatching w).2 in
  internal w w'
  ∧ (registry_wf (MCPRegistry w) → registry_wf (MCPRegistry w'))
  ∧ loopRel L (MCPRegistry w) (MCPRegistry w').
Proof.
  revert w. induction L as [|svc L IH]; intros w; simpl.
  - split; [done|]. split; [done|]. by intros k.
  - rewrite bind_run.
    destruct (registerMatching_step svc w) as (Hint & Hwf & Hreg).
    destruct (IH (registerMatching svc w).2) as (Hint' & Hwf' & Hloop).
    split; [by eapply internal_trans|]. split; [by auto|].
    intros k. specialize (Hloop k). simpl.
    destruct (lastRegistered L k) as [svc'|]; [done|].
    rewrite Hloop. destruct (registers svc); simpl.
    + destruct Hreg as (m & -> & Hinfo). simpl.
      case_bool_decide as Hk.
      * subst k. rewrite lookup_insert_eq. by eexists _, m.
      * by rewrite lookup_insert_ne.
    + by rewrite Hreg.
Qed.

(** A second pass of the loop over the same services changes
    timestamps only. *)
Lemma loop_twice_untimed L r0 r1 r2 :
  loopRel L r0 r1 → loopRel L r1 r2 → untimedInfos r2 = untimedInfos r1.
Proof.
  intros H1 H2. apply map_eq. intros k. unfold untimedInfos.
  rewrite !lookup_fmap. specialize (H1 k). specialize (H2 k).
  destruct (lastRegistered L k) as [svc|].
  - destruct H1 as (t1 & m1 & -> & E1). destruct H2 as (t2 & m2 & -> & E2).
    simpl. by rewrite E1, E2.
  - by rewrite H2.
Qed.

Lemma untimed_projection r :
  untimed <$> (mcp.toInfo <$> mcp.range r) = (map_to_list (untimedInfos r)).*2.
Proof.
  unfold untimedInfos, mcp.range. rewrite map_to_list_fmap.
  rewrite <- !list_fmap_compose. apply list_fmap_ext. by intros i [k m] _.
Qed.

Lemma projection_identities r :
  registry_wf r →
  (λ i, mkNN (info_Namespace i) (info_Name i)) <$> (mcp.toInfo <$> mcp.range r)
    = (map_to_list (mcp.services r)).*1.
Proof.
  intros Hwf. unfold mcp.range. rewrite <- !list_fmap_compose.
  apply list_fmap_ext. intros i [k m] Hkm. simpl.
  apply list_elem_of_lookup_2, elem_of_map_to_list in Hkm. exact (Hwf k m Hkm).
Qed.

End loop.

(** * Settled conditions *)

Section settled.
Import metav1.
Implicit Types (c new : Condition) (cs : list Condition).

Lemma default_cons c cs (o : option (list Condition)) :
  default (c :: cs) ((c ::.) <$> o) = c :: default cs o.
Proof. by destruct o. Qed.

(** Once an update has gone through, the same update is a no-op. *)
Lemma updateConditions_settles new new' cs :
  cond_Type new' = cond_Type new → unchanged new new' →
  controller.updateConditions new' (default cs (controller.updateConditions new cs))
    = None.
Proof.
  intros Hty Hsame.
  assert (Hnew : controller.updateConditions new' (new :: cs) = None).
  { simpl. rewrite decide_True by done.
    by rewrite (proj2 (unchanged_test _ _) Hsame). }
  induction cs as [|c cs IH].
  - exact Hnew.
  - simpl. destruct (decide (cond_Type c = cond_Type new)) as [Hc|Hc].
    + destruct (bool_decide (cond_Status c = cond_Status new)
                && bool_decide (cond_Reason c = cond_Reason new)
                && bool_decide (cond_Message c = cond_Message new)) eqn:E.
      * simpl. rewrite decide_True by congruence.
        apply unchanged_test in E. destruct E as (E1 & E2 & E3).
        destruct Hsame as (S1 & S2 & S3).
        rewrite !bool_decide_eq_true_2 by congruence. done.
      * simpl. rewrite decide_True by done.
        by rewrite (proj2 (unchanged_test _ _) Hsame).
    + rewrite default_cons. simpl. rewrite decide_False by congruence.
      rewrite IH; [done|].
      simpl. rewrite decide_True by done.
      by rewrite (proj2 (unchanged_test _ _) Hsame).
Qed.

(** A settled update stays settled under an update of another type. *)
Lemma updateConditions_settled_other new1 new2 cs :
  cond_Type new2 ≠ cond_Type new1 →
  controller.updateConditions new1 cs = None →
  controller.updateConditions new1 (default cs (controller.updateConditions new2 cs))
    = None.
Proof.
  intros Hty. induction cs as [|c cs IH]; simpl; [done|].
  destruct (decide (cond_Type c = cond_Type new1)) as [H1|H1].
  - destruct (_ && _) eqn:E; [|done]. intros _.
    rewrite decide_False by congruence. rewrite default_cons. simpl.
    rewrite decide_True by done. by rewrite E.
  - intros Hrest.
    destruct (controller.updateConditions new1 cs) eqn:E1; [done|].
    destruct (decide (cond_Type c = cond_Type new2)) as [H2|H2].
    + destruct (_ && _); simpl.
      * rewrite decide_False by done. by rewrite E1.
      * rewrite decide_False by done. by rewrite E1.
    + rewrite default_cons. simpl. rewrite decide_False by done.
      by rewrite IH.
Qed.

(** The two conditions of a completed pass, once published, are not
    touched by the same two updates at later instants. *)
Lemma conditions_stable t1 t2 t3 t4 g g' msg cs :
  let pass ta tb h cs :=
    conditionsAfter tb h controller.conditionTypeAvailable ConditionTrue
      controller.reasonConfigured "Gateway is available"
      (conditionsAfter ta h controller.conditionTypeReady ConditionTrue
         controller.reasonReady msg cs) in
  pass t3 t4 g' (pass t1 t2 g cs) = pass t1 t2 g cs.
Proof.
  intros pass. subst pass. cbv beta.
  set (cs1 := conditionsAfter t1 g _ _ _ _ cs).
  set (cs2 := conditionsAfter t2 g _ _ _ _ cs1).
  assert (Hready : conditionsAfter t3 g' controller.conditionTypeReady
                     ConditionTrue controller.reasonReady msg cs2 = cs2).
  { unfold conditionsAfter at 1. subst cs2. unfold conditionsAfter at 1 2.
    rewrite updateConditions_settled_other; [done|done|].
    subst cs1. unfold conditionsAfter.
    by apply updateConditions_settles. }
  rewrite Hready.
  unfold conditionsAfter at 1. subst cs2. unfold conditionsAfter at 1 2.
  by rewrite updateConditions_settles.
Qed.

End settled.

(** * The path of a live Gateway *)

Section live.
Import controller.

Lemma outcome_nil w : faults w = [] → outcome w = (None, w).
Proof. intros H. unfold outcome. by rewrite H. Qed.

Lemma Get_Gateway_ok req w g :
  faults w = [] → api_gateways w !! req = Some g →
  Get_Gateway req w = (inr g, w).
Proof.
  intros Hf Hg. unfold Get_Gateway. rewrite bind_run, outcome_nil by done.
  simpl. by rewrite Hg.
Qed.

Lemma ensureMCPServer_ok g w :
  (ensureMCPServer g w).1 = None
  ∧ internal w (ensureMCPServer g w).2
  ∧ MCPRegistry (ensureMCPServer g w).2 = MCPRegistry w.
Proof.
  unfold ensureMCPServer, mcp.IsRunning, mcp.Start.
  destruct (MCPServers w !! _) as [server|]; simpl.
  - destruct (mcp.started server); simpl; done.
  - done.
Qed.

Lemma AddGateway_internal g w :
  internal w (services.AddGateway g w).2
  ∧ MCPRegistry (services.AddGateway g w).2 = MCPRegistry w.
Proof. done. Qed.

Lemma GetMatchingServices_ok sel g selector w :
  faults w = [] → sel (ServiceSelector (gw_Spec g)) = inr selector →
  services.GetMatchingServices sel g w = (inr (matching selector w), w).
Proof.
  intros Hf Hsel. unfold services.GetMatchingServices. rewrite Hsel.
  unfold List_Services. rewrite bind_run, outcome_nil by done. done.
Qed.

Lemma updateGatewayCondition_run g ty st reason msg w :
  let w' := (updateGatewayCondition g ty st reason msg w).2 in
  (updateGatewayCondition g ty st reason msg w).1
    = set_Conditions g
        (conditionsAfter (now w) g ty st reason msg (Conditions (gw_Status g)))
  ∧ internal w w'
  ∧ MCPRegistry w' = MCPRegistry w.
Proof.
  unfold updateGatewayCondition, updateGatewayConditionAt, conditionsAfter,
    newCondition.
  destruct (updateConditions _ _); simpl; [done|].
  split; [|done]. by destruct g as [? ? ? ? ? ? []].
Qed.

Lemma Status_Update_ok g old w :
  faults w = [] → api_gateways w !! gw_key g = Some old →
  let w' := (Status_Update g w).2 in
  (Status_Update g w).1 = None
  ∧ api_gateways w' = <[gw_key g := set_Status old (gw_Status g)]> (api_gateways w)
  ∧ api_services w' = api_services w
  ∧ faults w' = []
  ∧ clock w' = clock w
  ∧ MCPRegistry w' = MCPRegistry w.
Proof.
  intros Hf Hold. unfold Status_Update.
  rewrite bind_run, outcome_nil by done. simpl. rewrite Hold. simpl. done.
Qed.

(** What one full pass of [Reconcile] over a live Gateway publishes. *)
Lemma Reconcile_live sel req w g selector :
  faults w = [] →
  api_gateways w !! req = Some g →
  gw_key g = req →
  IsZero (gw_DeletionTimestamp g) = true →
  controllerutil.ContainsFinalizer g gatewayFinalizer = true →
  sel (ServiceSelector (gw_Spec g)) = inr selector →
  ∃ w' t1 t2,
    Reconcile sel req w = ((mkResult false (Minute * 5), None), w')
    ∧ api_services w' = api_services w
    ∧ faults w' = []
    ∧ (registry_wf (MCPRegistry w) → registry_wf (MCPRegistry w'))
    ∧ loopRel (matching selector w) (MCPRegistry w) (MCPRegistry w')
    ∧ api_gateways w' =
        <[req := set_Status g
           (mkGatewayStatus
              (conditionsAfter t2 g conditionTypeAvailable metav1.ConditionTrue
                 reasonConfigured "Gateway is available"
                 (conditionsAfter t1 g conditionTypeReady metav1.ConditionTrue
                    reasonReady
                    ("Gateway is ready with "
                       +:+ pretty (length (mcp.range (MCPRegistry w')))
                       +:+ " services")
                    (Conditions (gw_Status g))))
              (mcp.toInfo <$> mcp.range (MCPRegistry w'))
              (":" +:+ pretty (MCPPort (gw_Spec g))))]> (api_gateways w).
Proof.
  intros Hf Hg Hkey Hlive Hfin Hsel.
  unfold Reconcile.
  rewrite bind_run, (Get_Gateway_ok _ _ _ Hf Hg). cbn [fst snd].
  rewrite Hlive, Hfin. cbn [negb].
  rewrite bind_run.
  destruct (ensureMCPServer_ok g w) as (-> & (Hg2 & Hs2 & Hf2 & Hc2) & Hr2).
  set (w2 := (ensureMCPServer g w).2) in *.
  rewrite bind_run.
  destruct (AddGateway_internal g w2) as ((Hg3 & Hs3 & Hf3 & Hc3) & Hr3).
  set (w3 := (services.AddGateway g w2).2) in *.
  assert (Hf3' : faults w3 = []) by congruence.
  rewrite bind_run, (GetMatchingServices_ok sel g selector w3 Hf3' Hsel).
  cbn [fst snd].
  assert (HL : matching selector w3 = matching selector w).
  { unfold matching. congruence. }
  rewrite HL. rewrite bind_run.
  destruct (loop_spec (matching selector w) w3)
    as ((Hg4 & Hs4 & Hf4 & Hc4) & Hwf4 & Hloop).
  set (w4 := (forM_ (matching selector w) registerMatching w3).2) in *.
  rewrite bind_run.
  change (UpdateRegistryStatus g w4)
    with (mcp.UpdateRegistryStatus (MCPRegistry w4) g, w4).
  cbn [fst snd].
  set (g1 := set_Address (mcp.UpdateRegistryStatus (MCPRegistry w4) g) _).
  rewrite bind_run.
  destruct (updateGatewayCondition_run g1 conditionTypeReady metav1.ConditionTrue
              reasonReady
              ("Gateway is ready with "
                 +:+ pretty (length (MCPServices (gw_Status g1))) +:+ " services") w4)
    as (Eg2 & (Hg5 & Hs5 & Hf5 & Hc5) & Hr5).
  rewrite Eg2. clear Eg2.
  set (w5 := (updateGatewayCondition g1 _ _ _ _ w4).2) in *.
  set (g2 := set_Conditions g1 _).
  rewrite bind_run.
  destruct (updateGatewayCondition_run g2 conditionTypeAvailable metav1.ConditionTrue
              reasonConfigured "Gateway is available" w5)
    as (Eg3 & (Hg6 & Hs6 & Hf6 & Hc6) & Hr6).
  rewrite Eg3. clear Eg3.
  set (w6 := (updateGatewayCondition g2 _ _ _ _ w5).2) in *.
  set (g3 := set_Conditions g2 _).
  assert (Hf6' : faults w6 = []) by congruence.
  assert (Hold : api_gateways w6 !! gw_key g3 = Some g).
  { change (gw_key g3) with (gw_key g). rewrite Hkey. congruence. }
  rewrite bind_run.
  destruct (Status_Update_ok g3 g w6 Hf6' Hold)
    as (-> & Hg7 & Hs7 & Hf7 & Hc7 & Hr7).
  set (w7 := (Status_Update g3 w6).2) in *.
  cbn [fst snd].
  exists w7, (now w4), (now w5). split; [done|].
  assert (Hreg : MCPRegistry w7 = MCPRegistry w4) by congruence.
  split; [congruence|]. split; [done|].
  split; [rewrite Hreg; intros Hwf; apply Hwf4; by rewrite Hr3, Hr2|].
  split; [rewrite Hreg; by rewrite Hr3, Hr2 in Hloop|].
  rewrite Hg7, Hreg. change (gw_key g3) with (gw_key g). rewrite Hkey.
  rewrite Hg6, Hg5, Hg4, Hg3, Hg2. f_equal.
  subst g3 g2 g1. unfold mcp.UpdateRegistryStatus. simpl.
  by rewrite length_fmap.
Qed.

End live.

(** * What a Gateway's status lists *)

Lemma lastRegistered_Some L k svc :
  lastRegistered L k = Some svc → registers svc = true ∧ svc_key svc = k ∧ svc ∈ L.
Proof.
  induction L as [|s L IH]; simpl; [done|].
  destruct (lastRegistered L k) as [s'|].
  - intros [= ->]. destruct IH as (? & ? & ?); [done|].
    split; [done|]. split; [done|]. by right.
  - destruct (registers s) eqn:Hs; simpl; [|done].
    case_bool_decide; [|done]. intros [= <-].
    split; [done|]. split; [done|]. by left.
Qed.

Lemma lastRegistered_is_Some L svc :
  svc ∈ L → registers svc = true → is_Some (lastRegistered L (svc_key svc)).
Proof.
  induction L as [|s L IH]; intros Hin Hreg.
  - by apply elem_of_nil in Hin.
  - simpl. destruct (lastRegistered L (svc_key svc)) as [s'|] eqn:E; [by eexists|].
    apply elem_of_cons in Hin as [<-|Hin].
    + rewrite Hreg, bool_decide_eq_true_2 by done. by eexists.
    + destruct (IH Hin Hreg) as [? ?]. done.
Qed.

(** C2, as the claim states it, fails.  The store holds two enabled,
    annotated services, [sa] of application [a] and [sb] of application
    [b].  After the Gateway [gb], which selects application [b], has been
    reconciled, the status published for the Gateway [ga], which selects
    application [a], lists the service [sb], whose labels its selector
    does not match. *)
Lemma status_lists_services_of_other_gateways :
  let w0 := sample.world [sample.gateway "ga" "a"; sample.gateway "gb" "b"]
                         [sample.service "sa" "a"; sample.service "sb" "b"] in
  let w1 := (controller.Reconcile metav1.matchSelector (mkNN "ns" "gb") w0).2 in
  let w2 := (controller.Reconcile metav1.matchSelector (mkNN "ns" "ga") w1).2 in
  ∃ st info svc,
    published w2 (mkNN "ns" "ga") = Some st
    ∧ info ∈ MCPServices st
    ∧ api_services w2 !! mkNN (info_Namespace info) (info_Name info) = Some svc
    ∧ svc_Annotations svc = Some {[ "mcp.fetchfy.ai/description" := "sample" ]}
    ∧ match metav1.matchSelector (ServiceSelector (gw_Spec (sample.gateway "ga" "a"))) with
      | inr selector => selector (default ∅ (svc_Labels svc)) = false
      | inl _ => False
      end.
Proof.
  intros w0 w1 w2.
  eexists _, (mkMCPServiceInfo "sb" "ns" "tool" "/mcp/ns/sb" "Available" 100),
    (sample.service "sb" "b").
  split; [vm_compute; reflexivity|].
  split; [|split; [vm_compute; reflexivity|split; [reflexivity|vm_compute; reflexivity]]].
  apply (list_elem_of_lookup_2 _ 1). reflexivity.
Qed.

(** C2 (amended): at status-publish time the service list written onto a
    Gateway's status is the projection of the whole registry, with no
    filtering by the Gateway's selector: it holds the entries of the
    services the reconciler has just registered for this Gateway, and,
    unchanged, every entry the registry already held for any other
    service. *)
Theorem status_lists_whole_registry sel req w g selector :
  faults w = [] →
  api_gateways w !! req = Some g →
  gw_key g = req →
  controller.IsZero (gw_DeletionTimestamp g) = true →
  controllerutil.ContainsFinalizer g controller.gatewayFinalizer = true →
  sel (ServiceSelector (gw_Spec g)) = inr selector →
  let w' := (controller.Reconcile sel req w).2 in
  ∃ st,
    published w' req = Some st
    ∧ MCPServices st ≡ₚ mcp.toInfo <$> mcp.ListServices (MCPRegistry w')
    ∧ (∀ k m, mcp.GetService (MCPRegistry w) k = Some m →
         lastRegistered (matching selector w) k = None →
         mcp.toInfo m ∈ MCPServices st)
    ∧ (∀ svc, svc ∈ matching selector w → registers svc = true →
         ∃ i, i ∈ MCPServices st
              ∧ info_Namespace i = svc_Namespace svc
              ∧ info_Name i = svc_Name svc).
Proof.
  intros Hf Hg Hkey Hlive Hfin Hsel w'.
  destruct (Reconcile_live sel req w g selector Hf Hg Hkey Hlive Hfin Hsel)
    as (w1 & t1 & t2 & Hrun & _ & _ & _ & Hloop & Hstore).
  subst w'. rewrite Hrun. simpl.
  eexists. split.
  { unfold published. rewrite Hstore, lookup_insert_eq. simpl. reflexivity. }
  simpl. split; [done|].
  assert (Hlisted : ∀ k m, mcp.services (MCPRegistry w1) !! k = Some m →
                           mcp.toInfo m ∈ mcp.toInfo <$> mcp.range (MCPRegistry w1)).
  { intros k m Hm. apply list_elem_of_fmap_2. unfold mcp.range.
    apply list_elem_of_fmap. exists (k, m). split; [done|].
    by apply elem_of_map_to_list. }
  split.
  - intros k m Hm Hnone. specialize (Hloop k). rewrite Hnone in Hloop.
    apply (Hlisted k). by rewrite Hloop.
  - intros svc Hin Hreg.
    destruct (lastRegistered_is_Some _ _ Hin Hreg) as [svc' Hlast].
    specialize (Hloop (svc_key svc)). rewrite Hlast in Hloop.
    destruct Hloop as (t & m & Hm & Hinfo).
    apply lastRegistered_Some in Hlast as (_ & Hk & _).
    exists (mcp.toInfo m). split; [by apply (Hlisted (svc_key svc))|].
    rewrite Hinfo. simpl. by injection Hk as -> ->.
Qed.

Lemma status_lists_whole_registry_witness :
  let w0 := sample.world [sample.gateway "ga" "a"; sample.gateway "gb" "b"]
                         [sample.service "sa" "a"; sample.service "sb" "b"] in
  let w1 := (controller.Reconcile metav1.matchSelector (mkNN "ns" "gb") w0).2 in
  let w2 := (controller.Reconcile metav1.matchSelector (mkNN "ns" "ga") w1).2 in
  ∃ st, published w2 (mkNN "ns" "ga") = Some st
        ∧ MCPServices st ≡ₚ mcp.toInfo <$> mcp.ListServices (MCPRegistry w2).
Proof.
  intros w0 w1 w2.
  destruct (metav1.matchSelector (ServiceSelector (gw_Spec (sample.gateway "ga" "a"))))
    as [e|selector] eqn:Hsel; [discriminate Hsel|].
  destruct (status_lists_whole_registry metav1.matchSelector (mkNN "ns" "ga") w1
              (sample.gateway "ga" "a") selector)
    as (st & Hst & Hperm & _).
  - reflexivity.
  - vm_compute. reflexivity.
  - reflexivity.
  - reflexivity.
  - reflexivity.
  - exact Hsel.
  - exists st. split; [exact Hst|exact Hperm].
Defined.

(** * Reconciling twice *)

(** C4, as the claim states it, fails.  The store holds one enabled,
    annotated service, and every reading of the clock falls in a later
    second than the one before.  Two successive invocations on the
    unchanged Gateway both succeed, the service is what it was, and the
    status published by the second differs from the one published by the
    first, in the timestamp of the service's entry. *)
Lemma Reconcile_twice_refreshes_timestamps :
  let w0 := sample.world [sample.gateway "ga" "a"] [sample.service "sa" "a"] in
  let run1 := controller.Reconcile metav1.matchSelector (mkNN "ns" "ga") w0 in
  let run2 := controller.Reconcile metav1.matchSelector (mkNN "ns" "ga") run1.2 in
  run1.1 = (mkResult false (Minute * 5), None)
  ∧ run2.1 = (mkResult false (Minute * 5), None)
  ∧ api_services run2.2 = api_services w0
  ∧ api_services w0 !! mkNN "ns" "sa"
    = Some (mkService "sa" "ns" (Some {[ "app" := "a"; "mcp-enabled" := "true" ]})
              (Some {[ "mcp.fetchfy.ai/description" := "sample" ]})
              (mkServiceSpec "ClusterIP" [mkServicePort "http" 8080]))
  ∧ (∀ n, clock w0 n < clock w0 (S n))
  ∧ ∃ st1 st2,
      published run1.2 (mkNN "ns" "ga") = Some st1
      ∧ published run2.2 (mkNN "ns" "ga") = Some st2
      ∧ info_LastUpdated <$> MCPServices st1 = [100]
      ∧ info_LastUpdated <$> MCPServices st2 = [103]
      ∧ st1 ≠ st2.
Proof.
  intros w0 run1 run2.
  split; [vm_compute; reflexivity|]. split; [vm_compute; reflexivity|].
  split; [vm_compute; reflexivity|].
  split; [vm_compute; reflexivity|].
  split; [intros n; simpl; lia|].
  eexists _, _. split; [vm_compute; reflexivity|].
  split; [vm_compute; reflexivity|].
  split; [reflexivity|]. split; [reflexivity|].
  intros H. discriminate H.
Qed.

(** C4 (amended): two successive invocations of the reconciler on an
    unchanged live Gateway with unchanged backend services, with every
    call to the API server going through, both complete and publish the
    same conditions (no entry replaced or appended by the second), the
    same address, and service lists with the same identities, no identity
    twice, and equal name, namespace, role, endpoint and availability per
    entry; the timestamp of an entry is not part of what is kept. *)
Theorem Reconcile_twice sel req w g selector :
  faults w = [] →
  registry_wf (MCPRegistry w) →
  api_gateways w !! req = Some g →
  gw_key g = req →
  controller.IsZero (gw_DeletionTimestamp g) = true →
  controllerutil.ContainsFinalizer g controller.gatewayFinalizer = true →
  sel (ServiceSelector (gw_Spec g)) = inr selector →
  let run1 := controller.Reconcile sel req w in
  let run2 := controller.Reconcile sel req run1.2 in
  run1.1 = (mkResult false (Minute * 5), None)
  ∧ run2.1 = (mkResult false (Minute * 5), None)
  ∧ ∃ st1 st2,
      published run1.2 req = Some st1
      ∧ published run2.2 req = Some st2
      ∧ Conditions st2 = Conditions st1
      ∧ Address st2 = Address st1
      ∧ untimed <$> MCPServices st2 ≡ₚ untimed <$> MCPServices st1
      ∧ length (MCPServices st2) = length (MCPServices st1)
      ∧ NoDup ((λ i, mkNN (info_Namespace i) (info_Name i)) <$> MCPServices st2).
Proof.
  intros Hf Hwf Hg Hkey Hlive Hfin Hsel run1 run2.
  destruct (Reconcile_live sel req w g selector Hf Hg Hkey Hlive Hfin Hsel)
    as (w1 & t1 & t2 & Hrun1 & Hs1 & Hf1 & Hwf1 & Hloop1 & Hstore1).
  subst run2 run1. rewrite Hrun1. cbn [fst snd].
  match type of Hstore1 with _ = <[_ := set_Status g ?st]> _ => set (st1 := st) in * end.
  assert (Hg1 : api_gateways w1 !! req = Some (set_Status g st1)).
  { by rewrite Hstore1, lookup_insert_eq. }
  destruct (Reconcile_live sel req w1 (set_Status g st1) selector Hf1 Hg1 Hkey Hlive
              Hfin Hsel)
    as (w2 & t3 & t4 & Hrun2 & Hs2 & Hf2 & Hwf2 & Hloop2 & Hstore2).
  rewrite Hrun2. cbn [fst snd].
  assert (HL : matching selector w1 = matching selector w).
  { unfold matching. by rewrite Hs1. }
  rewrite HL in Hloop2.
  pose proof (loop_twice_untimed _ _ _ _ Hloop1 Hloop2) as Hsame.
  assert (Hlists : untimed <$> (mcp.toInfo <$> mcp.range (MCPRegistry w2))
                   = untimed <$> (mcp.toInfo <$> mcp.range (MCPRegistry w1))).
  { by rewrite !untimed_projection, Hsame. }
  assert (Hlen : length (mcp.range (MCPRegistry w2))
                 = length (mcp.range (MCPRegistry w1))).
  { apply (f_equal length) in Hlists. by rewrite !length_fmap in Hlists. }
  split; [done|]. split; [done|].
  eexists _, _.
  split; [unfold published; rewrite Hstore1, lookup_insert_eq; reflexivity|].
  split; [unfold published; rewrite Hstore2, lookup_insert_eq; reflexivity|].
  cbn [gw_Status set_Status Conditions Address MCPServices].
  split; [|split; [done|split; [by rewrite Hlists|split]]].
  - (* conditions *)
    rewrite Hlen. apply conditions_stable.
  - subst st1. cbn [MCPServices]. by rewrite !length_fmap.
  - rewrite projection_identities by auto.
    apply NoDup_fst_map_to_list.
Qed.

Lemma Reconcile_twice_witness :
  let w0 := sample.world [sample.gateway "ga" "a"] [sample.service "sa" "a"] in
  let run1 := controller.Reconcile metav1.matchSelector (mkNN "ns" "ga") w0 in
  let run2 := controller.Reconcile metav1.matchSelector (mkNN "ns" "ga") run1.2 in
  ∃ st1 st2,
    published run1.2 (mkNN "ns" "ga") = Some st1
    ∧ published run2.2 (mkNN "ns" "ga") = Some st2
    ∧ Conditions st2 = Conditions st1
    ∧ untimed <$> MCPServices st2 ≡ₚ untimed <$> MCPServices st1.
Proof.
  intros w0 run1 run2.
  destruct (metav1.matchSelector (ServiceSelector (gw_Spec (sample.gateway "ga" "a"))))
    as [e|selector] eqn:Hsel; [discriminate Hsel|].
  destruct (Reconcile_twice metav1.matchSelector (mkNN "ns" "ga") w0
              (sample.gateway "ga" "a") selector)
    as (_ & _ & st1 & st2 & H1 & H2 & Hc & _ & Hl & _).
  - reflexivity.
  - apply map_Forall_empty.
  - vm_compute. reflexivity.
  - reflexivity.
  - reflexivity.
  - reflexivity.
  - exact Hsel.
  - exists st1, st2. repeat split; assumption.
Defined.


(** * More of the registry *)

Section registry_more.
Implicit Types (r : mcp.Registry) (svc : Service) (ty : mcp.ServiceType).

Lemma Registry_eta r : mcp.mkRegistry (mcp.services r) = r.
Proof. by destruct r. Qed.

(** Every entry of a registry that the operations can build was made from
    the service snapshot it carries. *)
Lemma reachable_derived r :
  reachable r →
  map_Forall (λ k m,
      k = svc_key (mcp.ms_Service m)
      ∧ is_Some (svc_Annotations (mcp.ms_Service m))
      ∧ mcp.toInfo m
        = expectedInfo (mcp.ms_UpdatedAt m) (mcp.ms_Service m) (mcp.ms_Type m))
    (mcp.services r).
Proof.
  induction 1 as [|r op Hr IH]; [apply map_Forall_empty|].
  destruct op as [now svc ty|name]; simpl.
  - destruct (svc_Annotations svc) as [a|] eqn:Ha.
    + destruct (RegisterService_Some now r svc ty a Ha)
        as (m & -> & _ & _ & Hty & Ht & Hsvc & Hinfo).
      simpl. apply map_Forall_insert_2; [|done].
      rewrite Hsvc, Ht, Hty, Ha. split; [done|]. split; [by eexists|done].
    + by rewrite (RegisterService_None _ _ _ _ Ha).
  - unfold mcp.DeregisterService.
    destruct (mcp.services r !! name); simpl; [|done].
    by apply map_Forall_delete.
Qed.

End registry_more.

(** X1: [DeregisterService] returns whether the identity was registered;
    afterwards the identity is absent and every other identity has the
    entry it had; on an absent identity the registry is returned as it
    was; a second call returns false and changes nothing; the number of
    entries drops by one exactly when true is returned. *)
Theorem DeregisterService_semantics (r : mcp.Registry) name :
  let r' := (mcp.DeregisterService r name).1 in
  (mcp.DeregisterService r name).2 = bool_decide (is_Some (mcp.GetService r name))
  ∧ (∀ k, mcp.GetService r' k
          = if decide (k = name) then None else mcp.GetService r k)
  ∧ (mcp.GetService r name = None → r' = r)
  ∧ mcp.DeregisterService r' name = (r', false)
  ∧ size (mcp.services r')
    = size (mcp.services r) - (if (mcp.DeregisterService r name).2 then 1 else 0).
Proof.
  unfold mcp.DeregisterService, mcp.GetService.
  destruct (mcp.services r !! name) as [m|] eqn:Hm; simpl.
  - split; [done|]. split.
    { intros k. case_decide as Hk.
      - subst. apply lookup_delete_eq.
      - by apply lookup_delete_ne. }
    split; [done|]. rewrite lookup_delete_eq. split; [done|].
    rewrite map_size_delete, Hm. lia.
  - split; [done|]. split.
    { intros k. case_decide; by subst. }
    split; [done|]. rewrite Hm. split; [done|]. lia.
Qed.

Lemma DeregisterService_semantics_witness :
  (mcp.DeregisterService mcp.NewRegistry (mkNN "ns" "s1")).1 = mcp.NewRegistry.
Proof.
  exact (proj1 (proj2 (proj2 (DeregisterService_semantics mcp.NewRegistry
                                (mkNN "ns" "s1")))) eq_refl).
Defined.

(** X2: an accepted [RegisterService] is an upsert by identity: a lookup
    of the service's identity gives the new registration, every other
    identity keeps its entry, the number of entries grows by one exactly
    when the identity is new, and the new registration is the same
    whatever the registry held before (no merge with a prior record). *)
Theorem RegisterService_upsert now (r : mcp.Registry) svc ty r' m :
  mcp.RegisterService now r svc ty = (r', inr m) →
  (∀ k, mcp.GetService r' k
        = if decide (k = svc_key svc) then Some m else mcp.GetService r k)
  ∧ size (mcp.services r')
    = (if decide (is_Some (mcp.GetService r (svc_key svc)))
       then size (mcp.services r) else S (size (mcp.services r)))
  ∧ (∀ r2, (mcp.RegisterService now r2 svc ty).2 = inr m).
Proof.
  intros Hreg.
  destruct (svc_Annotations svc) as [a|] eqn:Ha;
    [|by rewrite (RegisterService_None _ _ _ _ Ha) in Hreg].
  assert (Hany : ∀ r2, (mcp.RegisterService now r2 svc ty).2 = inr m).
  { intros r2. unfold mcp.RegisterService in Hreg |- *. rewrite Ha in Hreg |- *.
    injection Hreg as _ Hm. simpl. by rewrite Hm. }
  destruct (RegisterService_Some now r svc ty a Ha) as (m' & E & _).
  rewrite E in Hreg. injection Hreg as <- <-.
  unfold mcp.GetService. simpl.
  split; [|split; [|done]].
  - intros k. destruct (decide (k = svc_key svc)) as [->|Hk].
    + apply lookup_insert_eq.
    + by apply lookup_insert_ne.
  - rewrite map_size_insert.
    destruct (mcp.services r !! svc_key svc) as [m0|] eqn:E0.
    + rewrite decide_True; [done|by eexists].
    + rewrite decide_False; [done|]. by intros [? ?].
Qed.

Lemma RegisterService_upsert_witness :
  ∃ m, mcp.GetService
         (mcp.RegisterService 7 mcp.NewRegistry (sample.service "s1" "a")
            mcp.ServiceTypeTool).1 (mkNN "ns" "s1") = Some m
       ∧ mcp.ms_UpdatedAt m = 7.
Proof.
  destruct (mcp.RegisterService 7 mcp.NewRegistry (sample.service "s1" "a")
              mcp.ServiceTypeTool) as [r' [e|m]] eqn:E; [discriminate E|].
  exists m. cbn [fst]. split.
  - rewrite (proj1 (RegisterService_upsert _ _ _ _ _ _ E) (mkNN "ns" "s1")).
    reflexivity.
  - injection E as _ <-. reflexivity.
Defined.

(** X3: deregistering the identity of a service right after it was
    registered returns true and leaves the registry that deregistering it
    before the registration would have left; when the identity was new,
    that is the registry before the registration. *)
Theorem RegisterService_then_DeregisterService now (r : mcp.Registry) svc ty r' m :
  mcp.RegisterService now r svc ty = (r', inr m) →
  (mcp.DeregisterService r' (svc_key svc)).2 = true
  ∧ (mcp.DeregisterService r' (svc_key svc)).1
    = (mcp.DeregisterService r (svc_key svc)).1
  ∧ (mcp.GetService r (svc_key svc) = None →
     mcp.DeregisterService r' (svc_key svc) = (r, true)).
Proof.
  intros Hreg. unfold mcp.RegisterService in Hreg.
  destruct (svc_Annotations svc) as [a|]; [|discriminate].
  injection Hreg as <- _. fold (svc_key svc).
  unfold mcp.DeregisterService, mcp.GetService. simpl.
  rewrite lookup_insert_eq. simpl. rewrite delete_insert_eq.
  split; [done|]. split.
  - destruct (mcp.services r !! svc_key svc) eqn:E; simpl; [done|].
    rewrite delete_id by done. apply Registry_eta.
  - intros Hnone. rewrite delete_id by done. by rewrite Registry_eta.
Qed.

Lemma RegisterService_then_DeregisterService_witness :
  mcp.DeregisterService
    (mcp.RegisterService 7 mcp.NewRegistry (sample.service "s1" "a")
       mcp.ServiceTypeTool).1 (mkNN "ns" "s1")
  = (mcp.NewRegistry, true).
Proof.
  destruct (mcp.RegisterService 7 mcp.NewRegistry (sample.service "s1" "a")
              mcp.ServiceTypeTool) as [r' [e|m]] eqn:E; [discriminate E|].
  exact (proj2 (proj2 (RegisterService_then_DeregisterService _ _ _ _ _ _ E))
           eq_refl).
Defined.

(** X4: [ListServices] returns one entry per registered identity: as many
    entries as the store has keys, exactly the registrations that a lookup
    can return, and, for a registry built by the operations, no two
    entries with the same name and namespace. *)
Theorem ListServices_entries (r : mcp.Registry) :
  length (mcp.ListServices r) = size (mcp.services r)
  ∧ (∀ m, m ∈ mcp.ListServices r ↔ ∃ k, mcp.GetService r k = Some m)
  ∧ (reachable r →
     NoDup ((λ m, mkNN (mcp.ms_Namespace m) (mcp.ms_Name m)) <$> mcp.ListServices r)).
Proof.
  unfold mcp.ListServices, mcp.range, mcp.GetService. split; [|split].
  - by rewrite length_fmap, length_map_to_list.
  - intros m. rewrite list_elem_of_fmap. split.
    + intros ([k m'] & -> & Hkm). exists k. by apply elem_of_map_to_list.
    + intros (k & Hk). exists (k, m). split; [done|]. by apply elem_of_map_to_list.
  - intros Hr. pose proof (reachable_registry_wf r Hr) as Hwf.
    assert (Heq : (λ m, mkNN (mcp.ms_Namespace m) (mcp.ms_Name m))
                    <$> (map_to_list (mcp.services r)).*2
                  = (map_to_list (mcp.services r)).*1).
    { rewrite <- list_fmap_compose. apply list_fmap_ext. intros i [k m] Hkm. simpl.
      apply list_elem_of_lookup_2, elem_of_map_to_list in Hkm. exact (Hwf k m Hkm). }
    rewrite Heq. apply NoDup_fst_map_to_list.
Qed.

Lemma ListServices_entries_witness :
  NoDup ((λ m, mkNN (mcp.ms_Namespace m) (mcp.ms_Name m))
           <$> mcp.ListServices
                 (runOp mcp.NewRegistry
                    (OpRegister 7 (sample.service "s1" "a") mcp.ServiceTypeTool))).
Proof.
  refine (proj2 (proj2 (ListServices_entries _)) _).
  apply reachable_op, reachable_new.
Defined.

(** X5: in every registry built from a new one by [RegisterService] and
    [DeregisterService], an entry sits under the identity of the service
    snapshot it carries, that snapshot has an annotations map, and the
    entry's name, namespace, endpoint and availability are the ones
    computed from the snapshot: nothing in an entry is set on its own. *)
Theorem reachable_entries_derived (r : mcp.Registry) k m :
  reachable r →
  mcp.GetService r k = Some m →
  k = svc_key (mcp.ms_Service m)
  ∧ is_Some (svc_Annotations (mcp.ms_Service m))
  ∧ mcp.toInfo m
    = expectedInfo (mcp.ms_UpdatedAt m) (mcp.ms_Service m) (mcp.ms_Type m).
Proof. intros Hr Hget. exact (reachable_derived r Hr k m Hget). Qed.

Lemma reachable_entries_derived_witness :
  let svc := sample.service "s1" "a" in
  let r := runOp mcp.NewRegistry (OpRegister 7 svc mcp.ServiceTypeTool) in
  let m := mcp.mkMCPService "s1" "ns" mcp.ServiceTypeTool "/mcp/ns/s1"
             mcp.ServiceStatusAvailable svc 7 in
  mcp.GetService r (mkNN "ns" "s1") = Some m
  ∧ mkNN "ns" "s1" = svc_key (mcp.ms_Service m)
  ∧ is_Some (svc_Annotations (mcp.ms_Service m))
  ∧ mcp.toInfo m
    = expectedInfo (mcp.ms_UpdatedAt m) (mcp.ms_Service m) (mcp.ms_Type m).
Proof.
  intros svc r m.
  assert (Hget : mcp.GetService r (mkNN "ns" "s1") = Some m)
    by (vm_compute; reflexivity).
  split; [exact Hget|].
  apply (reachable_entries_derived r (mkNN "ns" "s1") m); [|exact Hget].
  apply reachable_op, reachable_new.
Defined.

(** * More of the listener *)

Lemma server_ok_NewServer : server_ok mcp.NewServer.
Proof. intros [=]. Qed.

Lemma server_ok_Configure s g : server_ok s → server_ok (mcp.Configure s g).
Proof. done. Qed.

Lemma server_ok_Start s : server_ok s → server_ok (mcp.Start s).1.
Proof.
  intros Hs. unfold mcp.Start. destruct (mcp.started s) eqn:E; [done|].
  intros _. by eexists.
Qed.

Lemma server_ok_Stop shutdown s : server_ok s → server_ok (mcp.Stop shutdown s).1.
Proof.
  intros Hs. unfold mcp.Stop.
  destruct (negb (mcp.started s) || bool_decide (mcp.httpServer s = None));
    [done|].
  intros [=].
Qed.

(** X6: [Stop] on a listener that is not running returns nil and leaves it
    as it was, whatever a shutdown would have returned; on a running
    listener it returns what [Shutdown] returns and leaves the listener
    stopped even when that is an error; a further [Stop] is a no-op. *)
Theorem Stop_semantics shutdown s :
  server_ok s →
  let s' := (mcp.Stop shutdown s).1 in
  mcp.IsRunning s' = false
  ∧ (mcp.Stop shutdown s).2 = (if mcp.IsRunning s then shutdown else None)
  ∧ (mcp.IsRunning s = false → s' = s)
  ∧ (∀ shutdown2, mcp.Stop shutdown2 s' = (s', None)).
Proof.
  intros Hs. unfold mcp.Stop, mcp.IsRunning.
  destruct (mcp.started s) eqn:E; simpl.
  - destruct (Hs E) as [h Hh]. rewrite Hh. simpl. done.
  - rewrite E. done.
Qed.

Lemma Stop_semantics_witness :
  let s := (mcp.Start (mcp.Configure mcp.NewServer (sample.gateway "ga" "a"))).1 in
  mcp.IsRunning (mcp.Stop (Some (ErrOther "deadline")) s).1 = false
  ∧ (mcp.Stop (Some (ErrOther "deadline")) s).2 = Some (ErrOther "deadline").
Proof.
  intros s.
  destruct (Stop_semantics (Some (ErrOther "deadline")) s) as (H1 & H2 & _).
  - intros _. by eexists.
  - split; [exact H1|exact H2].
Defined.

(** X7: [Start] fails exactly on a running listener; on any other it
    succeeds, the listener is running and bound to the configured port;
    in particular a stopped listener can be started again. *)
Theorem Start_semantics s :
  ((mcp.Start s).2 = None ↔ mcp.IsRunning s = false)
  ∧ (mcp.IsRunning s = false →
     mcp.IsRunning (mcp.Start s).1 = true
     ∧ mcp.httpServer (mcp.Start s).1
       = Some (mcp.mkHttpServer (":" +:+ pretty (mcp.port s)))
     ∧ mcp.port (mcp.Start s).1 = mcp.port s)
  ∧ (∀ shutdown, server_ok s →
     (mcp.Start (mcp.Stop shutdown s).1).2 = None
     ∧ mcp.IsRunning (mcp.Start (mcp.Stop shutdown s).1).1 = true).
Proof.
  assert (Hstart : ∀ s0, mcp.IsRunning s0 = false →
            (mcp.Start s0).2 = None ∧ mcp.IsRunning (mcp.Start s0).1 = true).
  { intros s0 H0. unfold mcp.Start, mcp.IsRunning in *. by rewrite H0. }
  split; [|split].
  - unfold mcp.Start, mcp.IsRunning. destruct (mcp.started s); simpl; split; done.
  - intros Hrun. unfold mcp.Start, mcp.IsRunning in *. by rewrite Hrun.
  - intros shutdown Hs. apply Hstart.
    by apply (Stop_semantics shutdown s Hs).
Qed.

Lemma Start_semantics_witness :
  let s := (mcp.Start (mcp.Configure mcp.NewServer (sample.gateway "ga" "a"))).1 in
  (mcp.Start (mcp.Stop None s).1).2 = None
  ∧ mcp.IsRunning (mcp.Start (mcp.Stop None s).1).1 = true.
Proof.
  intros s.
  apply (proj2 (proj2 (Start_semantics s)) None).
  intros _. by eexists.
Defined.

(** X8: [Configure] stores the Gateway's port, TLS settings and identity
    and is idempotent; it never starts, stops or rebinds: a running
    listener keeps the address it was started on, and the new port is the
    one bound by the next [Start] after a [Stop]. *)
Theorem Configure_applies_on_next_Start s g :
  let s1 := mcp.Configure s g in
  configuredFor s1 g
  ∧ mcp.Configure s1 g = s1
  ∧ mcp.IsRunning s1 = mcp.IsRunning s
  ∧ mcp.httpServer s1 = mcp.httpServer s
  ∧ (∀ shutdown, server_ok s →
     mcp.httpServer (mcp.Start (mcp.Stop shutdown s1).1).1
     = Some (mcp.mkHttpServer (":" +:+ pretty (MCPPort (gw_Spec g))))).
Proof.
  intros s1. split; [done|]. split; [done|]. split; [done|]. split; [done|].
  intros shutdown Hs.
  pose proof (server_ok_Configure s g Hs) as Hs1. fold s1 in Hs1.
  destruct (Stop_semantics shutdown s1 Hs1) as (Hstop & _).
  destruct (Start_semantics (mcp.Stop shutdown s1).1) as (_ & Hstart & _).
  destruct (Hstart Hstop) as (_ & -> & _). do 2 f_equal.
  unfold mcp.Stop.
  by destruct (negb (mcp.started s1) || bool_decide (mcp.httpServer s1 = None)).
Qed.

Lemma Configure_applies_on_next_Start_witness :
  let s := (mcp.Start (mcp.Configure mcp.NewServer (sample.gateway "ga" "a"))).1 in
  let g := set_Address (sample.gateway "ga" "a") "" in
  mcp.httpServer (mcp.Start (mcp.Stop None (mcp.Configure s g)).1).1
  = Some (mcp.mkHttpServer ":8080").
Proof.
  intros s g.
  refine (proj2 (proj2 (proj2 (proj2 (Configure_applies_on_next_Start s g)))) None _).
  intros _. by eexists.
Defined.

(** X9: the handler of [/api/services] answers a GET with status 200, a
    JSON content type and a body that carries the number of identities
    the registry holds; any other method gets status 405 with the plain
    text "Method not allowed" and no count. *)
Theorem handleListServices_reports_count (registry : mcp.Registry) r :
  let w := mcp.handleListServices registry mcp.NewRecorder r in
  if decide (mcp.req_Method r = "GET") then
    mcp.rw_Status w = Some 200%Z
    ∧ mcp.rw_Header w !! "Content-Type" = Some "application/json"
    ∧ mcp.rw_Body w
      = "{" +:+ mcp.dquote +:+ "services" +:+ mcp.dquote +:+ ":"
        +:+ pretty (size (mcp.services registry)) +:+ "}"
  else
    mcp.rw_Status w = Some 405%Z
    ∧ mcp.rw_Header w !! "Content-Type" = Some "text/plain; charset=utf-8"
    ∧ mcp.rw_Body w = "Method not allowed" +:+ mcp.newline.
Proof.
  intros w. subst w. unfold mcp.handleListServices, mcp.MethodGet.
  case_decide as Hm.
  - rewrite bool_decide_eq_true_2 by done. simpl.
    split; [done|]. split; [by rewrite lookup_insert_eq|].
    unfold mcp.ListServices, mcp.range.
    by rewrite length_fmap, length_map_to_list.
  - rewrite bool_decide_eq_false_2 by done. simpl.
    split; [done|]. split; [|done].
    rewrite lookup_insert_ne by done. by rewrite lookup_insert_eq.
Qed.

(** * More of the watcher *)

Lemma Get_Service_frame key w :
  MCPRegistry (Get_Service key w).2 = MCPRegistry w
  ∧ api_gateways (Get_Service key w).2 = api_gateways w
  ∧ sw_gateways (Get_Service key w).2 = sw_gateways w
  ∧ trace (Get_Service key w).2 = trace w.
Proof.
  unfold Get_Service. rewrite bind_run. unfold outcome.
  destruct (faults w) as [|[e|] fs]; simpl; try done;
    by destruct (api_services w !! key).
Qed.

(** X10: the registration loop of the Gateway reconciler treats a service
    exactly as the watcher does: it registers the service when the
    watcher's enablement test accepts it, with the role the watcher would
    give it, and otherwise leaves the world alone. *)
Theorem registerMatching_agrees_with_watcher svc w :
  controller.registerMatching svc w
  = if services.isMCPEnabledService svc
    then (tt, (RegisterService svc (services.serviceTypeOf svc) w).2)
    else (tt, w).
Proof.
  unfold controller.registerMatching, services.isMCPEnabledService,
    services.IsMCPEnabledService, services.serviceTypeOf, index.
  destruct (svc_Labels svc) as [labels|]; simpl; [|done].
  destruct (labels !! services.MCPEnabledLabel) as [val|]; simpl; [|done].
  case_bool_decide as Hval; [|done].
  rewrite bind_run. simpl.
  destruct (svc_Annotations svc) as [annotations|]; simpl; [|done].
  destruct (annotations !! services.MCPTypeAnnotation) as [typeStr|]; simpl; [|done].
  destruct (decide (typeStr = "agent")) as [->|Hty].
  - done.
  - by rewrite bool_decide_eq_false_2.
Qed.

(** X11: when the watcher's fetch finds the service gone (NotFound) or
    finds it without the enablement label, [Reconcile] deregisters the
    identity and returns success with an empty result; no Gateway status
    is written on this path.  When the fetch fails otherwise, the error is
    returned and the registry is left as it was. *)
Theorem watcher_Reconcile_without_registration req w :
  let res := (Get_Service req w).1 in
  let w1 := (Get_Service req w).2 in
  (unlisted res = true →
   services.Reconcile req w
     = ((mkResult false 0, None),
        set_MCPRegistry (mcp.DeregisterService (MCPRegistry w) req).1 w1)
   ∧ mcp.GetService (MCPRegistry (services.Reconcile req w).2) req = None
   ∧ api_gateways (services.Reconcile req w).2 = api_gateways w
   ∧ trace (services.Reconcile req w).2 = trace w)
  ∧ (∀ err, res = inl err → IsNotFound err = false →
     services.Reconcile req w = ((mkResult false 0, Some err), w1)
     ∧ MCPRegistry w1 = MCPRegistry w).
Proof.
  intros res w1.
  destruct (Get_Service_frame req w) as (Hr & Hg & _ & Ht).
  fold w1 in Hr, Hg, Ht.
  assert (Hrun : Get_Service req w = (res, w1)) by (subst res w1; by destruct (Get_Service req w)).
  split.
  - intros Hun.
    assert (E : services.Reconcile req w
                = ((mkResult false 0, None),
                   set_MCPRegistry (mcp.DeregisterService (MCPRegistry w) req).1 w1)).
    { unfold services.Reconcile. rewrite bind_run, Hrun. cbn [fst snd].
      destruct res as [err|service]; simpl in Hun; rewrite Hun;
        rewrite bind_run; unfold DeregisterService; rewrite Hr;
        by destruct (mcp.DeregisterService (MCPRegistry w) req). }
    rewrite E. split; [done|]. cbn [snd]. split; [|done].
    destruct (DeregisterService_semantics (MCPRegistry w) req) as (_ & Hl & _).
    simpl. rewrite Hl. by rewrite decide_True.
  - intros err Hres Herr. split; [|done].
    unfold services.Reconcile. rewrite bind_run, Hrun, Hres. cbn [fst snd].
    by rewrite Herr.
Qed.

Lemma watcher_Reconcile_without_registration_witness :
  let w := set_MCPRegistry
             (mcp.RegisterService 7 mcp.NewRegistry (sample.service "s1" "a")
                mcp.ServiceTypeTool).1
             (sample.world [sample.gateway "ga" "a"] []) in
  (services.Reconcile (mkNN "ns" "s1") w).1 = (mkResult false 0, None)
  ∧ mcp.GetService (MCPRegistry (services.Reconcile (mkNN "ns" "s1") w).2)
      (mkNN "ns" "s1") = None.
Proof.
  intros w.
  destruct (proj1 (watcher_Reconcile_without_registration (mkNN "ns" "s1") w))
    as (E & Hgone & _).
  - reflexivity.
  - split; [by rewrite E|exact Hgone].
Defined.

Section push.

Lemma UpdateRegistryStatus_persisted r g :
  set_Status g (gw_Status (mcp.UpdateRegistryStatus r g)) = mcp.UpdateRegistryStatus r g.
Proof. done. Qed.

Lemma UpdateRegistryStatus_idem r g :
  mcp.UpdateRegistryStatus r (mcp.UpdateRegistryStatus r g) = mcp.UpdateRegistryStatus r g.
Proof. done. Qed.

(** One round of [updateAllGatewayStatuses] when every call goes through. *)
Lemma updateGatewayStatus_ok key w :
  faults w = [] → store_wf w →
  let w' := (services.updateGatewayStatus key w).2 in
  faults w' = [] ∧ store_wf w'
  ∧ MCPRegistry w' = MCPRegistry w
  ∧ api_gateways w'
    = match api_gateways w !! key with
      | Some g => <[key := mcp.UpdateRegistryStatus (MCPRegistry w) g]> (api_gateways w)
      | None => api_gateways w
      end.
Proof.
  intros Hf Hwf.
  destruct (api_gateways w !! key) as [g|] eqn:Hg.
  - assert (E : services.updateGatewayStatus key w
                = (tt, (Status_Update (mcp.UpdateRegistryStatus (MCPRegistry w) g) w).2)).
    { unfold services.updateGatewayStatus.
      rewrite bind_run, (Get_Gateway_ok key w g Hf Hg). cbn [fst snd].
      rewrite bind_run.
      change (UpdateRegistryStatus g w)
        with (mcp.UpdateRegistryStatus (MCPRegistry w) g, w).
      cbn [fst snd]. by rewrite bind_run. }
    rewrite E. cbn [snd].
    pose proof (Hwf key g Hg) as Hkey. simpl in Hkey.
    assert (Hold : api_gateways w !! gw_key (mcp.UpdateRegistryStatus (MCPRegistry w) g)
                   = Some g).
    { change (gw_key (mcp.UpdateRegistryStatus (MCPRegistry w) g)) with (gw_key g).
      by rewrite Hkey. }
    destruct (Status_Update_ok _ g w Hf Hold) as (_ & Hst & _ & Hf' & _ & Hr').
    change (gw_key (mcp.UpdateRegistryStatus (MCPRegistry w) g)) with (gw_key g) in Hst.
    rewrite Hkey, UpdateRegistryStatus_persisted in Hst.
    split; [done|]. split; [|split; [done|done]].
    unfold store_wf. rewrite Hst. by apply map_Forall_insert_2.
  - assert (E : services.updateGatewayStatus key w = (tt, w)).
    { unfold services.updateGatewayStatus, Get_Gateway.
      rewrite !bind_run, outcome_nil by done. simpl. by rewrite Hg. }
    by rewrite E.
Qed.

Lemma push_loop keys w :
  faults w = [] → store_wf w →
  let w' := (forM_ keys services.updateGatewayStatus w).2 in
  faults w' = [] ∧ store_wf w'
  ∧ MCPRegistry w' = MCPRegistry w
  ∧ ∀ k, api_gateways w' !! k
         = if decide (k ∈ keys)
           then mcp.UpdateRegistryStatus (MCPRegistry w) <$> api_gateways w !! k
           else api_gateways w !! k.
Proof.
  revert w. induction keys as [|k0 keys IH]; intros w Hf Hwf.
  - cbn [forM_]. split; [done|]. split; [done|]. split; [done|].
    intros k. rewrite decide_False; [done|]. apply not_elem_of_nil.
  - cbn [forM_]. rewrite bind_run.
    destruct (updateGatewayStatus_ok k0 w Hf Hwf) as (Hf1 & Hwf1 & Hr1 & Hst1).
    destruct (IH _ Hf1 Hwf1) as (Hf2 & Hwf2 & Hr2 & Hst2).
    split; [done|]. split; [done|]. split; [congruence|].
    intros k. rewrite Hst2, Hr1, Hst1.
    destruct (decide (k = k0)) as [->|Hk].
    + rewrite (decide_True (P := k0 ∈ k0 :: keys)) by left.
      destruct (api_gateways w !! k0) as [g|] eqn:Hg.
      * rewrite lookup_insert_eq. by case_decide.
      * rewrite Hg. by case_decide.
    + assert (Hsame : (match api_gateways w !! k0 with
                       | Some g => <[k0 := mcp.UpdateRegistryStatus (MCPRegistry w) g]>
                                     (api_gateways w)
                       | None => api_gateways w
                       end) !! k = api_gateways w !! k).
      { destruct (api_gateways w !! k0); [by rewrite lookup_insert_ne|done]. }
      rewrite Hsame.
      destruct (decide (k ∈ keys)) as [Hin|Hin].
      * rewrite decide_True; [done|by right].
      * rewrite decide_False; [done|]. intros [?|?]%elem_of_cons; done.
Qed.

End push.

(** X12: when the watcher registers a fetched, enabled service and every
    call to the API server goes through, [Reconcile] returns success, the
    registry holds the new registration, and the status list of every
    tracked Gateway found in the store is replaced by the projection of
    the whole registry; Gateways that are not tracked keep the object they
    had, and a tracked identity that is not in the store is skipped. *)
Theorem watcher_Reconcile_pushes_status req w svc :
  faults w = [] →
  store_wf w →
  api_services w !! req = Some svc →
  services.isMCPEnabledService svc = true →
  is_Some (svc_Annotations svc) →
  let r' := (mcp.RegisterService (now w) (MCPRegistry w) svc
               (services.serviceTypeOf svc)).1 in
  let w' := (services.Reconcile req w).2 in
  (services.Reconcile req w).1 = (mkResult false 0, None)
  ∧ MCPRegistry w' = r'
  ∧ ∀ k, api_gateways w' !! k
         = if decide (k ∈ dom (sw_gateways w))
           then mcp.UpdateRegistryStatus r' <$> api_gateways w !! k
           else api_gateways w !! k.
Proof.
  intros Hf Hwf Hsvc Hen [a Ha] r' w'.
  set (w1 := set_reads (S (reads w)) (set_MCPRegistry r' w)).
  assert (Erun : services.Reconcile req w
                 = ((mkResult false 0, None),
                    (forM_ (map_to_list (sw_gateways w1)).*1
                       services.updateGatewayStatus w1).2)).
  { unfold services.Reconcile. rewrite bind_run.
    assert (Hget : Get_Service req w = (inr svc, w)).
    { unfold Get_Service. rewrite bind_run, outcome_nil by done. simpl.
      by rewrite Hsvc. }
    rewrite Hget. cbn [fst snd]. rewrite Hen. cbn [negb]. rewrite bind_run.
    destruct (RegisterService_Some (now w) (MCPRegistry w) svc
                (services.serviceTypeOf svc) a Ha) as (m & E & _).
    assert (Ereg : RegisterService svc (services.serviceTypeOf svc) w = (inr m, w1)).
    { unfold RegisterService. subst w1 r'. by rewrite E. }
    rewrite Ereg. cbn [fst snd]. by rewrite bind_run. }
  subst w'. rewrite Erun. cbn [fst snd].
  destruct (push_loop (map_to_list (sw_gateways w1)).*1 w1) as (_ & _ & Hr & Hst);
    [done|done|].
  split; [done|]. split; [by rewrite Hr|].
  intros k. rewrite Hst.
  change (MCPRegistry w1) with r'. change (api_gateways w1) with (api_gateways w).
  change (sw_gateways w1) with (sw_gateways w).
  destruct (decide (k ∈ dom (sw_gateways w))) as [Hin|Hin].
  - rewrite decide_True; [done|].
    apply elem_of_dom in Hin as [g Hg]. apply list_elem_of_fmap.
    exists (k, g). split; [done|]. by apply elem_of_map_to_list.
  - rewrite decide_False; [done|]. intros Hk.
    apply list_elem_of_fmap in Hk as ([k' g] & -> & Hkg).
    apply elem_of_map_to_list in Hkg. apply Hin. apply elem_of_dom. by eexists.
Qed.

Lemma watcher_Reconcile_pushes_status_witness :
  let w0 := sample.world [sample.gateway "ga" "a"; sample.gateway "gb" "b"]
                         [sample.service "s1" "b"] in
  let w := set_sw_gateways (<[mkNN "ns" "ga" := sample.gateway "ga" "a"]>) w0 in
  let w' := (services.Reconcile (mkNN "ns" "s1") w).2 in
  (MCPServices ∘ gw_Status <$> api_gateways w' !! mkNN "ns" "ga")
    = Some [mkMCPServiceInfo "s1" "ns" "tool" "/mcp/ns/s1" "Available" 100]
  ∧ (MCPServices ∘ gw_Status <$> api_gateways w' !! mkNN "ns" "gb") = Some [].
Proof.
  intros w0 w w'.
  destruct (watcher_Reconcile_pushes_status (mkNN "ns" "s1") w (sample.service "s1" "b"))
    as (_ & _ & Hst).
  - reflexivity.
  - apply (bool_decide_unpack _). vm_compute. exact I.
  - vm_compute. reflexivity.
  - reflexivity.
  - by eexists.
  - subst w'. rewrite !Hst. split; vm_compute; reflexivity.
Defined.

(** X13: [GetMatchingServices] returns a selector error without calling
    the API server; a failure of the list call is returned as it is; and
    on success the result holds exactly the stored services whose labels
    the Gateway's selector matches, in any namespace. *)
Theorem GetMatchingServices_result sel g w :
  match sel (ServiceSelector (gw_Spec g)) with
  | inl err => services.GetMatchingServices sel g w = (inl err, w)
  | inr selector =>
      match faults w with
      | Some err :: fs =>
          services.GetMatchingServices sel g w = (inl err, set_faults fs w)
      | _ =>
          ∃ L, (services.GetMatchingServices sel g w).1 = inr L
               ∧ (∀ svc, svc ∈ L ↔
                         (∃ k, api_services w !! k = Some svc)
                         ∧ selector (default ∅ (svc_Labels svc)) = true)
               ∧ (length L ≤ size (api_services w))%nat
      end
  end.
Proof.
  unfold services.GetMatchingServices.
  destruct (sel _) as [err|selector]; [done|].
  unfold List_Services. rewrite bind_run. unfold outcome.
  assert (Hok : ∀ w0, api_services w0 = api_services w →
            ∃ L, inr (filter (λ svc, selector (default ∅ (svc_Labels svc)))
                        (map_to_list (api_services w0)).*2) = inr (A:=error) L
                 ∧ (∀ svc, svc ∈ L ↔
                           (∃ k, api_services w !! k = Some svc)
                           ∧ selector (default ∅ (svc_Labels svc)) = true)
                 ∧ (length L ≤ size (api_services w))%nat).
  { intros w0 ->. eexists. split; [done|]. split.
    - intros svc. rewrite list_elem_of_filter, list_elem_of_fmap.
      rewrite Is_true_true. split.
      + intros (Hsel & [k svc'] & -> & Hk). split; [|done].
        exists k. by apply elem_of_map_to_list.
      + intros ((k & Hk) & Hsel). split; [done|].
        exists (k, svc). split; [done|]. by apply elem_of_map_to_list.
    - etrans; [apply length_filter|].
      by rewrite length_fmap, length_map_to_list. }
  destruct (faults w) as [|[err|] fs]; simpl; [by apply Hok|done|by apply Hok].
Qed.

(** * More of the reconciler *)

Section reconciler_more.
Import controller.

Lemma registryStep_refl w : registryStep w w.
Proof. done. Qed.

Lemma registryStep_trans w1 w2 w3 :
  registryStep w1 w2 → registryStep w2 w3 → registryStep w1 w3.
Proof.
  intros (?&?&?&?&?&?&?) (?&?&?&?&?&?&?). repeat split; congruence.
Qed.

Lemma registerMatching_registryStep svc w :
  registryStep w (registerMatching svc w).2.
Proof.
  rewrite registerMatching_agrees_with_watcher.
  destruct (services.isMCPEnabledService svc); [|done]. simpl.
  unfold RegisterService.
  by destruct (mcp.RegisterService _ _ _ _) as [r [e|m]].
Qed.

Lemma loop_registryStep L w :
  registryStep w (forM_ L registerMatching w).2.
Proof.
  revert w. induction L as [|svc L IH]; intros w; [done|].
  cbn [forM_]. rewrite bind_run.
  eapply registryStep_trans; [apply registerMatching_registryStep|apply IH].
Qed.

Lemma updateGatewayCondition_registryStep g ty st reason msg w :
  registryStep w (updateGatewayCondition g ty st reason msg w).2
  ∧ MCPRegistry (updateGatewayCondition g ty st reason msg w).2 = MCPRegistry w.
Proof.
  unfold updateGatewayCondition.
  by destruct (updateGatewayConditionAt _ _ _ _ _ _).
Qed.

(** [ensureMCPServer] in full. *)
Lemma ensureMCPServer_run g w :
  let k := gw_key g in
  let w' := (ensureMCPServer g w).2 in
  (ensureMCPServer g w).1 = None
  ∧ api_gateways w' = api_gateways w
  ∧ api_services w' = api_services w
  ∧ sw_gateways w' = sw_gateways w
  ∧ MCPRegistry w' = MCPRegistry w
  ∧ clock w' = clock w
  ∧ faults w' = faults w
  ∧ trace w' = trace w ++ ensureEvents w k
  ∧ ∃ s', MCPServers w' = <[k := s']> (MCPServers w)
          ∧ mcp.IsRunning s' = true
          ∧ configuredFor s' g
          ∧ mcp.httpServer s'
            = match MCPServers w !! k with
              | Some s =>
                  if mcp.started s then mcp.httpServer s
                  else Some (mcp.mkHttpServer (":" +:+ pretty (MCPPort (gw_Spec g))))
              | None => Some (mcp.mkHttpServer (":" +:+ pretty (MCPPort (gw_Spec g))))
              end.
Proof.
  intros k w'. subst k w'.
  unfold ensureMCPServer, ensureEvents, mcp.IsRunning, mcp.Start, gw_key.
  destruct (MCPServers w !! _) as [s|]; simpl.
  - destruct (mcp.started s) eqn:E; simpl.
    + rewrite app_nil_r. repeat (split; [done|]).
      eexists. split; [done|]. done.
    + repeat (split; [done|]). eexists. split; [done|]. done.
  - repeat (split; [done|]). eexists. split; [done|]. done.
Qed.

End reconciler_more.

(** X14: [ensureMCPServer] never returns an error; afterwards the Gateway
    has a listener that is running and configured with the Gateway's port,
    TLS settings and identity, and no other Gateway's listener is
    touched.  A listener that was running is not restarted: it keeps the
    address it was bound to, whatever port the Gateway now asks for; a
    missing or stopped one is started on the Gateway's port. *)
Theorem ensureMCPServer_semantics g w :
  let k := gw_key g in
  let w' := (controller.ensureMCPServer g w).2 in
  (controller.ensureMCPServer g w).1 = None
  ∧ trace w' = trace w ++ ensureEvents w k
  ∧ (∃ s', MCPServers w' !! k = Some s'
           ∧ mcp.IsRunning s' = true
           ∧ configuredFor s' g
           ∧ mcp.httpServer s'
             = match MCPServers w !! k with
               | Some s =>
                   if mcp.started s then mcp.httpServer s
                   else Some (mcp.mkHttpServer (":" +:+ pretty (MCPPort (gw_Spec g))))
               | None => Some (mcp.mkHttpServer (":" +:+ pretty (MCPPort (gw_Spec g))))
               end)
  ∧ (∀ k', MCPServers w' !! k'
           = if decide (k' = k) then MCPServers w' !! k else MCPServers w !! k').
Proof.
  intros k w'.
  destruct (ensureMCPServer_run g w)
    as (Hres & _ & _ & _ & _ & _ & _ & Ht & s' & Hs & Hrun & Hcfg & Hhttp).
  fold k w' in Ht, Hs.
  split; [done|]. split; [done|]. split.
  - exists s'. rewrite Hs, lookup_insert_eq. done.
  - intros k'. case_decide as Hk; [by subst|].
    rewrite Hs. by rewrite lookup_insert_ne.
Qed.

Section reconciler_paths.
Import controller.

Lemma outcome_frame w :
  api_gateways (outcome w).2 = api_gateways w
  ∧ api_services (outcome w).2 = api_services w
  ∧ MCPRegistry (outcome w).2 = MCPRegistry w
  ∧ sw_gateways (outcome w).2 = sw_gateways w
  ∧ MCPServers (outcome w).2 = MCPServers w
  ∧ trace (outcome w).2 = trace w.
Proof. unfold outcome. by destruct (faults w). Qed.

Lemma cleanupGateway_frame k w :
  MCPRegistry (cleanupGateway k w).2 = MCPRegistry w
  ∧ api_gateways (cleanupGateway k w).2 = api_gateways w
  ∧ api_services (cleanupGateway k w).2 = api_services w.
Proof.
  unfold cleanupGateway, services.RemoveGateway.
  rewrite bind_run. simpl.
  destruct (MCPServers w !! k) as [server|]; simpl; [|done].
  rewrite bind_run.
  destruct (mcp.started server && negb (bool_decide (mcp.httpServer server = None))).
  - destruct (outcome_frame w) as (Hg & Hs & Hr & _).
    destruct (outcome w) as [shutdown w0]. simpl in *.
    by destruct (mcp.Stop shutdown server).
  - simpl. by destruct (mcp.Stop None server).
Qed.

Lemma Update_frame g w :
  MCPRegistry (Update g w).2 = MCPRegistry w
  ∧ api_services (Update g w).2 = api_services w
  ∧ api_gateways (Update g w).2
    = match (Update g w).1, api_gateways w !! gw_key g with
      | None, Some old => stored_after_Update g old (api_gateways w)
      | _, _ => api_gateways w
      end.
Proof.
  unfold Update. rewrite bind_run. unfold outcome.
  destruct (faults w) as [|[e|] fs]; simpl; [|done|];
    by destruct (api_gateways w !! gw_key g).
Qed.

Lemma Status_Update_frame g w :
  MCPRegistry (Status_Update g w).2 = MCPRegistry w
  ∧ api_services (Status_Update g w).2 = api_services w
  ∧ sw_gateways (Status_Update g w).2 = sw_gateways w
  ∧ MCPServers (Status_Update g w).2 = MCPServers w
  ∧ api_gateways (Status_Update g w).2
    = match (Status_Update g w).1, api_gateways w !! gw_key g with
      | None, Some old => <[gw_key g := set_Status old (gw_Status g)]> (api_gateways w)
      | _, _ => api_gateways w
      end
  ∧ (Status_Update g w).1
    = match (outcome w).1 with
      | Some err => Some err
      | None =>
          match api_gateways w !! gw_key g with
          | Some _ => None
          | None => Some (ErrNotFound (gw_key g))
          end
      end.
Proof.
  unfold Status_Update. rewrite bind_run. unfold outcome.
  destruct (faults w) as [|[e|] fs]; simpl; [|done|];
    by destruct (api_gateways w !! gw_key g).
Qed.

(** The result of [GetMatchingServices] depends on the pending outcomes
    and the stored services only, and the call changes the pending
    outcomes only. *)
Lemma GetMatchingServices_congr sel g w w' :
  faults w' = faults w → api_services w' = api_services w →
  (services.GetMatchingServices sel g w').1 = (services.GetMatchingServices sel g w).1
  ∧ (services.GetMatchingServices sel g w').2
    = set_faults (faults (services.GetMatchingServices sel g w).2) w'.
Proof.
  intros Hf Hs. unfold services.GetMatchingServices.
  destruct (sel _) as [err|selector].
  - simpl. split; [done|]. rewrite <- Hf. by destruct w'.
  - unfold List_Services. rewrite !bind_run. unfold outcome. rewrite Hf.
    destruct (faults w) as [|[e|] fs] eqn:E; simpl; rewrite ?Hs.
    + split; [done|]. rewrite E, <- Hf. by destruct w'.
    + done.
    + done.
Qed.

End reconciler_paths.

(** X15: when the Gateway cannot be fetched, [Reconcile] treats NotFound
    as a finished deletion: it discards the listener handle and the
    tracking entry of the requested identity, touches neither the
    registry nor the store, and returns success with an empty result; any
    other fetch error is returned to the dispatcher and nothing is
    changed. *)
Theorem Reconcile_unfetched sel req w err :
  (Get_Gateway req w).1 = inl err →
  let w' := (controller.Reconcile sel req w).2 in
  (controller.Reconcile sel req w).1
    = (mkResult false 0, if IsNotFound err then None else Some err)
  ∧ MCPServers w'
    = (if IsNotFound err then delete req (MCPServers w) else MCPServers w)
  ∧ sw_gateways w'
    = (if IsNotFound err then delete req (sw_gateways w) else sw_gateways w)
  ∧ MCPRegistry w' = MCPRegistry w
  ∧ api_gateways w' = api_gateways w.
Proof.
  intros Hget w'. subst w'.
  destruct (Get_Gateway_frame req w) as (Hm & Hs & Hg & Hr).
  set (w1 := (Get_Gateway req w).2) in *.
  assert (Erun : controller.Reconcile sel req w
                 = ((mkResult false 0, if IsNotFound err then None else Some err),
                    if IsNotFound err then (controller.cleanupGateway req w1).2 else w1)).
  { unfold controller.Reconcile. rewrite bind_run. subst w1.
    destruct (Get_Gateway req w) as [res w1]. simpl in Hget. subst res.
    cbn [fst snd]. destruct (IsNotFound err); [|done].
    rewrite bind_run. done. }
  rewrite Erun. cbn [fst snd]. split; [done|].
  destruct (IsNotFound err); [|done].
  destruct (cleanupGateway_effects req w1) as (_ & Hm' & Hs').
  destruct (cleanupGateway_frame req w1) as (Hr' & Hg' & _).
  rewrite Hm', Hs', Hr', Hg'. by rewrite Hm, Hs, Hr, Hg.
Qed.

Lemma Reconcile_unfetched_witness :
  let w := set_MCPServers (<[mkNN "ns" "gone" := (mcp.Start mcp.NewServer).1]>)
             (sample.world [] []) in
  (controller.Reconcile metav1.matchSelector (mkNN "ns" "gone") w).1
    = (mkResult false 0, None)
  ∧ MCPServers (controller.Reconcile metav1.matchSelector (mkNN "ns" "gone") w).2
    = delete (mkNN "ns" "gone") (MCPServers w).
Proof.
  intros w.
  destruct (Reconcile_unfetched metav1.matchSelector (mkNN "ns" "gone") w
              (ErrNotFound (mkNN "ns" "gone"))) as (H1 & H2 & _).
  - reflexivity.
  - split; [exact H1|exact H2].
Defined.

(** X16: a live Gateway that does not carry the finalizer yet gets it
    first: [Reconcile] makes one [Update] that persists the Gateway with
    the finalizer appended and asks for an immediate requeue (or returns
    the error of the [Update]); on this pass no listener is created, the
    Gateway is not tracked, the registry is not touched and no status is
    written. *)
Theorem Reconcile_adds_finalizer_first sel req w g :
  (Get_Gateway req w).1 = inr g →
  controller.IsZero (gw_DeletionTimestamp g) = true →
  controllerutil.ContainsFinalizer g controller.gatewayFinalizer = false →
  let w1 := (Get_Gateway req w).2 in
  let g' := controllerutil.AddFinalizer g controller.gatewayFinalizer in
  let w' := (controller.Reconcile sel req w).2 in
  gw_Finalizers g' = gw_Finalizers g ++ [controller.gatewayFinalizer]
  ∧ (controller.Reconcile sel req w).1
    = match (Update g' w1).1 with
      | Some err => (mkResult false 0, Some err)
      | None => (mkResult true 0, None)
      end
  ∧ (∃ o, trace w' = trace w ++ [EvUpdate g' o])
  ∧ MCPServers w' = MCPServers w
  ∧ sw_gateways w' = sw_gateways w
  ∧ MCPRegistry w' = MCPRegistry w
  ∧ (∀ old, (Update g' w1).1 = None → api_gateways w !! gw_key g = Some old →
       api_gateways w' = <[gw_key g := set_Status g' (gw_Status old)]> (api_gateways w)).
Proof.
  intros Hget Hlive Hfin w1 g' w'. subst w'.
  destruct (Get_Gateway_frame req w) as (Hm & Hs & Hg & Hr).
  pose proof (silent_Get_Gateway req w) as Ht.
  fold w1 in Hm, Hs, Hg, Hr, Ht.
  assert (Hfs : gw_Finalizers g' = gw_Finalizers g ++ [controller.gatewayFinalizer]).
  { subst g'. unfold controllerutil.AddFinalizer. by rewrite Hfin. }
  assert (Erun : controller.Reconcile sel req w
                 = (match (Update g' w1).1 with
                    | Some err => (mkResult false 0, Some err)
                    | None => (mkResult true 0, None)
                    end, (Update g' w1).2)).
  { unfold controller.Reconcile. rewrite bind_run. subst w1.
    destruct (Get_Gateway req w) as [res w1]. simpl in Hget. subst res.
    cbn [fst snd]. rewrite Hlive, Hfin. cbn [negb]. rewrite bind_run.
    fold g'. by destruct (Update g' w1) as [[e|] w2]. }
  rewrite Erun. cbn [fst snd].
  destruct (Update_effects g' w1) as (o & Ht' & Hm' & Hs').
  destruct (Update_frame g' w1) as (Hr' & _ & Hg').
  split; [done|]. split; [done|].
  split; [exists o; by rewrite Ht', Ht|].
  split; [congruence|]. split; [congruence|]. split; [congruence|].
  intros old Hok Hold.
  assert (Hkey : gw_key g' = gw_key g).
  { subst g'. unfold controllerutil.AddFinalizer.
    by destruct (controllerutil.ContainsFinalizer _ _). }
  rewrite Hg', Hok, Hkey, Hg, Hold. unfold stored_after_Update.
  rewrite (bool_decide_eq_false_2 (gw_Finalizers g' = [])).
  - by rewrite andb_false_r, Hkey.
  - rewrite Hfs. by destruct (gw_Finalizers g).
Qed.

Lemma Reconcile_adds_finalizer_first_witness :
  let g := set_Finalizers (sample.gateway "ga" "a") [] in
  let w := sample.world [g] [sample.service "sa" "a"] in
  let w' := (controller.Reconcile metav1.matchSelector (mkNN "ns" "ga") w).2 in
  (controller.Reconcile metav1.matchSelector (mkNN "ns" "ga") w).1
    = (mkResult true 0, None)
  ∧ MCPServers w' = ∅
  ∧ MCPRegistry w' = mcp.NewRegistry.
Proof.
  intros g w w'.
  destruct (Reconcile_adds_finalizer_first metav1.matchSelector (mkNN "ns" "ga") w g)
    as (_ & Hres & _ & Hm & _ & Hr & _).
  - reflexivity.
  - reflexivity.
  - reflexivity.
  - split; [exact Hres|]. split; [exact Hm|exact Hr].
Defined.

Section reconciler_live.
Import controller.

(** The world in which a live Gateway's services are enumerated: the
    listener is ensured and the Gateway tracked, nothing else has
    changed. *)
Lemma Reconcile_before_listing req w g :
  (Get_Gateway req w).1 = inr g →
  let w1 := (Get_Gateway req w).2 in
  let w3 := (services.AddGateway g (ensureMCPServer g w1).2).2 in
  Get_Gateway req w = (inr g, w1)
  ∧ (ensureMCPServer g w1).1 = None
  ∧ api_gateways w3 = api_gateways w
  ∧ api_services w3 = api_services w1
  ∧ MCPRegistry w3 = MCPRegistry w
  ∧ faults w3 = faults w1
  ∧ sw_gateways w3 = <[gw_key g := g]> (sw_gateways w)
  ∧ trace w3 = trace w ++ ensureEvents w (gw_key g) ++ [EvAddGateway (gw_key g)]
  ∧ (∃ s', MCPServers w3 = <[gw_key g := s']> (MCPServers w)
           ∧ mcp.IsRunning s' = true ∧ configuredFor s' g).
Proof.
  intros Hget w1 w3.
  destruct (Get_Gateway_frame req w) as (Hm & Hs & Hg & Hr).
  pose proof (silent_Get_Gateway req w) as Ht.
  fold w1 in Hm, Hs, Hg, Hr, Ht.
  destruct (ensureMCPServer_run g w1)
    as (Hres & Hg2 & Hs2 & Hsw2 & Hr2 & _ & Hf2 & Ht2 & s' & Hm2 & Hrun & Hcfg & _).
  split; [subst w1; destruct (Get_Gateway req w); simpl in *; by subst|].
  split; [done|].
  change (api_gateways w3) with (api_gateways (ensureMCPServer g w1).2).
  change (api_services w3) with (api_services (ensureMCPServer g w1).2).
  change (MCPRegistry w3) with (MCPRegistry (ensureMCPServer g w1).2).
  change (faults w3) with (faults (ensureMCPServer g w1).2).
  change (sw_gateways w3) with (<[gw_key g := g]> (sw_gateways (ensureMCPServer g w1).2)).
  change (trace w3) with (trace (ensureMCPServer g w1).2 ++ [EvAddGateway (gw_key g)]).
  change (MCPServers w3) with (MCPServers (ensureMCPServer g w1).2).
  rewrite Hg2, Hs2, Hsw2, Hr2, Hf2, Ht2, Hm2, Hg, Hs, Hr, Ht, Hm.
  assert (He : ensureEvents w1 (gw_key g) = ensureEvents w (gw_key g)).
  { unfold ensureEvents. by rewrite Hm. }
  rewrite He, <- app_assoc.
  repeat (split; [done|]). by exists s'.
Qed.

End reconciler_live.

(** X17: when the enumeration of a live Gateway's services fails, through
    an invalid selector or a failed list call, [Reconcile] returns that
    error with a requeue after 30 seconds; by then the listener is running
    and the Gateway is tracked, but nothing is written to the API server:
    the Ready=False condition is set on the fetched copy only, and the
    stored Gateway and the registry are what they were. *)
Theorem Reconcile_listing_failure sel req w g err :
  (Get_Gateway req w).1 = inr g →
  controller.IsZero (gw_DeletionTimestamp g) = true →
  controllerutil.ContainsFinalizer g controller.gatewayFinalizer = true →
  (services.GetMatchingServices sel g (Get_Gateway req w).2).1 = inl err →
  let w' := (controller.Reconcile sel req w).2 in
  (controller.Reconcile sel req w).1 = (mkResult false (Second * 30), Some err)
  ∧ api_gateways w' = api_gateways w
  ∧ MCPRegistry w' = MCPRegistry w
  ∧ trace w' = trace w ++ ensureEvents w (gw_key g) ++ [EvAddGateway (gw_key g)]
  ∧ (∃ s', MCPServers w' !! gw_key g = Some s' ∧ mcp.IsRunning s' = true)
  ∧ sw_gateways w' !! gw_key g = Some g.
Proof.
  intros Hget Hlive Hfin Hlist w'. subst w'.
  destruct (Reconcile_before_listing req w g Hget)
    as (Hrun & Hens & Hg3 & Hs3 & Hr3 & Hf3 & Hsw3 & Ht3 & s' & Hm3 & Hs' & _).
  set (w1 := (Get_Gateway req w).2) in *.
  set (w3 := (services.AddGateway g (controller.ensureMCPServer g w1).2).2) in *.
  destruct (GetMatchingServices_congr sel g w1 w3 Hf3 Hs3) as (Hres & Hw4).
  set (w4 := (services.GetMatchingServices sel g w3).2) in *.
  set (upd := controller.updateGatewayCondition g controller.conditionTypeReady
                metav1.ConditionFalse controller.reasonConfigError
                ("Failed to list matching services: " +:+ Error_string err)).
  assert (Erun : controller.Reconcile sel req w
                 = ((mkResult false (Second * 30), Some err), (upd w4).2)).
  { unfold controller.Reconcile. rewrite bind_run, Hrun. cbn [fst snd].
    rewrite Hlive, Hfin. cbn [negb]. rewrite bind_run, Hens.
    rewrite bind_run. fold w3. rewrite bind_run.
    rewrite Hres, Hlist. fold w4. by rewrite bind_run. }
  rewrite Erun. cbn [fst snd].
  destruct (updateGatewayCondition_registryStep g
              controller.conditionTypeReady metav1.ConditionFalse
              controller.reasonConfigError
              ("Failed to list matching services: " +:+ Error_string err) w4)
    as ((Hg5 & _ & Hsw5 & Hm5 & _ & _ & Ht5) & Hr5).
  fold upd in Hg5, Hsw5, Hm5, Ht5, Hr5.
  rewrite Hg5, Hsw5, Hm5, Ht5, Hr5, Hw4. unfold set_faults.
  cbn [api_gateways MCPRegistry trace MCPServers sw_gateways].
  rewrite Hg3, Hr3, Ht3, Hm3, Hsw3, !lookup_insert_eq.
  repeat (split; [done|]). split; [by exists s'|done].
Qed.

Lemma Reconcile_listing_failure_witness :
  let bad := metav1.mkLabelSelector ∅ [metav1.mkRequirement "app" "Like" ["a"]] in
  let g := mkGateway "ga" "ns" 1 None [controller.gatewayFinalizer]
             (mkGatewaySpec 8080 bad false "") (mkGatewayStatus [] [] "") in
  let w := sample.world [g] [sample.service "sa" "a"] in
  let w' := (controller.Reconcile metav1.matchSelector (mkNN "ns" "ga") w).2 in
  (controller.Reconcile metav1.matchSelector (mkNN "ns" "ga") w).1
    = (mkResult false (Second * 30),
       Some (ErrOther "invalid label selector requirement"))
  ∧ api_gateways w' = api_gateways w.
Proof.
  intros bad g w w'.
  destruct (Reconcile_listing_failure metav1.matchSelector (mkNN "ns" "ga") w g
              (ErrOther "invalid label selector requirement"))
    as (H1 & H2 & _).
  - reflexivity.
  - reflexivity.
  - reflexivity.
  - reflexivity.
  - split; [exact H1|exact H2].
Defined.

Section reconciler_run.
Import controller.

(** A pass over a live Gateway whose services were enumerated, up to the
    call that persists the status. *)
Lemma Reconcile_live_run sel req w g L :
  (Get_Gateway req w).1 = inr g →
  IsZero (gw_DeletionTimestamp g) = true →
  controllerutil.ContainsFinalizer g gatewayFinalizer = true →
  (services.GetMatchingServices sel g (Get_Gateway req w).2).1 = inr L →
  ∃ w7 t1 t2,
    let st :=
      mkGatewayStatus
        (conditionsAfter t2 g conditionTypeAvailable metav1.ConditionTrue
           reasonConfigured "Gateway is available"
           (conditionsAfter t1 g conditionTypeReady metav1.ConditionTrue
              reasonReady
              ("Gateway is ready with "
                 +:+ pretty (length (mcp.range (MCPRegistry w7)))
                 +:+ " services")
              (Conditions (gw_Status g))))
        (mcp.toInfo <$> mcp.range (MCPRegistry w7))
        (":" +:+ pretty (MCPPort (gw_Spec g))) in
    Reconcile sel req w
      = (match (Status_Update (set_Status g st) w7).1 with
         | Some err => (mkResult false Minute, Some err)
         | None => (mkResult false (Minute * 5), None)
         end, (Status_Update (set_Status g st) w7).2)
    ∧ api_gateways w7 = api_gateways w
    ∧ faults w7
      = faults (services.GetMatchingServices sel g (Get_Gateway req w).2).2
    ∧ loopRel L (MCPRegistry w) (MCPRegistry w7)
    ∧ sw_gateways w7 = <[gw_key g := g]> (sw_gateways w)
    ∧ (∃ s', MCPServers w7 = <[gw_key g := s']> (MCPServers w)
             ∧ mcp.IsRunning s' = true ∧ configuredFor s' g)
    ∧ trace w7 = trace w ++ ensureEvents w (gw_key g) ++ [EvAddGateway (gw_key g)].
Proof.
  intros Hget Hlive Hfin Hlist.
  destruct (Reconcile_before_listing req w g Hget)
    as (Hrun & Hens & Hg3 & Hs3 & Hr3 & Hf3 & Hsw3 & Ht3 & s' & Hm3 & Hs').
  set (w1 := (Get_Gateway req w).2) in *.
  set (w3 := (services.AddGateway g (ensureMCPServer g w1).2).2) in *.
  destruct (GetMatchingServices_congr sel g w1 w3 Hf3 Hs3) as (Hres & Hw4).
  set (w4 := (services.GetMatchingServices sel g w3).2) in *.
  destruct (loop_spec L w4) as (_ & _ & Hloop).
  destruct (loop_registryStep L w4) as (Hg5 & _ & Hsw5 & Hm5 & _ & Hf5 & Ht5).
  set (w5 := (forM_ L registerMatching w4).2) in *.
  set (g1 := set_Address (mcp.UpdateRegistryStatus (MCPRegistry w5) g)
               (":" +:+ pretty (MCPPort (gw_Spec g)))).
  set (msg := "Gateway is ready with "
                +:+ pretty (length (MCPServices (gw_Status g1))) +:+ " services").
  destruct (updateGatewayCondition_run g1 conditionTypeReady metav1.ConditionTrue
              reasonReady msg w5) as (Eg2 & _ & Hr6).
  destruct (updateGatewayCondition_registryStep g1 conditionTypeReady
              metav1.ConditionTrue reasonReady msg w5)
    as ((Hg6 & _ & Hsw6 & Hm6 & _ & Hf6 & Ht6) & _).
  set (w6 := (updateGatewayCondition g1 conditionTypeReady metav1.ConditionTrue
                reasonReady msg w5).2) in *.
  set (g2 := (updateGatewayCondition g1 conditionTypeReady metav1.ConditionTrue
                reasonReady msg w5).1) in *.
  destruct (updateGatewayCondition_run g2 conditionTypeAvailable metav1.ConditionTrue
              reasonConfigured "Gateway is available" w6) as (Eg3 & _ & Hr7).
  destruct (updateGatewayCondition_registryStep g2 conditionTypeAvailable
              metav1.ConditionTrue reasonConfigured "Gateway is available" w6)
    as ((Hg7 & _ & Hsw7 & Hm7 & _ & Hf7 & Ht7) & _).
  set (w7 := (updateGatewayCondition g2 conditionTypeAvailable metav1.ConditionTrue
                reasonConfigured "Gateway is available" w6).2) in *.
  set (g3 := (updateGatewayCondition g2 conditionTypeAvailable metav1.ConditionTrue
                reasonConfigured "Gateway is available" w6).1) in *.
  assert (Hreg : MCPRegistry w7 = MCPRegistry w5) by congruence.
  exists w7, (now w5), (now w6). cbv zeta.
  assert (Eg : g3 = set_Status g
            (mkGatewayStatus
               (conditionsAfter (now w6) g conditionTypeAvailable metav1.ConditionTrue
                  reasonConfigured "Gateway is available"
                  (conditionsAfter (now w5) g conditionTypeReady metav1.ConditionTrue
                     reasonReady
                     ("Gateway is ready with "
                        +:+ pretty (length (mcp.range (MCPRegistry w7)))
                        +:+ " services")
                     (Conditions (gw_Status g))))
               (mcp.toInfo <$> mcp.range (MCPRegistry w7))
               (":" +:+ pretty (MCPPort (gw_Spec g))))).
  { rewrite Eg3, Eg2, Hreg. subst msg g1. unfold mcp.UpdateRegistryStatus. simpl.
    by rewrite length_fmap. }
  rewrite <- Eg.
  assert (Hlast : ∀ X W,
            (Status_Update X
               ≫= (λ e : option error,
                     match e with
                     | Some err => mret (mkResult false Minute, Some err)
                     | None => mret (mkResult false (Minute * 5), None)
                     end)) W
            = (match (Status_Update X W).1 with
               | Some err => (mkResult false Minute, Some err)
               | None => (mkResult false (Minute * 5), None)
               end, (Status_Update X W).2)).
  { intros X W. rewrite bind_run. by destruct (Status_Update X W) as [[e|] ?]. }
  split.
  { unfold Reconcile. rewrite bind_run, Hrun. cbn [fst snd].
    rewrite Hlive, Hfin. cbn [negb]. rewrite bind_run, Hens.
    rewrite bind_run. fold w3. rewrite bind_run.
    rewrite Hres, Hlist. fold w4. rewrite bind_run. fold w5.
    rewrite bind_run.
    change (UpdateRegistryStatus g w5)
      with (mcp.UpdateRegistryStatus (MCPRegistry w5) g, w5).
    cbn [fst snd]. rewrite bind_run. rewrite bind_run.
    exact (Hlast g3 w7). }
  rewrite Hreg.
  assert (Hr4 : MCPRegistry w4 = MCPRegistry w).
  { rewrite Hw4. unfold set_faults. cbn [MCPRegistry]. done. }
  rewrite Hr4 in Hloop.
  rewrite Hg7, Hg6, Hg5, Hf7, Hf6, Hf5, Hsw7, Hsw6, Hsw5, Hm7, Hm6, Hm5,
    Ht7, Ht6, Ht5, Hw4.
  unfold set_faults. cbn [api_gateways faults sw_gateways MCPServers trace].
  rewrite Hg3, Hsw3, Ht3, Hm3.
  repeat (split; [done|]). split; [by exists s'|done].
Qed.

End reconciler_run.

(** * The shape of the condition list *)

Section condition_shape.
Import metav1.
Implicit Types (c new : Condition) (cs : list Condition).

Lemma conditionOfType_cons ty c cs :
  conditionOfType ty (c :: cs)
  = if decide (cond_Type c = ty) then Some c else conditionOfType ty cs.
Proof.
  unfold conditionOfType. cbn [list_find].
  destruct (decide (cond_Type c = ty)); [done|].
  destruct (list_find _ cs) as [[i c']|]; done.
Qed.

(** A settled update has its entry in the list. *)
Lemma settled_condition new cs :
  controller.updateConditions new cs = None →
  ∃ c, conditionOfType (cond_Type new) cs = Some c ∧ unchanged c new.
Proof.
  induction cs as [|c0 cs IH]; simpl; [done|].
  rewrite conditionOfType_cons.
  destruct (decide (cond_Type c0 = cond_Type new)) as [Hc|Hc].
  - destruct (_ && _) eqn:E; [|done]. intros _.
    exists c0. split; [done|]. by apply unchanged_test.
  - destruct (controller.updateConditions new cs); [done|]. intros _. by apply IH.
Qed.

(** A write replaces an entry by one of its type or appends an entry of a
    type the list did not have. *)
Lemma updateConditions_types new cs cs' :
  controller.updateConditions new cs = Some cs' →
  (conditionTypes cs' = conditionTypes cs ∧ length cs' = length cs)
  ∨ (conditionTypes cs' = conditionTypes cs ++ [cond_Type new]
     ∧ (cond_Type new ∉ conditionTypes cs)
     ∧ length cs' = S (length cs)).
Proof.
  revert cs'. induction cs as [|c0 cs IH]; intros cs'; simpl.
  - intros [= <-]. right. split; [done|]. split; [apply not_elem_of_nil|done].
  - destruct (decide (cond_Type c0 = cond_Type new)) as [Hc|Hc].
    + destruct (_ && _); [done|]. intros [= <-]. left.
      unfold conditionTypes. simpl. by rewrite Hc.
    + destruct (controller.updateConditions new cs) as [cs''|]; [|done].
      intros [= <-]. unfold conditionTypes in *.
      destruct (IH cs'' eq_refl) as [[Ht Hl]|(Ht & Hn & Hl)].
      * left. rewrite fmap_cons, Ht. simpl. by rewrite Hl.
      * right. rewrite !fmap_cons, Ht. simpl. rewrite Hl.
        split; [done|]. split; [|done].
        intros [?|?]%elem_of_cons; [congruence|done].
Qed.

(** A write never touches an entry of another type. *)
Lemma updateConditions_other new cs cs' ty :
  controller.updateConditions new cs = Some cs' →
  ty ≠ cond_Type new →
  filter (λ c, cond_Type c = ty) cs' = filter (λ c, cond_Type c = ty) cs.
Proof.
  revert cs'. induction cs as [|c0 cs IH]; intros cs' Hupd Hty; simpl in Hupd.
  - injection Hupd as <-. rewrite filter_cons_False; done.
  - destruct (decide (cond_Type c0 = cond_Type new)) as [Hc0|Hc0].
    + destruct (_ && _); [discriminate|]. injection Hupd as <-.
      rewrite !filter_cons. rewrite !decide_False; [done|congruence..].
    + destruct (controller.updateConditions new cs) as [cs''|] eqn:E;
        [|discriminate].
      injection Hupd as <-. rewrite !filter_cons. rewrite (IH cs''); done.
Qed.

End condition_shape.

(** X18: after [updateGatewayCondition], whatever the list was, the entry
    of the type carries the status, reason and message of the call; the
    entries of every other type are what they were, in their order; the
    list keeps its length or grows by one; and a list that names every
    type once still does. *)
Theorem updateGatewayCondition_keeps_shape g ty st reason msg w :
  let cs := Conditions (gw_Status g) in
  let cs' := Conditions (gw_Status
               (controller.updateGatewayCondition g ty st reason msg w).1) in
  (∃ c, conditionOfType ty cs' = Some c
        ∧ metav1.cond_Status c = st
        ∧ metav1.cond_Reason c = reason
        ∧ metav1.cond_Message c = msg)
  ∧ (∀ ty', ty' ≠ ty →
       filter (λ c, metav1.cond_Type c = ty') cs'
       = filter (λ c, metav1.cond_Type c = ty') cs)
  ∧ (length cs ≤ length cs' ≤ S (length cs))%nat
  ∧ (NoDup (conditionTypes cs) → NoDup (conditionTypes cs')).
Proof.
  intros cs cs'.
  destruct (updateGatewayCondition_run g ty st reason msg w) as (E & _).
  subst cs'. rewrite E. cbn [gw_Status set_Conditions set_Status Conditions].
  fold cs. unfold conditionsAfter.
  set (new := metav1.mkCondition ty st (gw_Generation g) (now w) reason msg).
  split.
  { destruct (settled_condition new (default cs (controller.updateConditions new cs)))
      as (c & Hc & Hs & Hr & Hm).
    - by apply updateConditions_settles.
    - exists c. done. }
  destruct (controller.updateConditions new cs) as [cs'|] eqn:Hupd; simpl.
  - split; [intros ty' Hty; by apply (updateConditions_other new)|].
    destruct (updateConditions_types new cs cs' Hupd) as [[Ht Hl]|(Ht & Hn & Hl)].
    + rewrite Ht, Hl. split; [lia|done].
    + rewrite Ht, Hl. split; [lia|]. intros Hnd.
      apply NoDup_app. split; [done|]. split; [|apply NoDup_singleton].
      intros x Hx ->%list_elem_of_singleton. done.
  - split; [done|]. split; [lia|done].
Qed.

Lemma updateGatewayCondition_keeps_shape_witness :
  let ready := metav1.mkCondition "Ready" "False" 1 5 "ServerError" "boom" in
  let g := set_Conditions (sample.gateway "ga" "a") [ready] in
  NoDup (conditionTypes (Conditions (gw_Status
    (controller.updateGatewayCondition g "Available" "True" "GatewayConfigured"
       "Gateway is available" (sample.world [] [])).1))).
Proof.
  intros ready g.
  apply (updateGatewayCondition_keeps_shape g "Available" "True" "GatewayConfigured"
           "Gateway is available" (sample.world [] [])).
  apply NoDup_singleton.
Defined.

(** * Complete passes of the reconciler *)

(** X19: a pass over a live Gateway with the finalizer, a valid selector
    and every API call going through returns success with a revisit after
    five minutes, and leaves: the stored Gateway with its metadata and
    spec as fetched and a status whose address is [:port], whose Ready
    condition is True/GatewayReady with a message that counts the entries
    of the published service list, and whose Available condition is
    True/GatewayConfigured; a running listener configured for the Gateway;
    and the Gateway tracked by the watcher. *)
Theorem Reconcile_publishes sel req w g selector :
  faults w = [] →
  api_gateways w !! req = Some g →
  gw_key g = req →
  controller.IsZero (gw_DeletionTimestamp g) = true →
  controllerutil.ContainsFinalizer g controller.gatewayFinalizer = true →
  sel (ServiceSelector (gw_Spec g)) = inr selector →
  let w' := (controller.Reconcile sel req w).2 in
  (controller.Reconcile sel req w).1 = (mkResult false (Minute * 5), None)
  ∧ (∃ st,
       api_gateways w' !! req = Some (set_Status g st)
       ∧ Address st = ":" +:+ pretty (MCPPort (gw_Spec g))
       ∧ MCPServices st = mcp.toInfo <$> mcp.ListServices (MCPRegistry w')
       ∧ (∃ c, conditionOfType "Ready" (Conditions st) = Some c
               ∧ metav1.cond_Status c = "True"
               ∧ metav1.cond_Reason c = "GatewayReady"
               ∧ metav1.cond_Message c
                 = "Gateway is ready with "
                     +:+ pretty (length (MCPServices st)) +:+ " services")
       ∧ (∃ c, conditionOfType "Available" (Conditions st) = Some c
               ∧ metav1.cond_Status c = "True"
               ∧ metav1.cond_Reason c = "GatewayConfigured"
               ∧ metav1.cond_Message c = "Gateway is available"))
  ∧ (∃ s', MCPServers w' !! req = Some s'
           ∧ mcp.IsRunning s' = true ∧ configuredFor s' g)
  ∧ sw_gateways w' !! req = Some g.
Proof.
  intros Hf Hg Hkey Hlive Hfin Hsel w'. subst w'.
  pose proof (Get_Gateway_ok req w g Hf Hg) as Hget.
  assert (Hget1 : (Get_Gateway req w).1 = inr g) by by rewrite Hget.
  assert (Hlist : (services.GetMatchingServices sel g (Get_Gateway req w).2).1
                  = inr (matching selector w)).
  { rewrite Hget. cbn [snd]. by rewrite (GetMatchingServices_ok sel g selector w Hf Hsel). }
  destruct (Reconcile_live_run sel req w g _ Hget1 Hlive Hfin Hlist)
    as (w7 & t1 & t2 & Hrun & Hg7 & Hf7 & _ & Hsw7 & (s' & Hm7 & Hs') & _).
  cbv zeta in Hrun.
  set (st := mkGatewayStatus _ _ _) in Hrun.
  assert (Hf7' : faults w7 = []).
  { rewrite Hf7, Hget. cbn [snd].
    by rewrite (GetMatchingServices_ok sel g selector w Hf Hsel). }
  assert (Hold : api_gateways w7 !! gw_key (set_Status g st) = Some g).
  { change (gw_key (set_Status g st)) with (gw_key g). by rewrite Hkey, Hg7. }
  destruct (Status_Update_ok (set_Status g st) g w7 Hf7' Hold)
    as (Hres & Hst & _ & _ & _ & Hreg).
  destruct (Status_Update_frame (set_Status g st) w7) as (_ & _ & Hsw8 & Hm8 & _).
  rewrite Hrun, Hres. cbn [fst snd].
  change (gw_key (set_Status g st)) with (gw_key g) in Hst.
  rewrite Hkey in Hst.
  split; [done|]. split; [|split].
  - exists st. rewrite Hst, lookup_insert_eq, Hreg.
    split; [done|]. split; [done|]. split; [done|]. subst st. cbn [Conditions MCPServices].
    rewrite length_fmap.
    set (msg := "Gateway is ready with " +:+ _ +:+ " services").
    split.
    + destruct (settled_condition
                  (metav1.mkCondition controller.conditionTypeReady metav1.ConditionTrue
                     0 0 controller.reasonReady msg)
                  (conditionsAfter t2 g controller.conditionTypeAvailable
                     metav1.ConditionTrue controller.reasonConfigured
                     "Gateway is available"
                     (conditionsAfter t1 g controller.conditionTypeReady
                        metav1.ConditionTrue controller.reasonReady msg
                        (Conditions (gw_Status g)))))
        as (c & Hc & Hs & Hr & Hm).
      { unfold conditionsAfter at 1.
        apply updateConditions_settled_other; [done|].
        unfold conditionsAfter. by apply updateConditions_settles. }
      exists c. done.
    + destruct (settled_condition
                  (metav1.mkCondition controller.conditionTypeAvailable
                     metav1.ConditionTrue 0 0 controller.reasonConfigured
                     "Gateway is available")
                  (conditionsAfter t2 g controller.conditionTypeAvailable
                     metav1.ConditionTrue controller.reasonConfigured
                     "Gateway is available"
                     (conditionsAfter t1 g controller.conditionTypeReady
                        metav1.ConditionTrue controller.reasonReady msg
                        (Conditions (gw_Status g)))))
        as (c & Hc & Hs & Hr & Hm).
      { unfold conditionsAfter at 1. by apply updateConditions_settles. }
      exists c. done.
  - exists s'. rewrite Hm8, Hm7, <- Hkey, lookup_insert_eq. done.
  - by rewrite Hsw8, Hsw7, <- Hkey, lookup_insert_eq.
Qed.

Lemma Reconcile_publishes_witness :
  let w := sample.world [sample.gateway "ga" "a"] [] in
  let w' := (controller.Reconcile metav1.matchSelector (mkNN "ns" "ga") w).2 in
  ∃ st c,
    api_gateways w' !! mkNN "ns" "ga" = Some (set_Status (sample.gateway "ga" "a") st)
    ∧ Address st = ":8080"
    ∧ conditionOfType "Ready" (Conditions st) = Some c
    ∧ metav1.cond_Message c
      = "Gateway is ready with " +:+ pretty (length (MCPServices st)) +:+ " services".
Proof.
  intros w w'.
  destruct (metav1.matchSelector (ServiceSelector (gw_Spec (sample.gateway "ga" "a"))))
    as [e|selector] eqn:Hsel; [discriminate Hsel|].
  destruct (Reconcile_publishes metav1.matchSelector (mkNN "ns" "ga") w
              (sample.gateway "ga" "a") selector)
    as (_ & (st & Hst & Ha & _ & (c & Hc & _ & _ & Hm) & _) & _).
  - reflexivity.
  - vm_compute. reflexivity.
  - reflexivity.
  - reflexivity.
  - reflexivity.
  - exact Hsel.
  - exists st, c. repeat split; assumption.
Defined.

(** X20: when the call that persists the status fails, [Reconcile]
    returns that error with a requeue after one minute; the stored Gateway
    is what it was, while the registrations of the matching services have
    already been made, the listener runs and the Gateway is tracked. *)
Theorem Reconcile_persist_failure sel req w g L err fs :
  (Get_Gateway req w).1 = inr g →
  controller.IsZero (gw_DeletionTimestamp g) = true →
  controllerutil.ContainsFinalizer g controller.gatewayFinalizer = true →
  (services.GetMatchingServices sel g (Get_Gateway req w).2).1 = inr L →
  faults (services.GetMatchingServices sel g (Get_Gateway req w).2).2
    = Some err :: fs →
  let w' := (controller.Reconcile sel req w).2 in
  (controller.Reconcile sel req w).1 = (mkResult false Minute, Some err)
  ∧ api_gateways w' = api_gateways w
  ∧ loopRel L (MCPRegistry w) (MCPRegistry w')
  ∧ (∃ s', MCPServers w' !! gw_key g = Some s' ∧ mcp.IsRunning s' = true)
  ∧ sw_gateways w' !! gw_key g = Some g.
Proof.
  intros Hget Hlive Hfin Hlist Hfaults w'. subst w'.
  destruct (Reconcile_live_run sel req w g L Hget Hlive Hfin Hlist)
    as (w7 & t1 & t2 & Hrun & Hg7 & Hf7 & Hloop & Hsw7 & (s' & Hm7 & Hs' & _) & _).
  cbv zeta in Hrun.
  set (st := mkGatewayStatus _ _ _) in Hrun.
  destruct (Status_Update_frame (set_Status g st) w7)
    as (Hr8 & _ & Hsw8 & Hm8 & Hg8 & Hres).
  assert (Hfail : (Status_Update (set_Status g st) w7).1 = Some err).
  { rewrite Hres. unfold outcome. by rewrite Hf7, Hfaults. }
  rewrite Hrun. cbn [fst snd]. rewrite Hfail in Hg8 |- *.
  rewrite Hg8, Hr8, Hm8, Hsw8, Hg7, Hm7, Hsw7, !lookup_insert_eq.
  repeat (split; [done|]). split; [by exists s'|done].
Qed.

Lemma Reconcile_persist_failure_witness :
  let w := set_faults [None; None; Some (ErrOther "conflict")]
             (sample.world [sample.gateway "ga" "a"] [sample.service "sa" "a"]) in
  let w' := (controller.Reconcile metav1.matchSelector (mkNN "ns" "ga") w).2 in
  (controller.Reconcile metav1.matchSelector (mkNN "ns" "ga") w).1
    = (mkResult false Minute, Some (ErrOther "conflict"))
  ∧ api_gateways w' = api_gateways w.
Proof.
  intros w w'.
  destruct (Reconcile_persist_failure metav1.matchSelector (mkNN "ns" "ga") w
              (sample.gateway "ga" "a") [sample.service "sa" "a"]
              (ErrOther "conflict") [])
    as (H1 & H2 & _).
  - vm_compute. reflexivity.
  - reflexivity.
  - reflexivity.
  - vm_compute. reflexivity.
  - vm_compute. reflexivity.
  - split; [exact H1|exact H2].
Defined.

(** X21: [cleanupGateway] is scoped to one identity and can be repeated:
    it removes the listener handle and the tracking entry of that identity
    and leaves those of every other identity, the registry and the store
    alone (deleting a Gateway deregisters no service); a second run finds
    nothing to stop and only untracks again. *)
Theorem cleanupGateway_scoped k w :
  let w' := (controller.cleanupGateway k w).2 in
  let w'' := (controller.cleanupGateway k w').2 in
  (∀ k', MCPServers w' !! k' = if decide (k' = k) then None else MCPServers w !! k')
  ∧ (∀ k', sw_gateways w' !! k' = if decide (k' = k) then None else sw_gateways w !! k')
  ∧ MCPRegistry w' = MCPRegistry w
  ∧ api_gateways w' = api_gateways w
  ∧ MCPServers w'' = MCPServers w'
  ∧ sw_gateways w'' = sw_gateways w'
  ∧ trace w'' = trace w' ++ [EvRemoveGateway k].
Proof.
  intros w' w''.
  destruct (cleanupGateway_effects k w) as (_ & Hm & Hs).
  destruct (cleanupGateway_frame k w) as (Hr & Hg & _).
  destruct (cleanupGateway_effects k w') as (Ht' & Hm' & Hs').
  fold w' in Hm, Hs, Hr, Hg. fold w'' in Ht', Hm', Hs'.
  split; [|split].
  - intros k'. rewrite Hm. case_decide as Hk.
    + subst. apply lookup_delete_eq.
    + by apply lookup_delete_ne.
  - intros k'. rewrite Hs. case_decide as Hk.
    + subst. apply lookup_delete_eq.
    + by apply lookup_delete_ne.
  - split; [done|]. split; [done|].
    rewrite Hm', Hs', Ht'. unfold cleanupEvents.
    by rewrite Hm, Hs, !lookup_delete_eq, !delete_delete_eq.
Qed.

(** * Invariants of a pass *)

Section reconcile_invariant.
Import controller.

Variable R : World → World → Prop.
Variable P : Gateway → Prop.
Variable sel : metav1.LabelSelector → error + metav1.Selector.
Variable req : NamespacedName.

Hypothesis R_refl : ∀ w, R w w.
Hypothesis R_trans : ∀ w1 w2 w3, R w1 w2 → R w2 w3 → R w1 w3.
Hypothesis P_key : ∀ g g', P g → gw_key g' = gw_key g → P g'.

Hypothesis R_Get : steps R (Get_Gateway req).
Hypothesis R_cleanup_req : steps R (cleanupGateway req).
Hypothesis R_cleanup : ∀ g, P g → steps R (cleanupGateway (gw_key g)).
Hypothesis R_Update : ∀ g, P g → steps R (Update g).
Hypothesis R_ensure : ∀ g, P g → steps R (ensureMCPServer g).
Hypothesis R_condition :
  ∀ g ty st reason msg, steps R (updateGatewayCondition g ty st reason msg).
Hypothesis R_AddGateway : ∀ g, P g → steps R (services.AddGateway g).
Hypothesis R_listing : ∀ g, steps R (services.GetMatchingServices sel g).
Hypothesis R_register : ∀ svc, steps R (registerMatching svc).
Hypothesis R_Status_Update : ∀ g, P g → steps R (Status_Update g).

Lemma steps_seq {A B} (m : M A) (f : A → M B) w :
  R w (m w).2 → R (m w).2 (f (m w).1 (m w).2).2 → R w ((m ≫= f) w).2.
Proof. intros H1 H2. rewrite bind_run. by eapply R_trans. Qed.

Lemma steps_loop {A} (xs : list A) (body : A → M unit) :
  (∀ x, steps R (body x)) → steps R (forM_ xs body).
Proof.
  intros Hbody. induction xs as [|x xs IH]; intros w; [apply R_refl|].
  cbn [forM_]. apply steps_seq; [apply Hbody|apply IH].
Qed.

Lemma updateGatewayCondition_key g ty st reason msg w :
  gw_key (updateGatewayCondition g ty st reason msg w).1 = gw_key g.
Proof.
  destruct (updateGatewayCondition_run g ty st reason msg w) as (-> & _). done.
Qed.

(** A relation that every step of the reconciler respects holds between
    the worlds before and after a pass. *)
Lemma Reconcile_invariant w :
  (∀ g, (Get_Gateway req w).1 = inr g → P g) →
  R w (Reconcile sel req w).2.
Proof.
  intros HP. unfold Reconcile. apply steps_seq; [apply R_Get|].
  destruct (Get_Gateway req w) as [[err|g] w1]; cbn [fst snd] in *.
  - destruct (IsNotFound err); [|apply R_refl].
    apply steps_seq; [apply R_cleanup_req|apply R_refl].
  - specialize (HP g eq_refl).
    destruct (negb (IsZero (gw_DeletionTimestamp g))).
    { unfold handleDeletion. fold (gw_key g).
      apply steps_seq; [by apply R_cleanup|].
      destruct (controllerutil.ContainsFinalizer g gatewayFinalizer); [|apply R_refl].
      apply steps_seq.
      - apply R_Update. apply (P_key g); [done|done].
      - destruct (Update _ _).1; apply R_refl. }
    destruct (negb (controllerutil.ContainsFinalizer g gatewayFinalizer)).
    { apply steps_seq.
      - apply R_Update. apply (P_key g); [done|].
        unfold controllerutil.AddFinalizer.
        by destruct (controllerutil.ContainsFinalizer g gatewayFinalizer).
      - destruct (Update _ _).1; apply R_refl. }
    apply steps_seq; [by apply R_ensure|].
    destruct (ensureMCPServer g w1).1.
    { apply steps_seq; [apply R_condition|apply R_refl]. }
    apply steps_seq; [by apply R_AddGateway|].
    apply steps_seq; [apply R_listing|].
    destruct (services.GetMatchingServices sel g _).1 as [err|L].
    { apply steps_seq; [apply R_condition|apply R_refl]. }
    apply steps_seq; [apply steps_loop, R_register|].
    apply steps_seq; [apply R_refl|].
    apply steps_seq; [apply R_condition|].
    apply steps_seq; [apply R_condition|].
    apply steps_seq.
    + apply R_Status_Update. apply (P_key g); [done|].
      by rewrite !updateGatewayCondition_key.
    + destruct (Status_Update _ _).1; apply R_refl.
Qed.

End reconcile_invariant.

Section pass_invariants.
Import controller.

Lemma Get_Gateway_inr req w g :
  (Get_Gateway req w).1 = inr g → api_gateways w !! req = Some g.
Proof.
  unfold Get_Gateway. rewrite bind_run. unfold outcome.
  destruct (faults w) as [|[e|] fs]; simpl; [|done|];
    destruct (api_gateways w !! req); by intros [= ->].
Qed.

Lemma AddGateway_frame g w :
  MCPRegistry (services.AddGateway g w).2 = MCPRegistry w
  ∧ api_gateways (services.AddGateway g w).2 = api_gateways w
  ∧ MCPServers (services.AddGateway g w).2 = MCPServers w
  ∧ sw_gateways (services.AddGateway g w).2 = <[gw_key g := g]> (sw_gateways w).
Proof. done. Qed.

Lemma GetMatchingServices_frame sel g w :
  MCPRegistry (services.GetMatchingServices sel g w).2 = MCPRegistry w
  ∧ api_gateways (services.GetMatchingServices sel g w).2 = api_gateways w
  ∧ MCPServers (services.GetMatchingServices sel g w).2 = MCPServers w
  ∧ sw_gateways (services.GetMatchingServices sel g w).2 = sw_gateways w.
Proof.
  destruct (GetMatchingServices_congr sel g w w eq_refl eq_refl) as (_ & ->). done.
Qed.

End pass_invariants.

(** X22: the Gateway reconciler never deregisters: on every path of
    [Reconcile], whatever the API server answers, an identity that the
    registry held before the pass is still registered after it.  Only the
    watcher removes registrations. *)
Theorem Reconcile_never_deregisters sel req w k :
  is_Some (mcp.GetService (MCPRegistry w) k) →
  is_Some (mcp.GetService (MCPRegistry (controller.Reconcile sel req w).2) k).
Proof.
  set (R := λ w w' : World,
         ∀ k, is_Some (mcp.services (MCPRegistry w) !! k) →
              is_Some (mcp.services (MCPRegistry w') !! k)).
  assert (Hsame : ∀ w1 w2, MCPRegistry w2 = MCPRegistry w1 → R w1 w2).
  { intros w1 w2 E k' Hk. by rewrite E. }
  revert k. change (R w (controller.Reconcile sel req w).2).
  apply (Reconcile_invariant R (λ _, True)).
  - intros w1 k Hk. done.
  - intros w1 w2 w3 H1 H2 k Hk. by apply H2, H1.
  - done.
  - intros w1. apply Hsame, Get_Gateway_frame.
  - intros w1. apply Hsame, cleanupGateway_frame.
  - intros g _ w1. apply Hsame, cleanupGateway_frame.
  - intros g _ w1. apply Hsame, Update_frame.
  - intros g _ w1. apply Hsame, ensureMCPServer_ok.
  - intros g ty st reason msg w1. apply Hsame, updateGatewayCondition_registryStep.
  - intros g _ w1. apply Hsame, AddGateway_frame.
  - intros g w1. apply Hsame, GetMatchingServices_frame.
  - intros svc w1 k Hk.
    destruct (registerMatching_step svc w1) as (_ & _ & Hreg).
    destruct (registers svc).
    + destruct Hreg as (m & -> & _). simpl.
      destruct (decide (k = svc_key svc)) as [->|Hne].
      * rewrite lookup_insert_eq. by eexists.
      * by rewrite lookup_insert_ne.
    + by rewrite Hreg.
  - intros g _ w1. apply Hsame, Status_Update_frame.
  - done.
Qed.

Lemma Reconcile_never_deregisters_witness :
  let g := mkGateway "ga" "ns" 1 (Some 50) [controller.gatewayFinalizer]
             (gw_Spec (sample.gateway "ga" "a")) (mkGatewayStatus [] [] "") in
  let w := set_MCPRegistry
             (mcp.RegisterService 7 mcp.NewRegistry (sample.service "sa" "a")
                mcp.ServiceTypeTool).1
             (sample.world [g] []) in
  is_Some (mcp.GetService
             (MCPRegistry (controller.Reconcile metav1.matchSelector (mkNN "ns" "ga") w).2)
             (mkNN "ns" "sa")).
Proof.
  intros g w.
  apply (Reconcile_never_deregisters metav1.matchSelector (mkNN "ns" "ga") w).
  by eexists.
Defined.

(** X23: a pass for one Gateway is isolated from the others: whatever
    path [Reconcile] takes and whatever the API server answers, the
    listener handle, the tracking entry and the stored object of every
    other identity are what they were. *)
Theorem Reconcile_isolated sel req w k :
  (∀ g, api_gateways w !! req = Some g → gw_key g = req) →
  k ≠ req →
  let w' := (controller.Reconcile sel req w).2 in
  MCPServers w' !! k = MCPServers w !! k
  ∧ sw_gateways w' !! k = sw_gateways w !! k
  ∧ api_gateways w' !! k = api_gateways w !! k.
Proof.
  intros Hwf Hk.
  set (R := λ w w' : World,
         ∀ k, k ≠ req →
              MCPServers w' !! k = MCPServers w !! k
              ∧ sw_gateways w' !! k = sw_gateways w !! k
              ∧ api_gateways w' !! k = api_gateways w !! k).
  assert (Hsame : ∀ w1 w2, MCPServers w2 = MCPServers w1 →
            sw_gateways w2 = sw_gateways w1 → api_gateways w2 = api_gateways w1 →
            R w1 w2).
  { intros w1 w2 E1 E2 E3 k' _. by rewrite E1, E2, E3. }
  revert k Hk. change (R w (controller.Reconcile sel req w).2).
  apply (Reconcile_invariant R (λ g, gw_key g = req)).
  - intros w1 k' _. done.
  - intros w1 w2 w3 H1 H2 k' Hk'.
    destruct (H1 k' Hk') as (E1 & E2 & E3). destruct (H2 k' Hk') as (F1 & F2 & F3).
    by rewrite F1, F2, F3.
  - intros g g' Hg Hg'. congruence.
  - intros w1. apply Hsame; apply Get_Gateway_frame.
  - intros w1 k' Hk'.
    destruct (cleanupGateway_effects req w1) as (_ & -> & ->).
    destruct (cleanupGateway_frame req w1) as (_ & -> & _).
    by rewrite !lookup_delete_ne.
  - intros g Hg w1 k' Hk'. rewrite Hg.
    destruct (cleanupGateway_effects req w1) as (_ & -> & ->).
    destruct (cleanupGateway_frame req w1) as (_ & -> & _).
    by rewrite !lookup_delete_ne.
  - intros g Hg w1 k' Hk'.
    destruct (Update_effects g w1) as (o & _ & -> & ->).
    destruct (Update_frame g w1) as (_ & _ & ->).
    split; [done|]. split; [done|].
    destruct (Update g w1).1; [done|].
    destruct (api_gateways w1 !! gw_key g); [|done].
    unfold stored_after_Update. rewrite Hg.
    destruct (_ && _); [by rewrite lookup_delete_ne|by rewrite lookup_insert_ne].
  - intros g Hg w1 k' Hk'.
    destruct (ensureMCPServer_run g w1)
      as (_ & -> & _ & -> & _ & _ & _ & _ & s' & -> & _).
    rewrite Hg. by rewrite lookup_insert_ne.
  - intros g ty st reason msg w1.
    destruct (updateGatewayCondition_registryStep g ty st reason msg w1)
      as ((E1 & _ & E2 & E3 & _) & _).
    by apply Hsame.
  - intros g Hg w1 k' Hk'.
    destruct (AddGateway_frame g w1) as (_ & -> & -> & ->).
    rewrite Hg. by rewrite lookup_insert_ne.
  - intros g w1. apply Hsame; apply GetMatchingServices_frame.
  - intros svc w1.
    destruct (registerMatching_registryStep svc w1) as (E1 & _ & E2 & E3 & _).
    by apply Hsame.
  - intros g Hg w1 k' Hk'.
    destruct (Status_Update_frame g w1) as (_ & _ & -> & -> & -> & _).
    split; [done|]. split; [done|].
    destruct (Status_Update g w1).1; [done|].
    destruct (api_gateways w1 !! gw_key g); [|done].
    rewrite Hg. by rewrite lookup_insert_ne.
  - intros g Hg. apply Hwf. by apply Get_Gateway_inr.
Qed.

Lemma Reconcile_isolated_witness :
  let w := sample.world [sample.gateway "ga" "a"; sample.gateway "gb" "b"]
                        [sample.service "sa" "a"] in
  api_gateways (controller.Reconcile metav1.matchSelector (mkNN "ns" "ga") w).2
    !! mkNN "ns" "gb" = Some (sample.gateway "gb" "b").
Proof.
  intros w.
  destruct (Reconcile_isolated metav1.matchSelector (mkNN "ns" "ga") w (mkNN "ns" "gb"))
    as (_ & _ & ->).
  - intros g Hg. vm_compute in Hg. injection Hg as <-. reflexivity.
  - discriminate.
  - vm_compute. reflexivity.
Defined.

(** * The watcher and the reconciler together *)

Lemma registers_enabled svc :
  registers svc = true → services.isMCPEnabledService svc = true.
Proof.
  unfold registers, services.isMCPEnabledService, services.IsMCPEnabledService, index.
  destruct (svc_Labels svc) as [labels|]; simpl; [|done].
  destruct (labels !! services.MCPEnabledLabel) as [val|]; simpl; [|done].
  by intros [H _]%andb_true_iff.
Qed.

(** X24: when a backend service loses the enablement label, the watcher's
    [Reconcile] deregisters it without writing any Gateway status; the
    next complete pass of the Gateway reconciler publishes a service list
    that has no entry for that service. *)
Theorem disabled_service_leaves_status sel key req w g selector svc :
  faults w = [] →
  services_wf w →
  registry_wf (MCPRegistry w) →
  api_services w !! key = Some svc →
  services.isMCPEnabledService svc = false →
  api_gateways w !! req = Some g →
  gw_key g = req →
  controller.IsZero (gw_DeletionTimestamp g) = true →
  controllerutil.ContainsFinalizer g controller.gatewayFinalizer = true →
  sel (ServiceSelector (gw_Spec g)) = inr selector →
  let w1 := (services.Reconcile key w).2 in
  let w2 := (controller.Reconcile sel req w1).2 in
  api_gateways w1 = api_gateways w
  ∧ mcp.GetService (MCPRegistry w1) key = None
  ∧ ∃ st, published w2 req = Some st
          ∧ ∀ i, i ∈ MCPServices st →
                 mkNN (info_Namespace i) (info_Name i) ≠ key.
Proof.
  intros Hf Hswf Hrwf Hsvc Hdis Hg Hkey Hlive Hfin Hsel w1 w2.
  assert (Hget : Get_Service key w = (inr svc, w)).
  { unfold Get_Service. rewrite bind_run, outcome_nil by done. simpl. by rewrite Hsvc. }
  destruct (proj1 (watcher_Reconcile_without_registration key w)) as (Erun & Hgone & Hst & _).
  { rewrite Hget. simpl. by rewrite Hdis. }
  rewrite Hget in Erun. cbn [snd] in Erun.
  fold w1 in Hgone, Hst.
  assert (Ew1 : w1 = set_MCPRegistry (mcp.DeregisterService (MCPRegistry w) key).1 w).
  { subst w1. by rewrite Erun. }
  assert (Hf1 : faults w1 = []) by by rewrite Ew1.
  assert (Hs1 : api_services w1 = api_services w) by by rewrite Ew1.
  assert (Hwf1 : registry_wf (MCPRegistry w1)).
  { rewrite Ew1. simpl. unfold mcp.DeregisterService.
    destruct (mcp.services (MCPRegistry w) !! key); simpl; [|done].
    by apply map_Forall_delete. }
  assert (Hg1 : api_gateways w1 !! req = Some g) by by rewrite Hst.
  split; [done|]. split; [done|].
  destruct (Reconcile_live sel req w1 g selector Hf1 Hg1 Hkey Hlive Hfin Hsel)
    as (w' & t1 & t2 & Hrun & _ & _ & Hwf' & Hloop & Hstore).
  subst w2. rewrite Hrun. cbn [snd].
  eexists. split.
  { unfold published. rewrite Hstore, lookup_insert_eq. reflexivity. }
  cbn [gw_Status set_Status MCPServices].
  intros i Hi Hid.
  apply list_elem_of_fmap in Hi as (m & -> & Hm).
  unfold mcp.range in Hm. apply list_elem_of_fmap in Hm as ([k' m'] & -> & Hkm).
  apply elem_of_map_to_list in Hkm. simpl in Hid.
  pose proof (Hwf' Hwf1 k' m' Hkm) as Hk'. simpl in Hk'.
  rewrite Hid in Hk'. subst k'.
  specialize (Hloop key).
  destruct (lastRegistered (matching selector w1) key) as [s|] eqn:Hlast.
  - apply lastRegistered_Some in Hlast as (Hreg & Hsk & Hin).
    unfold matching in Hin. apply list_elem_of_filter in Hin as [_ Hin].
    apply list_elem_of_fmap in Hin as ([k2 s2] & -> & Hks).
    apply elem_of_map_to_list in Hks. rewrite Hs1 in Hks.
    pose proof (Hswf k2 s2 Hks) as Hk2. simpl in Hk2, Hsk.
    rewrite Hsk in Hk2. subst k2. rewrite Hsvc in Hks. injection Hks as <-.
    simpl in Hreg. apply registers_enabled in Hreg. congruence.
  - rewrite Hloop in Hkm. unfold mcp.GetService in Hgone. congruence.
Qed.

Lemma disabled_service_leaves_status_witness :
  let off := mkService "sa" "ns" (Some {[ "app" := "a" ]}) (Some sample.annotations)
               sample.clusterIP in
  let w := set_MCPRegistry
             (mcp.RegisterService 7 mcp.NewRegistry (sample.service "sa" "a")
                mcp.ServiceTypeTool).1
             (sample.world [sample.gateway "ga" "a"] [off]) in
  let w1 := (services.Reconcile (mkNN "ns" "sa") w).2 in
  let w2 := (controller.Reconcile metav1.matchSelector (mkNN "ns" "ga") w1).2 in
  ∃ st, published w2 (mkNN "ns" "ga") = Some st
        ∧ ∀ i, i ∈ MCPServices st →
               mkNN (info_Namespace i) (info_Name i) ≠ mkNN "ns" "sa".
Proof.
  intros off w w1 w2.
  destruct (metav1.matchSelector (ServiceSelector (gw_Spec (sample.gateway "ga" "a"))))
    as [e|selector] eqn:Hsel; [discriminate Hsel|].
  destruct (disabled_service_leaves_status metav1.matchSelector (mkNN "ns" "sa")
              (mkNN "ns" "ga") w (sample.gateway "ga" "a") selector off)
    as (_ & _ & Hst).
  - reflexivity.
  - apply (bool_decide_unpack _). vm_compute. exact I.
  - apply (bool_decide_unpack _). vm_compute. exact I.
  - vm_compute. reflexivity.
  - reflexivity.
  - vm_compute. reflexivity.
  - reflexivity.
  - reflexivity.
  - reflexivity.
  - exact Hsel.
  - exact Hst.
Defined.

(** X25: the pass over a Gateway marked for deletion returns success when
    the Gateway does not carry the finalizer or the [Update] that removes
    it goes through, and the error of that [Update] otherwise; in the
    latter case the stored Gateway is what it was, finalizer included, so
    that the deletion is tried again; the registry is not touched on this
    path. *)
Theorem Reconcile_deletion_result sel req w g :
  (Get_Gateway req w).1 = inr g →
  controller.IsZero (gw_DeletionTimestamp g) = false →
  let w2 := (controller.cleanupGateway (gw_key g) (Get_Gateway req w).2).2 in
  let g' := controllerutil.RemoveFinalizer g controller.gatewayFinalizer in
  let w' := (controller.Reconcile sel req w).2 in
  (controller.Reconcile sel req w).1
    = (mkResult false 0,
       if controllerutil.ContainsFinalizer g controller.gatewayFinalizer
       then (Update g' w2).1 else None)
  ∧ MCPRegistry w' = MCPRegistry w
  ∧ ((controller.Reconcile sel req w).1.2 ≠ None → api_gateways w' = api_gateways w).
Proof.
  intros Hget Hdel w2 g' w'. subst w'.
  destruct (Get_Gateway_frame req w) as (_ & _ & Hg & Hr).
  set (w1 := (Get_Gateway req w).2) in *.
  destruct (cleanupGateway_frame (gw_key g) w1) as (Hr2 & Hg2 & _).
  fold w2 in Hr2, Hg2.
  assert (Erun : controller.Reconcile sel req w
                 = ((mkResult false 0,
                     if controllerutil.ContainsFinalizer g controller.gatewayFinalizer
                     then (Update g' w2).1 else None),
                    if controllerutil.ContainsFinalizer g controller.gatewayFinalizer
                    then (Update g' w2).2 else w2)).
  { unfold controller.Reconcile. rewrite bind_run. subst w1 w2.
    destruct (Get_Gateway req w) as [res w1]. simpl in Hget. subst res.
    cbn [fst snd]. rewrite Hdel. cbn [negb].
    unfold controller.handleDeletion. fold (gw_key g). rewrite bind_run.
    destruct (controllerutil.ContainsFinalizer g controller.gatewayFinalizer); [|done].
    rewrite bind_run. fold g'.
    by destruct (Update g' (controller.cleanupGateway (gw_key g) w1).2) as [[e|] w3]. }
  rewrite Erun. cbn [fst snd].
  split; [done|].
  destruct (controllerutil.ContainsFinalizer g controller.gatewayFinalizer).
  - destruct (Update_frame g' w2) as (Hr3 & _ & Hg3).
    split; [congruence|]. intros Herr.
    rewrite Hg3. destruct (Update g' w2).1; [congruence|done].
  - split; [congruence|]. done.
Qed.

Lemma Reconcile_deletion_result_witness :
  let g := mkGateway "ga" "ns" 1 (Some 50) [controller.gatewayFinalizer]
             (gw_Spec (sample.gateway "ga" "a")) (mkGatewayStatus [] [] "") in
  let w := set_faults [None; Some (ErrOther "conflict")] (sample.world [g] []) in
  (controller.Reconcile metav1.matchSelector (mkNN "ns" "ga") w).1
    = (mkResult false 0, Some (ErrOther "conflict"))
  ∧ api_gateways (controller.Reconcile metav1.matchSelector (mkNN "ns" "ga") w).2
    = api_gateways w.
Proof.
  intros g w.
  destruct (Reconcile_deletion_result metav1.matchSelector (mkNN "ns" "ga") w g)
    as (Hres & _ & Hkeep).
  - vm_compute. reflexivity.
  - reflexivity.
  - split; [exact Hres|]. apply Hkeep. rewrite Hres. discriminate.
Defined.
